(** * SaifuFinanceBot: the transaction dialog, the spreadsheet gateway and the
    report generator of [saifu_finance_bot.py], embedded in Rocq.

    The file has two parts.  The first part holds the definitions: a small
    model of the Python run time the bot relies on (text methods, binary64
    floats, [datetime.strptime], [csv.writer]) followed by the bot's own
    functions, each translated statement by statement and keeping its
    source name.  The second part holds the theorems.

    Conventions of the embedding.
    - Text is a [string] of 8-bit characters; the text methods behave as
      Python's do on ASCII, and codes above 127 are inert (neither digit,
      space nor upper case).
    - A Python [float] is a binary64 value, modelled by [spec_float] with
      precision 53 and maximal exponent 1024, the IEEE 754 specification
      of the standard library; additions round to nearest, ties to even.
    - A spreadsheet cell read back by [get_all_records] is text or an
      integer ([CStr], [CInt]), as are the cells the bot writes; cells
      that read back as floats are outside the model.  A record is a
      finite map from column header to cell.
    - A handler runs in a monad threading the observable world (replies,
      attachments, log, rows appended, session data) and an exception. *)

From Stdlib Require Import ZArith String Ascii List Lia Bool SpecFloat DecimalString.
From stdpp Require Import gmap strings list.
Import ListNotations.

Local Open Scope string_scope.
Local Open Scope Z_scope.

(* ===================================================================== *)
(** * Part I: definitions                                                 *)
(* ===================================================================== *)

(** ** Python exceptions that the modelled code can meet *)

Inductive exn : Type :=
  | ValueError
  | TypeError
  | AttributeError
  | OverflowError
  | KeyError (key : string)
  | CredentialsError          (* credential file missing or rejected *)
  | SpreadsheetNotFound
  | WorksheetNotFound
  | APIError.                 (* the remote store rejects or is unreachable *)

Inductive result (A : Type) : Type :=
  | Ok (a : A)
  | Raise (e : exn).
Arguments Ok {A} a.
Arguments Raise {A} e.

Definition is_ok {A} (r : result A) : bool :=
  match r with Ok _ => true | Raise _ => false end.

(** ** Text methods *)

Module PyStr.

Definition code (c : ascii) : Z := Z.of_N (N_of_ascii c).

(** [str.isspace] on ASCII: tab, LF, VT, FF, CR, FS, GS, RS, US, space. *)
Definition is_space (c : ascii) : bool :=
  let n := code c in
  ((9 <=? n) && (n <=? 13)) || ((28 <=? n) && (n <=? 32)).

Definition is_digit (c : ascii) : bool :=
  let n := code c in (48 <=? n) && (n <=? 57).

Definition digit_val (c : ascii) : Z := code c - 48.

Definition lower_char (c : ascii) : ascii :=
  let n := code c in
  if (65 <=? n) && (n <=? 90) then ascii_of_N (Z.to_N (n + 32)) else c.

(** White space for [float(s)] on ASCII text: tab, LF, VT, FF, CR, space. *)
Definition is_c_space (c : ascii) : bool :=
  let n := code c in
  ((9 <=? n) && (n <=? 13)) || (n =? 32).

Fixpoint lstrip_by (p : ascii -> bool) (s : string) : string :=
  match s with
  | String c s' => if p c then lstrip_by p s' else s
  | EmptyString => EmptyString
  end.

Fixpoint rstrip_by (p : ascii -> bool) (s : string) : string :=
  match s with
  | String c s' =>
      match rstrip_by p s' with
      | EmptyString => if p c then EmptyString else String c EmptyString
      | r => String c r
      end
  | EmptyString => EmptyString
  end.

Definition strip_by (p : ascii -> bool) (s : string) : string :=
  rstrip_by p (lstrip_by p s).

(** [s.strip()] *)
Definition strip (s : string) : string := strip_by is_space s.

(** [s.lower()] *)
Fixpoint lower (s : string) : string :=
  match s with
  | String c s' => String (lower_char c) (lower s')
  | EmptyString => EmptyString
  end.

(** [s.replace(c, '')] for a one-character [c]. *)
Fixpoint remove_char (c : ascii) (s : string) : string :=
  match s with
  | String d s' => if Ascii.eqb c d then remove_char c s' else String d (remove_char c s')
  | EmptyString => EmptyString
  end.

Fixpoint all_chars (p : ascii -> bool) (s : string) : bool :=
  match s with
  | String c s' => p c && all_chars p s'
  | EmptyString => true
  end.

(** [s.isdigit()]: at least one character, and all of them digits. *)
Definition isdigit (s : string) : bool :=
  match s with
  | EmptyString => false
  | _ => all_chars is_digit s
  end.

(** [c in s] for a one-character [c]. *)
Fixpoint contains_char (c : ascii) (s : string) : bool :=
  match s with
  | String d s' => Ascii.eqb c d || contains_char c s'
  | EmptyString => false
  end.

(** [s.startswith(p)] *)
Definition startswith (p s : string) : bool := String.prefix p s.

(** [s in (a, b, ...)] *)
Definition in_tuple (s : string) (l : list string) : bool :=
  existsb (String.eqb s) l.

(** [str(n)] for an integer. *)
Definition of_Z (n : Z) : string := NilZero.string_of_int (Z.to_int n).

(** A non-negative integer on at least [w] digits, padded with zeros
    (the [%02d] and [%04d] of [strftime]). *)
Fixpoint zeros (k : nat) : string :=
  match k with O => EmptyString | S k' => String "0" (zeros k') end.

Definition pad (w : nat) (n : Z) : string :=
  let s := of_Z n in zeros (w - String.length s) ++ s.

Fixpoint concat_all (l : list string) : string :=
  match l with
  | [] => EmptyString
  | s :: l' => s ++ concat_all l'
  end.

End PyStr.

(** ** Binary64 floats *)

Module PyFloat.

Definition prec : Z := 53.
Definition emax : Z := 1024.

Definition zero : spec_float := S754_zero false.

(** [x + y], [x == y], [x < y], [x > y] on floats. *)
Definition add (x y : spec_float) : spec_float := SFadd prec emax x y.
Definition eqb (x y : spec_float) : bool := SFeqb x y.
Definition ltb (x y : spec_float) : bool := SFltb x y.
Definition gtb (x y : spec_float) : bool := SFltb y x.

(** The float nearest to [(-1)^neg * N * 10^E] for [N >= 0], ties to
    even: the value that [float] gives to a decimal numeral. *)
Definition of_decimal (neg : bool) (N E : Z) : spec_float :=
  match N with
  | Zpos n =>
      if 0 <=? E then binary_round prec emax neg (Z.to_pos (Zpos n * 10 ^ E)) 0
      else
        let '(q, e, l) := SFdiv_core_binary prec emax (Zpos n) 0 (10 ^ (- E)) 0 in
        binary_round_aux prec emax neg q e l
  | _ => S754_zero neg
  end.

(** [float(n)] for an integer [n]: the nearest float, and
    [OverflowError] when [n] is too large for a float. *)
Definition nearest (n : Z) : spec_float := binary_normalize prec emax n 0 false.

Definition of_Z (n : Z) : result spec_float :=
  match nearest n with
  | S754_infinity _ => Raise OverflowError
  | x => Ok x
  end.

(** [int(x)]: truncation toward zero; [OverflowError] on an infinity,
    [ValueError] on a NaN. *)
Definition to_Z (x : spec_float) : result Z :=
  match x with
  | S754_zero _ => Ok 0
  | S754_infinity _ => Raise OverflowError
  | S754_nan => Raise ValueError
  | S754_finite s m e =>
      let a := if 0 <=? e then Zpos m * 2 ^ e else Zpos m / 2 ^ (- e) in
      Ok (if s then - a else a)
  end.

(** Leading decimal digits of [s]: the number read so far, how many
    digits were read, and the rest of the text. *)
Fixpoint digits (acc n : Z) (s : string) : Z * Z * string :=
  match s with
  | String c s' =>
      if PyStr.is_digit c then digits (10 * acc + PyStr.digit_val c) (n + 1) s'
      else (acc, n, s)
  | EmptyString => (acc, n, s)
  end.

(** An optional sign. *)
Definition sign (s : string) : bool * string :=
  match s with
  | String "-" s' => (true, s')
  | String "+" s' => (false, s')
  | _ => (false, s)
  end.

(** Underscores may only sit between two digits; they are dropped
    before the numeral is read. *)
Fixpoint drop_underscores (prev : option ascii) (s : string) : option string :=
  match s with
  | EmptyString =>
      match prev with
      | Some "_"%char => None
      | _ => Some EmptyString
      end
  | String c s' =>
      if Ascii.eqb c "_" then
        match prev with
        | Some p => if PyStr.is_digit p then drop_underscores (Some c) s' else None
        | None => None
        end
      else
        match prev with
        | Some "_"%char =>
            if PyStr.is_digit c
            then option_map (String c) (drop_underscores (Some c) s')
            else None
        | _ => option_map (String c) (drop_underscores (Some c) s')
        end
  end.

(** The exponent part that may follow the mantissa: nothing, or [e],
    an optional sign and at least one digit, up to the end. *)
Definition exponent (s : string) : option Z :=
  match s with
  | EmptyString => Some 0
  | String c s' =>
      if Ascii.eqb (PyStr.lower_char c) "e" then
        let '(neg, s1) := sign s' in
        match digits 0 0 s1 with
        | (v, n, EmptyString) => if 0 <? n then Some (if neg then - v else v) else None
        | _ => None
        end
      else None
  end.

(** A decimal numeral without its sign: mantissa and power of ten. *)
Definition numeral (s : string) : option (Z * Z) :=
  let '(ip, ni, r1) := digits 0 0 s in
  let '(m, nf, r2) :=
    match r1 with
    | String "." r => digits ip 0 r
    | _ => (ip, 0, r1)
    end in
  if ni + nf =? 0 then None
  else match exponent r2 with
       | Some ex => Some (m, ex - nf)
       | None => None
       end.

(** [float(s)] for a text [s]. *)
Definition of_string (s : string) : result spec_float :=
  match drop_underscores None (PyStr.strip_by PyStr.is_c_space s) with
  | None => Raise ValueError
  | Some s0 =>
      let '(neg, s1) := sign s0 in
      let w := PyStr.lower s1 in
      if String.eqb w "inf" || String.eqb w "infinity" then Ok (S754_infinity neg)
      else if String.eqb w "nan" then Ok S754_nan
      else match numeral s1 with
           | Some (m, e) => Ok (of_decimal neg m e)
           | None => Raise ValueError
           end
  end.

End PyFloat.

(** ** Naive datetimes, [strptime] and [strftime] *)

Module PyTime.

Record datetime : Type := mk_datetime {
  year : Z; month : Z; day : Z;
  hour : Z; minute : Z; second : Z; microsecond : Z
}.

Definition is_leap (y : Z) : bool :=
  (y mod 4 =? 0) && (negb (y mod 100 =? 0) || (y mod 400 =? 0)).

Definition days_in_month (y m : Z) : Z :=
  if m =? 2 then (if is_leap y then 29 else 28)
  else if (m =? 4) || (m =? 6) || (m =? 9) || (m =? 11) then 30
  else 31.

(** The checks of the [datetime] constructor. *)
Definition valid (d : datetime) : bool :=
  (1 <=? year d) && (year d <=? 9999) &&
  (1 <=? month d) && (month d <=? 12) &&
  (1 <=? day d) && (day d <=? days_in_month (year d) (month d)) &&
  (0 <=? hour d) && (hour d <=? 23) &&
  (0 <=? minute d) && (minute d <=? 59) &&
  (0 <=? second d) && (second d <=? 59) &&
  (0 <=? microsecond d) && (microsecond d <=? 999999).

(** [a < b] on two naive datetimes: the order of their field tuples. *)
Fixpoint lex_ltb (a b : list Z) : bool :=
  match a, b with
  | x :: a', y :: b' => (x <? y) || ((x =? y) && lex_ltb a' b')
  | _, _ => false
  end.

Definition fields (d : datetime) : list Z :=
  [year d; month d; day d; hour d; minute d; second d; microsecond d].

Definition ltb (a b : datetime) : bool := lex_ltb (fields a) (fields b).

(** *** The matcher behind [strptime]

    [strptime] turns the format into a regular expression and keeps the
    first match found by backtracking; a matcher is modelled by the list
    of its matches in that order, each with the text left over. *)
Definition matcher (A : Type) : Type := string -> list (A * string).

Definition m_ret {A} (a : A) : matcher A := fun s => [(a, s)].

Definition m_bind {A B} (p : matcher A) (k : A -> matcher B) : matcher B :=
  fun s => flat_map (fun '(a, r) => k a r) (p s).

Definition m_alt {A} (ps : list (matcher A)) : matcher A :=
  fun s => flat_map (fun p => p s) ps.

Definition m_char (p : ascii -> bool) : matcher ascii :=
  fun s => match s with
           | String c r => if p c then [(c, r)] else []
           | EmptyString => []
           end.

Definition only (c : ascii) : ascii -> bool := Ascii.eqb c.

(** The class [[lo-hi]] of digits. *)
Definition range (lo hi : Z) (c : ascii) : bool :=
  PyStr.is_digit c && (lo <=? PyStr.digit_val c) && (PyStr.digit_val c <=? hi).

Definition any_digit : ascii -> bool := range 0 9.

Definition one (p : ascii -> bool) : matcher Z :=
  m_bind (m_char p) (fun c => m_ret (PyStr.digit_val c)).

Definition two (p q : ascii -> bool) : matcher Z :=
  m_bind (m_char p) (fun c =>
  m_bind (m_char q) (fun d =>
  m_ret (10 * PyStr.digit_val c + PyStr.digit_val d))).

Definition lit (c : ascii) : matcher unit :=
  m_bind (m_char (only c)) (fun _ => m_ret tt).

(** [\s+]: one or more white-space characters, the longest run first. *)
Fixpoint spaces_tail (s : string) : list (unit * string) :=
  match s with
  | String c r => if PyStr.is_space c then spaces_tail r ++ [(tt, r)] else []
  | EmptyString => []
  end.

Definition spaces : matcher unit := spaces_tail.

(** [%Y]: [\d\d\d\d] *)
Definition re_Y : matcher Z :=
  m_bind (two any_digit any_digit) (fun hi =>
  m_bind (two any_digit any_digit) (fun lo => m_ret (100 * hi + lo))).

(** [%m]: [1[0-2]|0[1-9]|[1-9]] *)
Definition re_m : matcher Z :=
  m_alt [two (only "1") (range 0 2); two (only "0") (range 1 9); one (range 1 9)].

(** [%d]: [3[0-1]|[1-2]\d|0[1-9]|[1-9]| [1-9]] *)
Definition re_d : matcher Z :=
  m_alt [two (only "3") (range 0 1); two (range 1 2) any_digit;
         two (only "0") (range 1 9); one (range 1 9);
         m_bind (lit " ") (fun _ => one (range 1 9))].

(** [%H]: [2[0-3]|[0-1]\d|\d] *)
Definition re_H : matcher Z :=
  m_alt [two (only "2") (range 0 3); two (range 0 1) any_digit; one any_digit].

(** [%M]: [[0-5]\d|\d] *)
Definition re_M : matcher Z :=
  m_alt [two (range 0 5) any_digit; one any_digit].

(** [%S]: [6[0-1]|[0-5]\d|\d] *)
Definition re_S : matcher Z :=
  m_alt [two (only "6") (range 0 1); two (range 0 5) any_digit; one any_digit].

(** The expression of ['%Y-%m-%d']. *)
Definition re_date : matcher (Z * Z * Z) :=
  m_bind re_Y (fun y =>
  m_bind (lit "-") (fun _ =>
  m_bind re_m (fun m =>
  m_bind (lit "-") (fun _ =>
  m_bind re_d (fun d => m_ret (y, m, d)))))).

(** The expression of ['%Y-%m-%d %H:%M:%S']; the blank of the format
    stands for [\s+]. *)
Definition re_datetime : matcher datetime :=
  m_bind re_date (fun '(y, m, d) =>
  m_bind spaces (fun _ =>
  m_bind re_H (fun h =>
  m_bind (lit ":") (fun _ =>
  m_bind re_M (fun mi =>
  m_bind (lit ":") (fun _ =>
  m_bind re_S (fun sec => m_ret (mk_datetime y m d h mi sec 0)))))))).

(** The first match must use up the text, and the fields must make a
    date that exists; anything else is a [ValueError]. *)
Definition finish (ms : list (datetime * string)) : result datetime :=
  match ms with
  | (d, EmptyString) :: _ => if valid d then Ok d else Raise ValueError
  | _ => Raise ValueError
  end.

(** [datetime.strptime(t, '%Y-%m-%d %H:%M:%S')] *)
Definition strptime_datetime (t : string) : result datetime :=
  finish (re_datetime t).

(** [datetime.strptime(t, '%Y-%m-%d')] *)
Definition strptime_date (t : string) : result datetime :=
  finish (m_bind re_date (fun '(y, m, d) => m_ret (mk_datetime y m d 0 0 0 0)) t).

(** [d.strftime('%Y-%m-%d %H:%M:%S')] *)
Definition strftime (d : datetime) : string :=
  PyStr.concat_all
    [PyStr.pad 4 (year d); "-"; PyStr.pad 2 (month d); "-"; PyStr.pad 2 (day d); " ";
     PyStr.pad 2 (hour d); ":"; PyStr.pad 2 (minute d); ":"; PyStr.pad 2 (second d)].

(** *** Day arithmetic ([d - timedelta(days=n)]) through proleptic
    Gregorian ordinals, 1 being the first of January of year 1. *)
Definition days_before_year (y : Z) : Z :=
  let p := y - 1 in p * 365 + p / 4 - p / 100 + p / 400.

Fixpoint days_before_month_aux (y : Z) (k : nat) : Z :=
  match k with
  | O => 0
  | S k' => days_before_month_aux y k' + days_in_month y (Z.of_nat k)
  end.

Definition days_before_month (y m : Z) : Z :=
  days_before_month_aux y (Z.to_nat (m - 1)).

Definition to_ordinal (y m d : Z) : Z :=
  days_before_year y + days_before_month y m + d.

(** The month holding the [n]-th day (counted from 0) of year [y], and
    the day in it; the search starts at month [m] with [k] months left. *)
Fixpoint month_of_day (y : Z) (k : nat) (m n : Z) : Z * Z :=
  match k with
  | O => (m, n + 1)
  | S k' =>
      if n <? days_in_month y m then (m, n + 1)
      else month_of_day y k' (m + 1) (n - days_in_month y m)
  end.

Definition from_ordinal (o : Z) : Z * Z * Z :=
  let n := o - 1 in
  let n400 := n / 146097 in
  let r400 := n mod 146097 in
  let n100 := Z.min (r400 / 36524) 3 in
  let r100 := r400 - n100 * 36524 in
  let n4 := r100 / 1461 in
  let r4 := r100 mod 1461 in
  let n1 := Z.min (r4 / 365) 3 in
  let r1 := r4 - n1 * 365 in
  let y := n400 * 400 + n100 * 100 + n4 * 4 + n1 + 1 in
  let '(m, d) := month_of_day y 11 1 r1 in
  (y, m, d).

(** [d - timedelta(days=n)]; [OverflowError] before year 1. *)
Definition minus_days (d : datetime) (n : Z) : result datetime :=
  let o := to_ordinal (year d) (month d) (day d) - n in
  if (o <? 1) || (3652059 <? o) then Raise OverflowError
  else
    let '(y, m, dd) := from_ordinal o in
    Ok (mk_datetime y m dd (hour d) (minute d) (second d) (microsecond d)).

End PyTime.

(** ** Spreadsheet cells and records *)

Inductive cell : Type :=
  | CStr (s : string)
  | CInt (n : Z).

#[global] Instance cell_eq_dec : EqDecision cell.
Proof. solve_decision. Defined.

(** One element of [get_all_records()]: a dictionary from header to cell. *)
Abbreviation record := (gmap string cell).

(** Python truth of [r.get(k)]: [None], [''] and [0] are false. *)
Definition truthy (v : option cell) : bool :=
  match v with
  | None => false
  | Some (CStr s) => negb (String.eqb s "")
  | Some (CInt n) => negb (n =? 0)
  end.

(** [a or b] *)
Definition py_or (a b : option cell) : option cell :=
  if truthy a then a else b.

(** [a or d] with a default [d] that is not [None]. *)
Definition py_or_default (a : option cell) (d : cell) : cell :=
  match py_or a (Some d) with
  | Some c => c
  | None => d
  end.

(** [str(c)] *)
Definition cell_str (c : cell) : string :=
  match c with
  | CStr s => s
  | CInt n => PyStr.of_Z n
  end.

(** [float(c)] *)
Definition cell_float (c : cell) : result spec_float :=
  match c with
  | CStr s => PyFloat.of_string s
  | CInt n => PyFloat.of_Z n
  end.

(** An insertion-ordered dictionary keyed by cells; [by_category] is one
    with float values. *)
Abbreviation dict V := (list (cell * V)).
Abbreviation catmap := (dict spec_float).

(** [d.get(k, default)] *)
Fixpoint dict_get {V} (k : cell) (d : dict V) (default : V) : V :=
  match d with
  | [] => default
  | (k', v) :: d' => if decide (k' = k) then v else dict_get k d' default
  end.

(** [d[k] = v]: an existing key keeps its place, a new one goes last. *)
Fixpoint dict_set {V} (k : cell) (v : V) (d : dict V) : dict V :=
  match d with
  | [] => [(k, v)]
  | (k', v') :: d' => if decide (k' = k) then (k', v) :: d' else (k', v') :: dict_set k v d'
  end.

(** [sum(d.values())]: the values added from the left, starting at [0]. *)
Definition sum_values (d : catmap) : spec_float :=
  fold_left (fun acc kv => PyFloat.add acc (snd kv)) d PyFloat.zero.

(** ** The [csv] writer with its default dialect *)

Module Csv.

Definition dquote : ascii := "034"%char.
Definition CR : ascii := "013"%char.
Definition LF : ascii := "010"%char.
Definition comma : ascii := ","%char.

(** A field is quoted when it holds the delimiter, the quote character
    or a character of the line terminator. *)
Definition special (c : ascii) : bool :=
  Ascii.eqb c comma || Ascii.eqb c dquote || Ascii.eqb c CR || Ascii.eqb c LF.

Fixpoint needs_quotes (s : string) : bool :=
  match s with
  | String c s' => special c || needs_quotes s'
  | EmptyString => false
  end.

(** Every quote character of a quoted field is written twice. *)
Fixpoint double_quotes (s : string) : string :=
  match s with
  | String c s' =>
      if Ascii.eqb c dquote then String c (String c (double_quotes s'))
      else String c (double_quotes s')
  | EmptyString => EmptyString
  end.

Definition field (s : string) : string :=
  if needs_quotes s
  then String dquote (double_quotes s ++ String dquote EmptyString)
  else s.

Fixpoint join (l : list string) : string :=
  match l with
  | [] => EmptyString
  | [s] => s
  | s :: l' => s ++ String comma (join l')
  end.

Definition terminator : string := String CR (String LF EmptyString).

(** [writer.writerow(fields)]: the text added to the buffer.  A row
    made of one empty field is written as a pair of quotes. *)
Definition writerow (fields : list string) : string :=
  match fields with
  | [EmptyString] => String dquote (String dquote terminator)
  | _ => join (map field fields) ++ terminator
  end.

(** The number of lines of a text: a line ends at CR LF, at a lone CR
    or at a lone LF, and a last line without an end counts too. *)
Fixpoint count_lines_aux (after_cr : bool) (open_line : bool) (s : string) : nat :=
  match s with
  | EmptyString => if open_line then 1%nat else 0%nat
  | String c s' =>
      if Ascii.eqb c LF then
        (if after_cr then count_lines_aux false false s'
         else S (count_lines_aux false false s'))
      else if Ascii.eqb c CR then S (count_lines_aux true false s')
      else count_lines_aux false true s'
  end.

Definition count_lines (s : string) : nat := count_lines_aux false false s.

End Csv.

(** ** The world a handler acts on *)

Inductive markup : Type :=
  | NoMarkup
  | ReplyKeyboardRemove
  | ReplyKeyboardMarkup (keyboard : list (list string)) (one_time_keyboard : bool).

(** [context.user_data]: the four keys the dialog writes, each absent
    until its handler has run. *)
Record user_data : Type := mk_user_data {
  ud_jumlah : option spec_float;
  ud_jenis : option string;
  ud_kategori : option string;
  ud_deskripsi : option string
}.

Definition empty_user_data : user_data := mk_user_data None None None None.

(** A call received by the remote spreadsheet. *)
Inductive call : Type :=
  | AppendRow (row : list cell)
  | GetAllRecords.

Record world : Type := mk_world {
  replies : list (string * markup);      (* [reply_text] calls, oldest first *)
  documents : list (string * string);    (* [reply_document]: file name, content *)
  log : list (string * exn);             (* [logger.exception] entries *)
  calls : list call;                     (* calls made on the worksheet *)
  sheet_rows : list (list cell);         (* rows the worksheet has accepted *)
  session : user_data;
  escaped : list exn                     (* exceptions raised out of a handler *)
}.

Definition empty_world : world :=
  mk_world [] [] [] [] [] empty_user_data [].

(** What the collaborators answer during one update: whether opening the
    worksheet, appending, reading and looking the spreadsheet up succeed,
    the records a read returns, and the clock. *)
Record env : Type := mk_env {
  connect : option exn;                  (* [None]: the worksheet opens *)
  append_row : option exn;               (* [None]: the row is accepted *)
  get_all_records : result (list record);
  spreadsheet_url : result string;
  utcnow : PyTime.datetime
}.

Record update : Type := mk_update {
  message_text : string;
  from_user_id : Z
}.

(** The handler monad: a world in, a value or an exception and a world out. *)
Definition M (A : Type) : Type := world -> result A * world.

Definition ret {A} (a : A) : M A := fun w => (Ok a, w).

Definition raise {A} (e : exn) : M A := fun w => (Raise e, w).

Definition bind {A B} (c : M A) (k : A -> M B) : M B :=
  fun w => match c w with
           | (Ok a, w') => k a w'
           | (Raise e, w') => (Raise e, w')
           end.

Notation "x <- c ;; k" := (bind c (fun x => k))
  (at level 100, c at next level, right associativity).
Notation "c ;;; k" := (bind c (fun _ => k))
  (at level 100, right associativity).

(** [try: c  except Exception as e: h e] *)
Definition try_except {A} (c : M A) (h : exn -> M A) : M A :=
  fun w => match c w with
           | (Ok a, w') => (Ok a, w')
           | (Raise e, w') => h e w'
           end.

Definition lift {A} (r : result A) : M A := fun w => (r, w).

Definition reply_text (t : string) (mk : markup) : M unit :=
  fun w => (Ok tt, mk_world (replies w ++ [(t, mk)]) (documents w) (log w) (calls w)
                            (sheet_rows w) (session w) (escaped w)).

Definition reply_document (filename content : string) : M unit :=
  fun w => (Ok tt, mk_world (replies w) (documents w ++ [(filename, content)]) (log w)
                            (calls w) (sheet_rows w) (session w) (escaped w)).

Definition logger_exception (msg : string) (e : exn) : M unit :=
  fun w => (Ok tt, mk_world (replies w) (documents w) (log w ++ [(msg, e)]) (calls w)
                            (sheet_rows w) (session w) (escaped w)).

Definition get_session : M user_data := fun w => (Ok (session w), w).

Definition set_session (f : user_data -> user_data) : M unit :=
  fun w => (Ok tt, mk_world (replies w) (documents w) (log w) (calls w)
                            (sheet_rows w) (f (session w)) (escaped w)).

(** [context.user_data[k]]: a [KeyError] when the key is absent. *)
Definition item {A} (k : string) (v : option A) : M A :=
  match v with
  | Some a => ret a
  | None => raise (KeyError k)
  end.

(** [sheet.append_row(row)] *)
Definition sheet_append_row (E : env) (row : list cell) : M unit :=
  fun w =>
    match append_row E with
    | None => (Ok tt, mk_world (replies w) (documents w) (log w) (calls w ++ [AppendRow row])
                               (sheet_rows w ++ [row]) (session w) (escaped w))
    | Some e => (Raise e, mk_world (replies w) (documents w) (log w)
                                   (calls w ++ [AppendRow row]) (sheet_rows w)
                                   (session w) (escaped w))
    end.

(** [sheet.get_all_records()] *)
Definition sheet_get_all_records (E : env) : M (list record) :=
  fun w => (get_all_records E,
            mk_world (replies w) (documents w) (log w) (calls w ++ [GetAllRecords])
                     (sheet_rows w) (session w) (escaped w)).

(** ** The bot: Google Sheets helpers *)

(** Conversation states, [JUMLAH .. KONFIRM = range(5)], and
    [ConversationHandler.END]. *)
Inductive state : Type := JUMLAH | JENIS | KATEGORI | DESKRIPSI | KONFIRM | END.

#[global] Instance state_eq_dec : EqDecision state.
Proof. solve_decision. Defined.

Definition nl : string := String Csv.LF EmptyString.

(** [init_gspread()]: authorises and opens the worksheet; whatever the
    client raises comes out as it is.  The handle it returns carries no
    data of its own. *)
Definition init_gspread (E : env) : M unit :=
  match connect E with
  | None => ret tt
  | Some e => raise e
  end.

Definition append_transaction (E : env) (sheet : unit) (row : list cell) : M bool :=
  try_except
    (sheet_append_row E row ;;; ret true)
    (fun e => logger_exception "Gagal menulis ke Google Sheets: %s" e ;;; ret false).

Definition read_all_transactions (E : env) (sheet : unit) : M (list record) :=
  try_except
    (records <- sheet_get_all_records E ;; ret records)
    (fun e => logger_exception "Gagal membaca sheet: %s" e ;;; ret []).

(** ** The bot: the conversation of [/catat] *)

Definition catat_start (E : env) (u : update) : M state :=
  reply_text "Masukin jumlah (tanpa tanda, contoh: 20000):" ReplyKeyboardRemove ;;;
  ret JUMLAH.

Definition catat_jumlah (E : env) (u : update) : M state :=
  let text := PyStr.remove_char "," (PyStr.strip (message_text u)) in
  if negb (PyStr.isdigit (PyStr.remove_char "." text)) then
    reply_text "Jumlah tidak valid. Masukin angka saja, contoh: 20000" NoMarkup ;;;
    ret JUMLAH
  else
    jumlah <- lift (PyFloat.of_string text) ;;
    set_session (fun d => mk_user_data (Some jumlah) (ud_jenis d) (ud_kategori d) (ud_deskripsi d)) ;;;
    reply_text "Jenis transaksi? (pemasukan / pengeluaran)"
               (ReplyKeyboardMarkup [["pemasukan"; "pengeluaran"]] true) ;;;
    ret JENIS.

Definition catat_jenis (E : env) (u : update) : M state :=
  let jenis := PyStr.lower (PyStr.strip (message_text u)) in
  if negb (PyStr.in_tuple jenis ["pemasukan"; "pengeluaran"]) then
    reply_text "Pilih 'pemasukan' atau 'pengeluaran'." NoMarkup ;;;
    ret JENIS
  else
    set_session (fun d => mk_user_data (ud_jumlah d) (Some jenis) (ud_kategori d) (ud_deskripsi d)) ;;;
    reply_text "Kategori (contoh: makan, transport, gaji, jualan):" NoMarkup ;;;
    ret KATEGORI.

Definition catat_kategori (E : env) (u : update) : M state :=
  let kategori := PyStr.strip (message_text u) in
  set_session (fun d => mk_user_data (ud_jumlah d) (ud_jenis d) (Some kategori) (ud_deskripsi d)) ;;;
  reply_text "Deskripsi singkat (opsional):" NoMarkup ;;;
  ret DESKRIPSI.

(** [str(v)] for the value of [user_data.get(k)]. *)
Definition str_or_None (v : option string) : string :=
  match v with
  | Some s => s
  | None => "None"
  end.

(** [int(v)] for the value of [user_data.get('jumlah')]. *)
Definition int_or_TypeError (v : option spec_float) : M Z :=
  match v with
  | Some x => lift (PyFloat.to_Z x)
  | None => raise TypeError
  end.

Definition catat_deskripsi (E : env) (u : update) : M state :=
  let deskripsi := PyStr.strip (message_text u) in
  set_session (fun d => mk_user_data (ud_jumlah d) (ud_jenis d) (ud_kategori d) (Some deskripsi)) ;;;
  d <- get_session ;;
  let jumlah := ud_jumlah d in
  let jenis := ud_jenis d in
  let kategori := ud_kategori d in
  n <- int_or_TypeError jumlah ;;
  let summary :=
    PyStr.concat_all
      ["Konfirmasi: "; str_or_None jenis; " Rp"; PyStr.of_Z n; " - "; str_or_None kategori;
       " - "; (if String.eqb deskripsi "" then "-" else deskripsi); nl; nl;
       "Ketik 'ya' untuk konfirmasi atau 'batal' untuk batalkan."] in
  reply_text summary NoMarkup ;;;
  ret KONFIRM.

(** The statement [now = datetime.utcnow().isoformat()] of the source
    (written there with a stray back quote after it) binds a name that is
    never read; it has no counterpart here.  The clock is read once. *)
Definition catat_konfirm (E : env) (u : update) : M state :=
  let text := PyStr.lower (PyStr.strip (message_text u)) in
  if negb (PyStr.in_tuple text ["ya"; "y"; "yes"]) then
    reply_text "Transaksi dibatalkan." NoMarkup ;;;
    ret END
  else
    sheet <- init_gspread E ;;
    d <- get_session ;;
    jenis <- item "jenis" (ud_jenis d) ;;
    jumlah <- item "jumlah" (ud_jumlah d) ;;
    n <- lift (PyFloat.to_Z jumlah) ;;
    kategori <- item "kategori" (ud_kategori d) ;;
    deskripsi <- item "deskripsi" (ud_deskripsi d) ;;
    let row := [CStr (PyTime.strftime (utcnow E)); CStr jenis; CInt n; CStr kategori;
                CStr deskripsi; CInt (from_user_id u)] in
    ok <- append_transaction E sheet row ;;
    (if ok : bool
     then reply_text "Sukses! Transaksi tersimpan ke Google Sheets." NoMarkup
     else reply_text "Gagal menyimpan transaksi. Coba lagi nanti." NoMarkup) ;;;
    ret END.

Definition cancel (E : env) (u : update) : M state :=
  reply_text "Oke, dibatalkan." ReplyKeyboardRemove ;;;
  ret END.

(** *** The [ConversationHandler] of [main]

    An incoming update is a text message that is not a command, or a
    command.  Outside a conversation only [/catat] is taken (the entry
    point); inside one, a text goes to the handler of the current state
    and [/cancel] to the fallback; any other update is left to the other
    handlers of the dispatcher and does not touch the conversation.  When
    a handler raises, the state stays as it was and the dispatcher keeps
    the exception. *)
Inductive incoming : Type :=
  | Text (u : update)
  | Command (name : string) (u : update).

Definition conv_route (st : state) (i : incoming) : option (env -> update -> M state) * update :=
  match st, i with
  | END, Command name u => (if String.eqb name "catat" then Some catat_start else None, u)
  | END, Text u => (None, u)
  | JUMLAH, Text u => (Some catat_jumlah, u)
  | JENIS, Text u => (Some catat_jenis, u)
  | KATEGORI, Text u => (Some catat_kategori, u)
  | DESKRIPSI, Text u => (Some catat_deskripsi, u)
  | KONFIRM, Text u => (Some catat_konfirm, u)
  | _, Command name u => (if String.eqb name "cancel" then Some cancel else None, u)
  end.

Definition note_escaped (e : exn) (w : world) : world :=
  mk_world (replies w) (documents w) (log w) (calls w) (sheet_rows w) (session w)
           (escaped w ++ [e]).

Definition conv_handler (E : env) (st : state) (i : incoming) (w : world) : state * world :=
  match conv_route st i with
  | (Some h, u) =>
      match h E u w with
      | (Ok st', w') => (st', w')
      | (Raise e, w') => (st, note_escaped e w')
      end
  | (None, _) => (st, w)
  end.

(** A run of the dialog: the updates of one chat, each with the answers
    of the collaborators at that moment. *)
Fixpoint run (st : state) (w : world) (us : list (env * incoming)) : state * world :=
  match us with
  | [] => (st, w)
  | (E, i) :: us' => let '(st', w') := conv_handler E st i w in run st' w' us'
  end.

(** ** The bot: reports *)

(** The three accumulators of [generate_summary].  The source starts the
    two totals at the integer [0] and adds floats to them; [0 + x] is the
    float sum [0.0 + x], so the totals are floats from the start here. *)
Definition summary : Type := spec_float * spec_float * catmap.

Definition empty_summary : summary := (PyFloat.zero, PyFloat.zero, []).

(** What one turn of the loop does to the accumulators. *)
Inductive verdict : Type :=
  | Skip                                        (* [continue] *)
  | Income (jumlah : spec_float)
  | Expense (kategori : cell) (jumlah : spec_float).

(** [r.get('Tanggal') or r.get('tanggal') or r.get('Timestamp')] *)
Definition record_time (r : record) : option cell :=
  py_or (py_or (r !! "Tanggal") (r !! "tanggal")) (r !! "Timestamp").

(** [r.get('Jenis') or r.get('jenis') or r.get('Jenis (Pemasukan/Pengeluaran)')] *)
Definition record_jenis (r : record) : option cell :=
  py_or (py_or (r !! "Jenis") (r !! "jenis")) (r !! "Jenis (Pemasukan/Pengeluaran)").

(** [r.get('Jumlah') or r.get('jumlah') or 0] *)
Definition record_jumlah (r : record) : cell :=
  py_or_default (py_or (r !! "Jumlah") (r !! "jumlah")) (CInt 0).

(** [r.get('Kategori') or r.get('kategori') or 'Lain-lain'] *)
Definition record_kategori (r : record) : cell :=
  py_or_default (py_or (r !! "Kategori") (r !! "kategori")) (CStr "Lain-lain").

(** [datetime.strptime(t, '%Y-%m-%d %H:%M:%S') if ' ' in t else
    datetime.strptime(t, '%Y-%m-%d')]; [' ' in t] is a [TypeError] when
    [t] is an integer. *)
Definition parse_time (t : cell) : result PyTime.datetime :=
  match t with
  | CStr s =>
      if PyStr.contains_char " " s then PyTime.strptime_datetime s
      else PyTime.strptime_date s
  | CInt _ => Raise TypeError
  end.

(** [jenis and jenis.lower().startswith('pemasukan')]; [.lower] is an
    [AttributeError] on a non-zero integer. *)
Definition is_pemasukan (jenis : option cell) : result bool :=
  if truthy jenis then
    match jenis with
    | Some (CStr s) => Ok (PyStr.startswith "pemasukan" (PyStr.lower s))
    | _ => Raise AttributeError
    end
  else Ok false.

(** The body of the [try] block for one record. *)
Definition summary_body (since_date : PyTime.datetime) (r : record) : result verdict :=
  let t := record_time r in
  if negb (truthy t) then Ok Skip
  else
    match t with
    | None => Ok Skip
    | Some tc =>
        match parse_time tc with
        | Raise e => Raise e
        | Ok dt =>
            if PyTime.ltb dt since_date then Ok Skip
            else
              let jenis := record_jenis r in
              match cell_float (record_jumlah r) with
              | Raise e => Raise e
              | Ok jumlah =>
                  let kategori := record_kategori r in
                  match is_pemasukan jenis with
                  | Raise e => Raise e
                  | Ok true => Ok (Income jumlah)
                  | Ok false => Ok (Expense kategori jumlah)
                  end
              end
        end
    end.

(** [try: ... except Exception: continue] *)
Definition summary_verdict (since_date : PyTime.datetime) (r : record) : verdict :=
  match summary_body since_date r with
  | Ok v => v
  | Raise _ => Skip
  end.

Definition summary_step (since_date : PyTime.datetime) (acc : summary) (r : record) : summary :=
  let '(total_pemasukan, total_pengeluaran, by_category) := acc in
  match summary_verdict since_date r with
  | Skip => acc
  | Income jumlah => (PyFloat.add total_pemasukan jumlah, total_pengeluaran, by_category)
  | Expense kategori jumlah =>
      (total_pemasukan,
       PyFloat.add total_pengeluaran jumlah,
       dict_set kategori (PyFloat.add (dict_get kategori by_category PyFloat.zero) jumlah)
                by_category)
  end.

Definition generate_summary (records : list record) (since_date : PyTime.datetime) : summary :=
  fold_left (summary_step since_date) records empty_summary.

(** [sorted(items, key=lambda x: x[1], reverse=True)]: a stable sort by
    decreasing value. *)
Fixpoint insert_desc (x : cell * spec_float) (l : catmap) : catmap :=
  match l with
  | [] => [x]
  | y :: l' => if PyFloat.gtb (snd x) (snd y) then x :: y :: l' else y :: insert_desc x l'
  end.

Definition sorted_desc (items : catmap) : catmap :=
  fold_left (fun acc x => insert_desc x acc) items [].

(** The six fields written for one record, in the order of the header. *)
Definition csv_fields (r : record) : list string :=
  let t := py_or_default (py_or (r !! "Tanggal") (r !! "tanggal")) (CStr "") in
  map cell_str
      [t;
       py_or_default (py_or (r !! "Jenis") (r !! "jenis")) (CStr "");
       py_or_default (py_or (r !! "Jumlah") (r !! "jumlah")) (CStr "");
       py_or_default (py_or (r !! "Kategori") (r !! "kategori")) (CStr "");
       py_or_default (py_or (r !! "Deskripsi") (r !! "deskripsi")) (CStr "");
       py_or_default (py_or (r !! "User") (r !! "user")) (CStr "")].

Definition csv_header : list string :=
  ["Tanggal"; "Jenis"; "Jumlah"; "Kategori"; "Deskripsi"; "User"].

(** The rows written to the buffer, header first. *)
Definition csv_rows (records : list record) : list string :=
  Csv.writerow csv_header :: map (fun r => Csv.writerow (csv_fields r)) records.

(** [csvbuf.getvalue()] after the header and the loop over [records]. *)
Definition render_csv (records : list record) : string :=
  PyStr.concat_all (csv_rows records).

(** The lines [- {k}: Rp{int(v)}] of the most expensive categories. *)
Fixpoint category_lines (items : catmap) : M string :=
  match items with
  | [] => ret EmptyString
  | (k, v) :: items' =>
      n <- lift (PyFloat.to_Z v) ;;
      rest <- category_lines items' ;;
      ret (PyStr.concat_all ["- "; cell_str k; ": Rp"; PyStr.of_Z n; nl; rest])
  end.

(** The common body of [laporan_minggu] and [laporan_bulan], which differ
    by the window in days, the title, the number of categories listed and
    the name of the attachment. *)
Definition laporan (days : Z) (title : string) (top : nat) (filename : string)
    (E : env) (u : update) : M unit :=
  sheet <- init_gspread E ;;
  records <- read_all_transactions E sheet ;;
  since <- lift (PyTime.minus_days (utcnow E) days) ;;
  let '(pemasukan, pengeluaran, by_cat) := generate_summary records since in
  a <- lift (PyFloat.to_Z pemasukan) ;;
  b <- lift (PyFloat.to_Z pengeluaran) ;;
  c <- lift (PyFloat.to_Z (SFsub PyFloat.prec PyFloat.emax pemasukan pengeluaran)) ;;
  let text :=
    PyStr.concat_all
      [title; nl; "Pemasukan: Rp"; PyStr.of_Z a; nl; "Pengeluaran: Rp"; PyStr.of_Z b; nl;
       "Saldo bersih: Rp"; PyStr.of_Z c; nl; nl; "Top kategori pengeluaran:"; nl] in
  let items := firstn top (sorted_desc by_cat) in
  lines <- (match items with
            | [] => ret ("Tidak ada pengeluaran tercatat." ++ nl)
            | _ => category_lines items
            end) ;;
  reply_text (text ++ lines) NoMarkup ;;;
  reply_document filename (render_csv records).

Definition laporan_minggu : env -> update -> M unit :=
  laporan 7 "Ringkasan 7 hari terakhir:" 5 "laporan_mingguan.csv".

Definition laporan_bulan : env -> update -> M unit :=
  laporan 30 "Ringkasan 30 hari terakhir:" 10 "laporan_bulanan.csv".

(** ** The bot: the link to the spreadsheet *)

Definition sheet_link (E : env) (u : update) : M unit :=
  try_except
    (url <- lift (spreadsheet_url E) ;;
     reply_text
       (PyStr.concat_all
          ["Link Google Sheet: "; url; nl;
           "Pastikan sheet sudah di-share ke service account (kamu sudah lakukan sebelumnya)."])
       NoMarkup)
    (fun e =>
       logger_exception "Gagal dapatkan link: %s" e ;;;
       reply_text "Gagal mendapatkan link spreadsheet. Cek credential dan nama spreadsheet."
                  NoMarkup).

(** A handler called by the dispatcher outside the conversation: what it
    raises is kept by the dispatcher. *)
Definition dispatch (h : env -> update -> M unit) (E : env) (u : update) (w : world) : world :=
  match h E u w with
  | (Ok _, w') => w'
  | (Raise e, w') => note_escaped e w'
  end.

(** ** Notions used by the statements *)

(** The confirmation test of [catat_konfirm]. *)
Definition affirmative (t : string) : bool :=
  PyStr.in_tuple (PyStr.lower (PyStr.strip t)) ["ya"; "y"; "yes"].

(** The amount text of [catat_jumlah] once stripped and freed of its
    commas. *)
Definition cleaned_amount (t : string) : string :=
  PyStr.remove_char "," (PyStr.strip t).

(** The type test of [catat_jenis]. *)
Definition known_jenis (t : string) : bool :=
  PyStr.in_tuple (PyStr.lower (PyStr.strip t)) ["pemasukan"; "pengeluaran"].

Definition is_set {A} (v : option A) : bool :=
  match v with Some _ => true | None => false end.

(** What the session is known to hold in each state of the dialog. *)
Definition ready (st : state) (d : user_data) : bool :=
  match st with
  | END | JUMLAH => true
  | JENIS => is_set (ud_jumlah d)
  | KATEGORI => is_set (ud_jumlah d) && is_set (ud_jenis d)
  | DESKRIPSI => is_set (ud_jumlah d) && is_set (ud_jenis d) && is_set (ud_kategori d)
  | KONFIRM =>
      match ud_jumlah d with
      | Some x => is_ok (PyFloat.to_Z x)
      | None => false
      end &&
      is_set (ud_jenis d) && is_set (ud_kategori d) && is_set (ud_deskripsi d)
  end.

(** The update, if any, by which the user confirms: a text met in state
    [KONFIRM] that passes the confirmation test. *)
Definition confirming (st : state) (i : incoming) : option update :=
  match st, i with
  | KONFIRM, Text u => if affirmative (message_text u) then Some u else None
  | _, _ => None
  end.

(** The row [catat_konfirm] builds from a session, when it can. *)
Definition row_of (E : env) (u : update) (d : user_data) : option (list cell) :=
  match ud_jenis d, ud_jumlah d, ud_kategori d, ud_deskripsi d with
  | Some jenis, Some jumlah, Some kategori, Some deskripsi =>
      match PyFloat.to_Z jumlah with
      | Ok n => Some [CStr (PyTime.strftime (utcnow E)); CStr jenis; CInt n; CStr kategori;
                      CStr deskripsi; CInt (from_user_id u)]
      | Raise _ => None
      end
  | _, _, _, _ => None
  end.


(** The stored time of a record reads as a date that is not before
    [since_date]. *)
Definition in_window (since_date : PyTime.datetime) (r : record) : bool :=
  match record_time r with
  | Some tc =>
      match parse_time tc with
      | Ok dt => negb (PyTime.ltb dt since_date)
      | Raise _ => false
      end
  | None => false
  end.


(** The amounts of the records counted as expenses, in record order. *)
Fixpoint expense_amounts (since_date : PyTime.datetime) (records : list record)
    : list spec_float :=
  match records with
  | [] => []
  | r :: records' =>
      match summary_verdict since_date r with
      | Expense _ jumlah => jumlah :: expense_amounts since_date records'
      | _ => expense_amounts since_date records'
      end
  end.

Definition sumZ (l : list Z) : Z := fold_right Z.add 0 l.

(** No value of [d] is negative. *)
Definition nonneg_values (d : dict Z) : Prop := Forall (fun kv => 0 <= snd kv) d.

(** The category map that holds, for each key of [d], the float of its
    integer value. *)
Definition float_values (d : dict Z) : catmap :=
  map (fun kv => (fst kv, PyFloat.nearest (snd kv))) d.

(** The records a report works on: what the read returned, or nothing
    when the read failed. *)
Definition records_read (E : env) : list record :=
  match get_all_records E with
  | Ok rs => rs
  | Raise _ => []
  end.


(** Integers held by floats: the mantissa [p] shifted left by [k] bits,
    the number of bits of [p], and the mantissa and exponent of the float
    that holds the integer [p] when [p] has at most 53 bits. *)
Module FloatExact.

Definition shiftp (p : positive) (k : Z) : positive :=
  match k with
  | Zpos k' => Pos.iter xO p k'
  | _ => p
  end.

Definition dig (p : positive) : Z := Zpos (digits2_pos p).
Definition cexp (p : positive) : Z := dig p - 53.
Definition mant (p : positive) : positive := shiftp p (- cexp p).

End FloatExact.

(** Readings of the specification's own words, used where a statement
    of the specification is compared with the code. *)
Module Spec.


(** "Integer-rounded": the nearest integer, ties to the even one. *)
Definition rounded (x : spec_float) : option Z :=
  match x with
  | S754_zero _ => Some 0
  | S754_finite s m e =>
      let a :=
        if 0 <=? e then Zpos m * 2 ^ e
        else
          let d := 2 ^ (- e) in
          let q := Zpos m / d in
          let r := Zpos m mod d in
          if 2 * r <? d then q
          else if d <? 2 * r then q + 1
          else if Z.even q then q else q + 1 in
      Some (if s then - a else a)
  | _ => None
  end.

(** "Lines" of a rendered text. *)
Definition lines (s : string) : nat := Csv.count_lines s.

(** The dialog of the specification's example, for a given amount
    text: [/catat], the amount, 'pengeluaran', 'makan', 'nasi' and a
    last answer; [E] holds the collaborators' answers for the last
    step and [E0] for the steps before. *)
Definition dialog (E0 E : env) (uid : Z) (amount answer : string)
    : list (env * incoming) :=
  [(E0, Command "catat" (mk_update "/catat" uid));
   (E0, Text (mk_update amount uid));
   (E0, Text (mk_update "pengeluaran" uid));
   (E0, Text (mk_update "makan" uid));
   (E0, Text (mk_update "nasi" uid));
   (E, Text (mk_update answer uid))].

End Spec.

(** Concrete collaborators and records for the examples. *)
Module Sample.

Definition clock : PyTime.datetime := PyTime.mk_datetime 2024 1 8 10 0 0 123.

(** Everything works. *)
Definition fine : env := mk_env None None (Ok []) (Ok "https://sheet") clock.


(** The credential file is missing. *)
Definition no_credentials : env :=
  mk_env (Some CredentialsError) None (Ok []) (Raise CredentialsError) clock.

Definition since : PyTime.datetime := PyTime.mk_datetime 2023 12 25 0 0 0 0.

Definition expense (tanggal kategori : string) (jumlah : Z) : record :=
  <["Tanggal" := CStr tanggal]>
    (<["Jenis" := CStr "pengeluaran"]>
       (<["Jumlah" := CInt jumlah]> (<["Kategori" := CStr kategori]> ∅))).



End Sample.

(** ** Proof tactics *)

(** Unfolds the operations of the handler monad and the projections of
    the worlds they build. *)
Ltac run_monad :=
  cbv [bind ret raise lift reply_text reply_document set_session get_session item
       try_except logger_exception init_gspread sheet_append_row sheet_get_all_records
       append_transaction read_all_transactions int_or_TypeError note_escaped];
  cbn [replies documents log calls sheet_rows session escaped
       ud_jumlah ud_jenis ud_kategori ud_deskripsi fst snd].

Ltac world_fields :=
  cbn [replies documents log calls sheet_rows session escaped
       ud_jumlah ud_jenis ud_kategori ud_deskripsi].

(** Settles the invariant of the dialog after a handler has written one
    key of the session. *)
Ltac ready_auto :=
  match goal with
  | H : ready _ (session ?w) = true |- _ =>
      unfold ready, is_set in *; world_fields;
      repeat match goal with
             | |- context [ud_jumlah (session w)] => destruct (ud_jumlah (session w))
             | |- context [ud_jenis (session w)] => destruct (ud_jenis (session w))
             | |- context [ud_kategori (session w)] => destruct (ud_kategori (session w))
             | |- context [ud_deskripsi (session w)] => destruct (ud_deskripsi (session w))
             end;
      cbn [andb] in *; try discriminate; try reflexivity; auto
  end.

(** ** The bot: the remaining commands and the dispatcher of [main] *)

Definition TIPS : list string :=
  ["Buat anggaran mingguan dan patuhi batasnya.";
   "Sisihkan minimal 10% pemasukan setiap bulan untuk tabungan darurat.";
   "Catat pengeluaran harian — kebiasaan kecil tampak besar di akhir bulan.";
   "Bandingkan harga sebelum membeli barang bernilai besar.";
   "Bayar tagihan tepat waktu untuk menghindari denda."].

Definition start (E : env) (u : update) : M unit :=
  reply_text
    (PyStr.concat_all
       ["Halo! Aku SaifuFinanceBot. Kita bisa catat pemasukan & pengeluaranmu."; nl;
        "Ketik /catat untuk mulai masukkan transaksi, atau /help untuk daftar perintah."])
    NoMarkup.

Definition help_cmd (E : env) (u : update) : M unit :=
  reply_text
    (PyStr.concat_all
       ["/catat - Catat transaksi (format terstruktur)"; nl;
        "/laporan minggu - Ringkasan mingguan"; nl;
        "/laporan bulan - Ringkasan bulanan"; nl;
        "/tips - Dapat tips keuangan acak"; nl;
        "/sheet - Dapatkan link ke Google Sheet-mu (harus tersedia share)"])
    NoMarkup.

(** [random.choice(l)] for a list that is not empty: the element at an
    index below the length, here the draw [pick] reduced modulo the
    length. *)
Definition random_choice (pick : nat) (l : list string) : string :=
  nth (pick mod length l) l EmptyString.

Definition tips_cmd (pick : nat) (E : env) (u : update) : M unit :=
  let tip := random_choice pick TIPS in
  reply_text (PyStr.concat_all ["Tip keuangan: "; tip]) NoMarkup.

(** The handlers that [main] registers, in its order: [start], [help],
    the conversation, the two reports, [tips] and [sheet].  The
    dispatcher gives an update to the first handler that takes it, and to
    that one only; an update no handler takes is dropped. *)
Definition handle_update (E : env) (pick : nat) (st : state) (i : incoming) (w : world)
    : state * world :=
  match i with
  | Text _ => conv_handler E st i w
  | Command name u =>
      if String.eqb name "start" then (st, dispatch start E u w)
      else if String.eqb name "help" then (st, dispatch help_cmd E u w)
      else
        match conv_route st i with
        | (Some _, _) => conv_handler E st i w
        | (None, _) =>
            if String.eqb name "laporan_minggu" then (st, dispatch laporan_minggu E u w)
            else if String.eqb name "laporan_bulan" then (st, dispatch laporan_bulan E u w)
            else if String.eqb name "tips" then (st, dispatch (tips_cmd pick) E u w)
            else if String.eqb name "sheet" then (st, dispatch sheet_link E u w)
            else (st, w)
        end
  end.

(** A session of the whole bot: the updates of one chat, each with the
    collaborators' answers and the draw of [random.choice]. *)
Fixpoint serve (st : state) (w : world) (us : list (env * nat * incoming)) : state * world :=
  match us with
  | [] => (st, w)
  | (E, pick, i) :: us' => let '(st', w') := handle_update E pick st i w in serve st' w' us'
  end.

(** ** More notions used by the statements *)

(** How many times a character occurs in a text. *)
Fixpoint count_char (c : ascii) (s : string) : nat :=
  match s with
  | String d s' => (if Ascii.eqb c d then 1 else 0)%nat + count_char c s'
  | EmptyString => 0%nat
  end.

(** A float that is zero, positive or plus infinity: no NaN, no minus sign. *)
Definition plain_amount (x : spec_float) : bool :=
  match x with
  | S754_zero false | S754_finite false _ _ | S754_infinity false => true
  | _ => false
  end.

(** What the dialog has stored for good once a step is passed: past the
    amount step an amount of that kind, past the type step one of the two
    types. *)
Definition session_ok (st : state) (d : user_data) : bool :=
  match st with
  | END | JUMLAH => true
  | JENIS =>
      match ud_jumlah d with Some x => plain_amount x | None => false end
  | _ =>
      match ud_jumlah d with Some x => plain_amount x | None => false end &&
      match ud_jenis d with
      | Some j => PyStr.in_tuple j ["pemasukan"; "pengeluaran"]
      | None => false
      end
  end.

(** A row as the dialog means to write it: the time, one of the two
    types, a non-negative integer amount, the category, the description
    and the user id. *)
Definition row_ok (row : list cell) : Prop :=
  exists ts jenis n kategori deskripsi uid,
    row = [CStr ts; CStr jenis; CInt n; CStr kategori; CStr deskripsi; CInt uid] /\
    (jenis = "pemasukan" \/ jenis = "pengeluaran") /\ 0 <= n.

(** The exceptions that a handler of the dialog can let out in a given
    state. *)
Definition may_escape (E : env) (st : state) (e : exn) : Prop :=
  (st = JUMLAH /\ e = ValueError) \/
  (st = DESKRIPSI /\ e = OverflowError) \/
  (st = KONFIRM /\ connect E = Some e).

(** The update is a text message. *)
Definition is_text (i : incoming) : bool :=
  match i with Text _ => true | Command _ _ => false end.

(** An amount text too large for a float: 1 followed by 309 zeros. *)
Definition huge_amount : string := String "1" (PyStr.zeros 309).

(** The update is the command [/catat]. *)
Definition is_catat (i : incoming) : bool :=
  match i with
  | Command name _ => String.eqb name "catat"
  | Text _ => false
  end.


(** The worksheet opens but cannot be read. *)
Definition read_fails : env :=
  mk_env None None (Raise APIError) (Raise APIError) Sample.clock.

(** The reply of a report that found nothing to count. *)
Definition empty_report (title : string) : string :=
  PyStr.concat_all
    [title; nl; "Pemasukan: Rp0"; nl; "Pengeluaran: Rp0"; nl; "Saldo bersih: Rp0"; nl; nl;
     "Top kategori pengeluaran:"; nl; "Tidak ada pengeluaran tercatat."; nl].


(** A digit or a decimal point. *)
Definition digit_or_dot (c : ascii) : bool :=
  PyStr.is_digit c || Ascii.eqb c ".".

(** The state that follows a state in the dialog. *)
Definition next_state (st : state) : state :=
  match st with
  | JUMLAH => JENIS
  | JENIS => KATEGORI
  | KATEGORI => DESKRIPSI
  | DESKRIPSI => KONFIRM
  | KONFIRM => END
  | END => END
  end.

(** A datetime cut to whole seconds. *)
Definition whole_seconds (d : PyTime.datetime) : PyTime.datetime :=
  PyTime.mk_datetime (PyTime.year d) (PyTime.month d) (PyTime.day d)
                     (PyTime.hour d) (PyTime.minute d) (PyTime.second d) 0.

(** The amounts of the records counted as income, in record order. *)
Fixpoint income_amounts (since_date : PyTime.datetime) (records : list record)
    : list spec_float :=
  match records with
  | [] => []
  | r :: records' =>
      match summary_verdict since_date r with
      | Income jumlah => jumlah :: income_amounts since_date records'
      | _ => income_amounts since_date records'
      end
  end.

(** The amounts of the records counted as expenses of category [k]. *)
Fixpoint category_amounts (since_date : PyTime.datetime) (k : cell) (records : list record)
    : list spec_float :=
  match records with
  | [] => []
  | r :: records' =>
      match summary_verdict since_date r with
      | Expense kategori jumlah =>
          if decide (kategori = k)
          then jumlah :: category_amounts since_date k records'
          else category_amounts since_date k records'
      | _ => category_amounts since_date k records'
      end
  end.

(** The categories of the records counted as expenses, in record order. *)
Fixpoint expense_categories (since_date : PyTime.datetime) (records : list record)
    : list cell :=
  match records with
  | [] => []
  | r :: records' =>
      match summary_verdict since_date r with
      | Expense kategori _ => kategori :: expense_categories since_date records'
      | _ => expense_categories since_date records'
      end
  end.

(** Floats added from the left, starting at zero. *)
Definition float_sum (l : list spec_float) : spec_float :=
  fold_left PyFloat.add l PyFloat.zero.

(** No item is followed by a greater one. *)
Fixpoint no_inversion (l : catmap) : bool :=
  match l with
  | x :: l' =>
      match l' with
      | y :: _ => negb (PyFloat.gtb (snd y) (snd x)) && no_inversion l'
      | [] => true
      end
  | [] => true
  end.

(** Two worlds that the dialog cannot tell apart: the same session data
    and the same rows in the worksheet. *)
Definition same_dialog (w w2 : world) : Prop :=
  session w = session w2 /\ sheet_rows w = sheet_rows w2.

(** The updates of a session as the conversation sees them. *)
Definition for_dialog (us : list (env * nat * incoming)) : list (env * incoming) :=
  map (fun '(E, _, i) => (E, i)) us.

(** A text that starts with a digit. *)
Definition digit_led (r : string) : bool :=
  match r with
  | String c _ => PyStr.is_digit c
  | EmptyString => false
  end.

(** Every match of a list leaves a text that starts with a digit. *)
Definition digit_led_all {A} (l : list (A * string)) : bool :=
  forallb (fun x => digit_led (snd x)) l.

(** On the two digits of [v] followed by any text, the first match of
    the matcher [p] reads [v] and leaves that text; any further match
    stops in front of a digit. *)
Definition reads_field (p : PyTime.matcher Z) (v : Z) : Prop :=
  forall rest : string,
    exists others,
      p (PyStr.pad 2 v ++ rest)%string = (v, rest) :: others /\
      digit_led_all others = true.

(** A continuation that wants a separator finds none in front of a
    digit. *)
Definition stops_at_digit {A B} (k : A -> PyTime.matcher B) : Prop :=
  forall a r, digit_led r = true -> k a r = [].

(** The years of four digits, and the test that such a year is written
    as its two halves. *)
Definition four_digit_years : list Z := map (fun k => 1000 + Z.of_nat k) (seq 0 (Z.to_nat 9000)).

Definition year_in_halves (y : Z) : bool :=
  String.eqb (PyStr.pad 4 y) (PyStr.pad 2 (y / 100) ++ PyStr.pad 2 (y mod 100)).

(** ** More proof tactics *)

(** Closes one outcome of a report: the result is what the code computes,
    and the world differs from the start by what was sent and read. *)
Ltac laporan_leaf :=
  eexists _, _; (split; [reflexivity|]); world_fields; repeat split; eauto.

(** Splits the goal along the first test or call whose outcome the code
    branches on. *)
Ltac branch :=
  match goal with
  | |- context [match ?x with _ => _ end] =>
      lazymatch x with
      | context [match _ with _ => _ end] => fail
      | _ => destruct x eqn:?
      end
  end.

(** Settles one value of a field of [strptime] by running the matcher. *)
Ltac field_case p :=
  let rest := fresh "rest" in
  let l := fresh "l" in
  intros rest;
  set (l := p _); vm_compute in l; subst l;
  eexists; split; reflexivity.

(** Settles a fact about one character by inspection of its eight bits. *)
Ltac by_bits c H :=
  destruct c as [[] [] [] [] [] [] [] []]; vm_compute in H; try discriminate H;
  vm_compute; reflexivity.

(* ===================================================================== *)
(** * Part II: theorems                                                   *)
(* ===================================================================== *)

Local Open Scope list_scope.

(** ** Checks of the run-time model

    Values that CPython gives, met again by the model. *)

Example float_of_one_tenth :
  PyFloat.of_string "0.1" = Ok (S754_finite false 7205759403792794 (-56)).
Proof. vm_compute. reflexivity. Qed.

Example float_accepts_underscores_and_exponent :
  PyFloat.of_string " 1_000.5e-1 " = Ok (S754_finite false 7040392854975283 (-46)).
Proof. vm_compute. reflexivity. Qed.

Example float_rejects :
  map PyFloat.of_string ["1.2.3"; "."; "1e"; "1__0"; "_1"; "abc"; ""]%string
  = [Raise ValueError; Raise ValueError; Raise ValueError; Raise ValueError;
     Raise ValueError; Raise ValueError; Raise ValueError].
Proof. vm_compute. reflexivity. Qed.

Example float_of_large_integers :
  PyFloat.of_Z (10 ^ 16 + 1) = Ok (S754_finite false 5000000000000000 1) /\
  PyFloat.of_Z (2 ^ 1024) = Raise OverflowError.
Proof. vm_compute. split; reflexivity. Qed.

Example int_truncates :
  PyFloat.to_Z (PyFloat.of_decimal false 27 (-1)) = Ok 2 /\
  PyFloat.to_Z (PyFloat.of_decimal true 27 (-1)) = Ok (-2).
Proof. vm_compute. split; reflexivity. Qed.

Example strptime_reads :
  PyTime.strptime_datetime "2024-1-5 1:2:3" = Ok (PyTime.mk_datetime 2024 1 5 1 2 3 0) /\
  PyTime.strptime_date "2024-02-29" = Ok (PyTime.mk_datetime 2024 2 29 0 0 0 0).
Proof. vm_compute. split; reflexivity. Qed.

Example strptime_rejects :
  map PyTime.strptime_datetime
      ["2024-02-30 10:00:00"; "2024-13-01 00:00:00"; "2024-01-01 24:00:00";
       "2024-01-01 10:00:60"; "2024-01-01 10:00:00 "; "0000-01-01 00:00:00"]%string
  = [Raise ValueError; Raise ValueError; Raise ValueError; Raise ValueError;
     Raise ValueError; Raise ValueError].
Proof. vm_compute. reflexivity. Qed.

Example a_week_before_the_first_of_March :
  PyTime.minus_days (PyTime.mk_datetime 2024 3 1 9 30 0 5) 7
  = Ok (PyTime.mk_datetime 2024 2 23 9 30 0 5).
Proof. vm_compute. reflexivity. Qed.

Example csv_quotes_where_needed :
  Csv.writerow ["a,b"; "plain"; ""; "7"]%string
  = String Csv.dquote ("a,b" ++ String Csv.dquote (",plain,,7" ++ Csv.terminator))%string.
Proof. vm_compute. reflexivity. Qed.

Example sorted_desc_is_stable :
  map fst (sorted_desc [(CStr "a", PyFloat.nearest 1); (CStr "b", PyFloat.nearest 2);
                        (CStr "c", PyFloat.nearest 1); (CStr "d", PyFloat.nearest 2)])
  = [CStr "b"; CStr "d"; CStr "a"; CStr "c"].
Proof. vm_compute. reflexivity. Qed.

(** ** The spreadsheet gateway *)

Section Gateway.

Variables (E : env) (sheet : unit) (w : world).

Lemma append_transaction_returns (row : list cell) :
  exists w',
    append_transaction E sheet row w
    = (Ok (match append_row E with None => true | Some _ => false end), w') /\
    calls w' = calls w ++ [AppendRow row] /\
    sheet_rows w' = sheet_rows w ++ match append_row E with None => [row] | Some _ => [] end /\
    log w' = log w ++ match append_row E with
                      | None => []
                      | Some e => [("Gagal menulis ke Google Sheets: %s", e)]
                      end /\
    replies w' = replies w /\ session w' = session w /\ escaped w' = escaped w /\
    documents w' = documents w.
Proof.
  run_monad. destruct (append_row E) as [e|]; eexists; (split; [reflexivity|]);
    cbn [replies documents log calls sheet_rows session escaped];
    rewrite ?app_nil_r; repeat split; reflexivity.
Qed.

Lemma read_all_transactions_returns :
  exists w',
    read_all_transactions E sheet w
    = (Ok (match get_all_records E with Ok rs => rs | Raise _ => [] end), w') /\
    log w' = log w ++ match get_all_records E with
                      | Ok _ => []
                      | Raise e => [("Gagal membaca sheet: %s", e)]
                      end /\
    calls w' = calls w ++ [GetAllRecords] /\
    sheet_rows w' = sheet_rows w /\ replies w' = replies w /\
    documents w' = documents w /\ session w' = session w /\ escaped w' = escaped w.
Proof.
  run_monad. destruct (get_all_records E) as [rs|e]; eexists; (split; [reflexivity|]);
    cbn [replies documents log calls sheet_rows session escaped];
    rewrite ?app_nil_r; repeat split; reflexivity.
Qed.

End Gateway.

(** C7. [append_transaction] never raises: it returns [True] when the
    worksheet accepts the row and [False], with one log entry, when the
    worksheet raises, whatever the row and the state of the store; and
    [read_all_transactions] never raises either: it returns the records
    read, or the empty list, with one log entry, when the read raises. *)
Theorem C7_gateway_never_raises (E : env) (sheet : unit) (row : list cell) (w : world) :
  (exists w',
     append_transaction E sheet row w
     = (Ok (match append_row E with None => true | Some _ => false end), w') /\
     log w' = log w ++ match append_row E with
                       | None => []
                       | Some e => [("Gagal menulis ke Google Sheets: %s", e)]
                       end) /\
  (exists w',
     read_all_transactions E sheet w
     = (Ok (match get_all_records E with Ok rs => rs | Raise _ => [] end), w') /\
     log w' = log w ++ match get_all_records E with
                       | Ok _ => []
                       | Raise e => [("Gagal membaca sheet: %s", e)]
                       end).
Proof.
  split.
  - destruct (append_transaction_returns E sheet w row) as (w' & H & _ & _ & Hl & _).
    exists w'. split; assumption.
  - destruct (read_all_transactions_returns E sheet w) as (w' & H & Hl & _).
    exists w'. split; assumption.
Qed.

(** ** The handlers of the dialog, one by one *)

Section Handlers.

Variables (E : env) (u : update) (w : world).

Lemma catat_start_returns :
  catat_start E u w
  = (Ok JUMLAH,
     mk_world (replies w ++ [("Masukin jumlah (tanpa tanda, contoh: 20000):"%string,
                              ReplyKeyboardRemove)])
              (documents w) (log w) (calls w) (sheet_rows w) (session w) (escaped w)).
Proof. reflexivity. Qed.

Lemma cancel_returns :
  cancel E u w
  = (Ok END,
     mk_world (replies w ++ [("Oke, dibatalkan."%string, ReplyKeyboardRemove)])
              (documents w) (log w) (calls w) (sheet_rows w) (session w) (escaped w)).
Proof. reflexivity. Qed.

Lemma catat_jumlah_rejects :
  PyStr.isdigit (PyStr.remove_char "." (cleaned_amount (message_text u))) = false ->
  catat_jumlah E u w
  = (Ok JUMLAH,
     mk_world (replies w ++ [("Jumlah tidak valid. Masukin angka saja, contoh: 20000"%string,
                              NoMarkup)])
              (documents w) (log w) (calls w) (sheet_rows w) (session w) (escaped w)).
Proof.
  unfold cleaned_amount. intros H. unfold catat_jumlah. rewrite H. reflexivity.
Qed.

Lemma catat_jumlah_accepts (x : spec_float) :
  PyStr.isdigit (PyStr.remove_char "." (cleaned_amount (message_text u))) = true ->
  PyFloat.of_string (cleaned_amount (message_text u)) = Ok x ->
  catat_jumlah E u w
  = (Ok JENIS,
     mk_world (replies w ++ [("Jenis transaksi? (pemasukan / pengeluaran)"%string,
                              ReplyKeyboardMarkup [["pemasukan"; "pengeluaran"]%string] true)])
              (documents w) (log w) (calls w) (sheet_rows w)
              (mk_user_data (Some x) (ud_jenis (session w)) (ud_kategori (session w))
                            (ud_deskripsi (session w)))
              (escaped w)).
Proof.
  unfold cleaned_amount. intros H Hx. unfold catat_jumlah. rewrite H.
  cbn [negb]. run_monad. rewrite Hx. reflexivity.
Qed.

Lemma catat_jumlah_raises (e : exn) :
  PyStr.isdigit (PyStr.remove_char "." (cleaned_amount (message_text u))) = true ->
  PyFloat.of_string (cleaned_amount (message_text u)) = Raise e ->
  catat_jumlah E u w = (Raise e, w).
Proof.
  unfold cleaned_amount. intros H Hx. unfold catat_jumlah. rewrite H.
  cbn [negb]. run_monad. rewrite Hx. reflexivity.
Qed.

Lemma catat_jenis_rejects :
  known_jenis (message_text u) = false ->
  catat_jenis E u w
  = (Ok JENIS,
     mk_world (replies w ++ [("Pilih 'pemasukan' atau 'pengeluaran'."%string, NoMarkup)])
              (documents w) (log w) (calls w) (sheet_rows w) (session w) (escaped w)).
Proof.
  unfold known_jenis. intros H. unfold catat_jenis. rewrite H. reflexivity.
Qed.

Lemma catat_jenis_accepts :
  known_jenis (message_text u) = true ->
  catat_jenis E u w
  = (Ok KATEGORI,
     mk_world (replies w ++ [("Kategori (contoh: makan, transport, gaji, jualan):"%string,
                              NoMarkup)])
              (documents w) (log w) (calls w) (sheet_rows w)
              (mk_user_data (ud_jumlah (session w))
                            (Some (PyStr.lower (PyStr.strip (message_text u))))
                            (ud_kategori (session w)) (ud_deskripsi (session w)))
              (escaped w)).
Proof.
  unfold known_jenis. intros H. unfold catat_jenis. rewrite H. reflexivity.
Qed.

Lemma catat_kategori_returns :
  catat_kategori E u w
  = (Ok DESKRIPSI,
     mk_world (replies w ++ [("Deskripsi singkat (opsional):"%string, NoMarkup)])
              (documents w) (log w) (calls w) (sheet_rows w)
              (mk_user_data (ud_jumlah (session w)) (ud_jenis (session w))
                            (Some (PyStr.strip (message_text u))) (ud_deskripsi (session w)))
              (escaped w)).
Proof. reflexivity. Qed.

(** [catat_deskripsi] stores the description first; it then moves on
    only if the stored amount converts to an integer. *)
Lemma catat_deskripsi_cases :
  let d := mk_user_data (ud_jumlah (session w)) (ud_jenis (session w))
                        (ud_kategori (session w))
                        (Some (PyStr.strip (message_text u))) in
  exists r w',
    catat_deskripsi E u w = (r, w') /\
    session w' = d /\ calls w' = calls w /\ sheet_rows w' = sheet_rows w /\
    match r with
    | Ok st => st = KONFIRM /\
               exists x n, ud_jumlah (session w) = Some x /\ PyFloat.to_Z x = Ok n
    | Raise _ => True
    end.
Proof.
  intros d. unfold catat_deskripsi. run_monad.
  destruct (ud_jumlah (session w)) as [x|] eqn:Hx.
  - destruct (PyFloat.to_Z x) as [n|e] eqn:Hn.
    + eexists _, _. split; [reflexivity|].
      cbn [replies documents log calls sheet_rows session escaped].
      repeat split; eauto.
    + eexists _, _. split; [reflexivity|].
      cbn [replies documents log calls sheet_rows session escaped].
      repeat split; eauto.
  - eexists _, _. split; [reflexivity|].
    cbn [replies documents log calls sheet_rows session escaped].
    repeat split; eauto.
Qed.

Lemma catat_konfirm_declines :
  affirmative (message_text u) = false ->
  catat_konfirm E u w
  = (Ok END,
     mk_world (replies w ++ [("Transaksi dibatalkan."%string, NoMarkup)])
              (documents w) (log w) (calls w) (sheet_rows w) (session w) (escaped w)).
Proof.
  unfold affirmative. intros H. unfold catat_konfirm. rewrite H. reflexivity.
Qed.

(** An affirmative answer when the worksheet cannot be opened: the
    exception of [init_gspread] leaves the handler. *)
Lemma catat_konfirm_no_connection (e : exn) :
  affirmative (message_text u) = true ->
  connect E = Some e ->
  catat_konfirm E u w = (Raise e, w).
Proof.
  unfold affirmative. intros H Hc. unfold catat_konfirm. rewrite H.
  cbn [negb]. run_monad. rewrite Hc. reflexivity.
Qed.

(** An affirmative answer when the worksheet opens and the session is
    complete: one call, with the row of the session. *)
Lemma catat_konfirm_confirms (row : list cell) :
  affirmative (message_text u) = true ->
  connect E = None ->
  row_of E u (session w) = Some row ->
  exists w',
    catat_konfirm E u w = (Ok END, w') /\
    calls w' = calls w ++ [AppendRow row] /\
    sheet_rows w' = sheet_rows w ++ match append_row E with None => [row] | Some _ => [] end /\
    log w' = log w ++ match append_row E with
                      | None => []
                      | Some e => [("Gagal menulis ke Google Sheets: %s"%string, e)]
                      end /\
    replies w' = replies w ++
                 [(match append_row E with
                   | None => "Sukses! Transaksi tersimpan ke Google Sheets."
                   | Some _ => "Gagal menyimpan transaksi. Coba lagi nanti."
                   end%string, NoMarkup)] /\
    session w' = session w /\ escaped w' = escaped w.
Proof.
  unfold affirmative, row_of. intros H Hc Hr. unfold catat_konfirm. rewrite H.
  cbn [negb]. run_monad. rewrite Hc.
  destruct (ud_jenis (session w)) as [jenis|]; [|discriminate].
  destruct (ud_jumlah (session w)) as [jumlah|]; [|discriminate].
  destruct (ud_kategori (session w)) as [kategori|]; [|discriminate].
  destruct (ud_deskripsi (session w)) as [deskripsi|]; [|discriminate].
  destruct (PyFloat.to_Z jumlah) as [n|]; [|discriminate].
  injection Hr as <-.
  destruct (append_row E) as [e|]; eexists; (split; [reflexivity|]);
    cbn [replies documents log calls sheet_rows session escaped];
    rewrite ?app_nil_r; repeat split; reflexivity.
Qed.

End Handlers.

Lemma ready_row_of (E : env) (u : update) (d : user_data) :
  ready KONFIRM d = true -> exists row, row_of E u d = Some row.
Proof.
  unfold ready, row_of, is_set, is_ok.
  destruct (ud_jumlah d) as [x|]; [|discriminate].
  destruct (PyFloat.to_Z x); [|discriminate].
  destruct (ud_jenis d); [|discriminate].
  destruct (ud_kategori d); [|discriminate].
  destruct (ud_deskripsi d); [|discriminate].
  eauto.
Qed.

(** ** One update of the conversation *)

(** What an update does to the store and to the dialog's invariant: the
    worksheet is called only by a confirming update whose connection
    opened, and then once. *)
Lemma conv_handler_step (E : env) (st : state) (i : incoming) (w : world) :
  ready st (session w) = true ->
  exists st' w',
    conv_handler E st i w = (st', w') /\
    ready st' (session w') = true /\
    match confirming st i, connect E with
    | None, _ => calls w' = calls w /\ sheet_rows w' = sheet_rows w
    | Some u, None =>
        exists row,
          row_of E u (session w) = Some row /\
          st' = END /\
          calls w' = calls w ++ [AppendRow row] /\
          sheet_rows w' = sheet_rows w ++ match append_row E with
                                          | None => [row]
                                          | Some _ => []
                                          end
    | Some u, Some e =>
        st' = KONFIRM /\ calls w' = calls w /\ sheet_rows w' = sheet_rows w /\
        replies w' = replies w /\ escaped w' = escaped w ++ [e]
    end.
Proof.
  intros Hr. unfold conv_handler.
  destruct st, i as [u|name u]; cbn [conv_route confirming];
    try (destruct (String.eqb name "cancel"); cbv beta iota; [rewrite cancel_returns|];
         eexists _, _; (split; [reflexivity|]); world_fields;
         (split; [first [reflexivity | assumption]|split; reflexivity])).
  - (* JUMLAH, text *)
    destruct (PyStr.isdigit (PyStr.remove_char "." (cleaned_amount (message_text u)))) eqn:Hd.
    + destruct (PyFloat.of_string (cleaned_amount (message_text u))) as [x|e] eqn:Hx.
      * rewrite (catat_jumlah_accepts E u w x Hd Hx).
        eexists _, _. split; [reflexivity|]. world_fields. repeat split; reflexivity.
      * rewrite (catat_jumlah_raises E u w e Hd Hx).
        eexists _, _. split; [reflexivity|]. run_monad. repeat split; reflexivity.
    + rewrite (catat_jumlah_rejects E u w Hd).
      eexists _, _. split; [reflexivity|]. world_fields. repeat split; reflexivity.
  - (* JENIS, text *)
    destruct (known_jenis (message_text u)) eqn:Hk.
    + rewrite (catat_jenis_accepts E u w Hk).
      eexists _, _. split; [reflexivity|]. split; [ready_auto|]. world_fields. split; reflexivity.
    + rewrite (catat_jenis_rejects E u w Hk).
      eexists _, _. split; [reflexivity|]. split; [assumption|]. world_fields. split; reflexivity.
  - (* KATEGORI, text *)
    rewrite catat_kategori_returns.
    eexists _, _. split; [reflexivity|]. split; [ready_auto|]. world_fields. split; reflexivity.
  - (* DESKRIPSI, text *)
    destruct (catat_deskripsi_cases E u w) as (r & w' & Hh & Hs & Hc & Hrows & Hcase).
    rewrite Hh. destruct r as [st'|e].
    + destruct Hcase as (-> & x & n & Hx & Hn).
      eexists _, _. split; [reflexivity|]. rewrite Hs, Hc, Hrows.
      split; [|split; reflexivity].
      unfold ready, is_set, is_ok in *. cbn [ud_jumlah ud_jenis ud_kategori ud_deskripsi].
      rewrite Hx in *. rewrite Hn.
      destruct (ud_jenis (session w)); [|discriminate].
      destruct (ud_kategori (session w)); [|discriminate]. reflexivity.
    + eexists _, _. split; [reflexivity|]. run_monad. rewrite Hs, Hc, Hrows.
      split; [|split; reflexivity].
      unfold ready, is_set in *. cbn [ud_jumlah ud_jenis ud_kategori ud_deskripsi]. assumption.
  - (* KONFIRM, text *)
    destruct (affirmative (message_text u)) eqn:Ha.
    + destruct (connect E) as [e|] eqn:Hc.
      * rewrite (catat_konfirm_no_connection E u w e Ha Hc).
        eexists _, _. split; [reflexivity|]. run_monad. repeat split; first [assumption|reflexivity].
      * destruct (ready_row_of E u (session w) Hr) as [row Hrow].
        destruct (catat_konfirm_confirms E u w row Ha Hc Hrow)
          as (w' & Hh & Hcalls & Hrows & _ & _ & Hs & _).
        rewrite Hh. eexists _, _. split; [reflexivity|]. split; [reflexivity|].
        exists row. repeat split; assumption.
    + rewrite (catat_konfirm_declines E u w Ha).
      eexists _, _. split; [reflexivity|]. world_fields. repeat split; reflexivity.
  - (* END, text *)
    eexists _, _. split; [reflexivity|]. repeat split; reflexivity.
  - (* END, command *)
    destruct (String.eqb name "catat"); cbv beta iota; [rewrite catat_start_returns|];
      eexists _, _; (split; [reflexivity|]); world_fields; repeat split; reflexivity.
Qed.

Lemma run_app (st : state) (w : world) (us vs : list (env * incoming)) :
  run st w (us ++ vs) = let '(st', w') := run st w us in run st' w' vs.
Proof.
  revert st w. induction us as [|[E i] us IH]; intros st w; cbn [run app].
  - reflexivity.
  - destruct (conv_handler E st i w) as [st' w']. apply IH.
Qed.

(** The invariant holds all along a run. *)
Lemma run_ready (us : list (env * incoming)) (st : state) (w : world) :
  ready st (session w) = true ->
  ready (fst (run st w us)) (session (snd (run st w us))) = true.
Proof.
  revert st w. induction us as [|[E i] us IH]; intros st w Hr; cbn [run].
  - assumption.
  - destruct (conv_handler_step E st i w Hr) as (st' & w' & Hh & Hr' & _).
    rewrite Hh. apply IH. assumption.
Qed.

(** ** The dialog and the store *)



(** C2 (the code departs from the claim).  The amount '1.2.3' passes
    the digit test of [catat_jumlah], since the test drops every dot, and
    [float] then raises [ValueError] out of the handler: no reply is sent,
    and the conversation stays in [JUMLAH] with the exception handed to
    the dispatcher. *)
Theorem C2_amount_with_two_dots_raises (E : env) (uid : Z) (w : world) :
  PyStr.isdigit (PyStr.remove_char "." (cleaned_amount "1.2.3")) = true /\
  PyFloat.of_string (cleaned_amount "1.2.3") = Raise ValueError /\
  catat_jumlah E (mk_update "1.2.3" uid) w = (Raise ValueError, w) /\
  conv_handler E JUMLAH (Text (mk_update "1.2.3" uid)) w
  = (JUMLAH, note_escaped ValueError w).
Proof.
  assert (H : catat_jumlah E (mk_update "1.2.3" uid) w = (Raise ValueError, w))
    by (apply catat_jumlah_raises; reflexivity).
  repeat split; try reflexivity; exact H.
Qed.

(** What [catat_jumlah] does on every text: it asks again and stays when
    the cleaned text without its dots is not made of digits; otherwise it
    stores [float] of the cleaned text and moves to [JENIS] when [float]
    accepts it, and raises when it does not. *)
Lemma catat_jumlah_cases (E : env) (u : update) (w : world) :
  let t := cleaned_amount (message_text u) in
  if PyStr.isdigit (PyStr.remove_char "." t) then
    match PyFloat.of_string t with
    | Ok x => fst (catat_jumlah E u w) = Ok JENIS /\
              ud_jumlah (session (snd (catat_jumlah E u w))) = Some x
    | Raise e => catat_jumlah E u w = (Raise e, w)
    end
  else
    fst (catat_jumlah E u w) = Ok JUMLAH /\
    session (snd (catat_jumlah E u w)) = session w /\
    replies (snd (catat_jumlah E u w))
    = replies w ++ [("Jumlah tidak valid. Masukin angka saja, contoh: 20000"%string, NoMarkup)].
Proof.
  intros t. subst t.
  destruct (PyStr.isdigit _) eqn:Hd.
  - destruct (PyFloat.of_string _) as [x|e] eqn:Hx.
    + rewrite (catat_jumlah_accepts E u w x Hd Hx). split; reflexivity.
    + apply catat_jumlah_raises; assumption.
  - rewrite (catat_jumlah_rejects E u w Hd). repeat split; reflexivity.
Qed.

(** ** Failures of the connection *)

Lemma laporan_no_connection (days : Z) (title : string) (top : nat) (filename : string)
    (E : env) (u : update) (w : world) (e : exn) :
  connect E = Some e -> laporan days title top filename E u w = (Raise e, w).
Proof. intros Hc. unfold laporan. run_monad. rewrite Hc. reflexivity. Qed.

(** C3 (the code departs from the claim).  When [init_gspread] raises
    (missing credentials, spreadsheet or worksheet not found), the
    exception leaves [catat_konfirm] on an affirmative answer, and leaves
    both report handlers: nothing is sent to the user and the dispatcher
    receives the exception. *)
Theorem C3_connection_failure_escapes (E : env) (u : update) (w : world) (e : exn) :
  connect E = Some e ->
  (affirmative (message_text u) = true ->
   catat_konfirm E u w = (Raise e, w) /\
   conv_handler E KONFIRM (Text u) w = (KONFIRM, note_escaped e w)) /\
  laporan_minggu E u w = (Raise e, w) /\
  laporan_bulan E u w = (Raise e, w) /\
  dispatch laporan_minggu E u w = note_escaped e w /\
  dispatch laporan_bulan E u w = note_escaped e w.
Proof.
  intros Hc.
  assert (Hm : laporan_minggu E u w = (Raise e, w)) by (apply laporan_no_connection; assumption).
  assert (Hb : laporan_bulan E u w = (Raise e, w)) by (apply laporan_no_connection; assumption).
  split; [|repeat split; try assumption; unfold dispatch; rewrite ?Hm, ?Hb; reflexivity].
  intros Ha.
  pose proof (catat_konfirm_no_connection E u w e Ha Hc) as H.
  split; [assumption|]. unfold conv_handler. cbn [conv_route]. rewrite H. reflexivity.
Qed.

Lemma C3_witness_no_credentials :
  catat_konfirm Sample.no_credentials (mk_update "ya" 42) empty_world
  = (Raise CredentialsError, empty_world) /\
  laporan_minggu Sample.no_credentials (mk_update "/laporan_minggu" 42) empty_world
  = (Raise CredentialsError, empty_world).
Proof.
  pose proof (C3_connection_failure_escapes Sample.no_credentials (mk_update "ya" 42)
                empty_world CredentialsError eq_refl) as [H _].
  pose proof (C3_connection_failure_escapes Sample.no_credentials
                (mk_update "/laporan_minggu" 42) empty_world CredentialsError eq_refl)
    as (_ & H' & _).
  split; [exact (proj1 (H eq_refl)) | exact H'].
Defined.

(** The part of C3 that the code does honour: a write refused by the
    store during confirmation is logged, answered with a plain message,
    and tried once only. *)
Lemma write_failure_is_reported (E : env) (u : update) (w : world) (row : list cell) (e : exn) :
  affirmative (message_text u) = true ->
  connect E = None ->
  append_row E = Some e ->
  row_of E u (session w) = Some row ->
  exists w',
    catat_konfirm E u w = (Ok END, w') /\
    calls w' = calls w ++ [AppendRow row] /\
    log w' = log w ++ [("Gagal menulis ke Google Sheets: %s"%string, e)] /\
    replies w' = replies w ++ [("Gagal menyimpan transaksi. Coba lagi nanti."%string, NoMarkup)].
Proof.
  intros Ha Hc Hw Hr.
  destruct (catat_konfirm_confirms E u w row Ha Hc Hr) as (w' & Hh & Hcalls & _ & Hl & Hrep & _).
  rewrite Hw in *. exists w'. repeat split; assumption.
Qed.

(** [/sheet] is the one place where a failed lookup is caught and told
    to the user. *)
Lemma sheet_link_never_raises (E : env) (u : update) (w : world) :
  exists w', sheet_link E u w = (Ok tt, w') /\
             length (replies w') = S (length (replies w)).
Proof.
  unfold sheet_link. run_monad.
  destruct (spreadsheet_url E); eexists; (split; [reflexivity|]); world_fields;
    rewrite length_app; cbn [length]; lia.
Qed.

(** ** The row written on confirmation *)

(** C6 (as amended).  In any run of the dialog that has reached the
    confirmation state, an affirmative answer whose connection opens
    makes exactly one [append_row] call, and its fields are, in this
    order: the UTC clock as [%Y-%m-%d %H:%M:%S], the stored type, the
    stored amount truncated toward zero by [int], the stored category,
    the stored description and the id of the user who answers.  In
    particular the dialog '20000', 'pengeluaran', 'makan', 'nasi', 'ya'
    makes the single call [timestamp, 'pengeluaran', 20000, 'makan',
    'nasi', user id]. *)
Theorem C6_row_written_on_confirmation
    (w0 : world) (us : list (env * incoming)) (E : env) (u : update) :
  connect E = None ->
  (fst (run END w0 us) = KONFIRM ->
   affirmative (message_text u) = true ->
   exists jumlah jenis kategori deskripsi n w',
     session (snd (run END w0 us))
     = mk_user_data (Some jumlah) (Some jenis) (Some kategori) (Some deskripsi) /\
     PyFloat.to_Z jumlah = Ok n /\
     conv_handler E KONFIRM (Text u) (snd (run END w0 us)) = (END, w') /\
     calls w' = calls (snd (run END w0 us))
                ++ [AppendRow [CStr (PyTime.strftime (utcnow E)); CStr jenis; CInt n;
                               CStr kategori; CStr deskripsi; CInt (from_user_id u)]]) /\
  (forall E0 : env,
     calls (snd (run END empty_world
                     (Spec.dialog E0 E (from_user_id u) "20000" "ya")))
     = [AppendRow [CStr (PyTime.strftime (utcnow E)); CStr "pengeluaran"; CInt 20000;
                   CStr "makan"; CStr "nasi"; CInt (from_user_id u)]]).
Proof.
  intros Hc. split.
  - intros Hst Ha.
    pose proof (run_ready us END w0 eq_refl) as Hr.
    destruct (run END w0 us) as [st w]. cbn [fst snd] in *. subst st.
    destruct (ready_row_of E u (session w) Hr) as [row Hrow].
    destruct (catat_konfirm_confirms E u w row Ha Hc Hrow) as (w' & Hh & Hcalls & _).
    unfold row_of in Hrow.
    destruct (session w) as [[jumlah|] [jenis|] [kategori|] [deskripsi|]];
      cbn [ud_jumlah ud_jenis ud_kategori ud_deskripsi] in Hrow; try discriminate.
    destruct (PyFloat.to_Z jumlah) as [n|] eqn:Hn; [|discriminate].
    injection Hrow as <-.
    exists jumlah, jenis, kategori, deskripsi, n, w'.
    repeat split; try reflexivity; try assumption.
    unfold conv_handler. cbn [conv_route]. rewrite Hh. reflexivity.
  - intros E0. unfold Spec.dialog.
    set (us5 := [(E0, Command "catat" (mk_update "/catat" (from_user_id u)));
                 (E0, Text (mk_update "20000" (from_user_id u)));
                 (E0, Text (mk_update "pengeluaran" (from_user_id u)));
                 (E0, Text (mk_update "makan" (from_user_id u)));
                 (E0, Text (mk_update "nasi" (from_user_id u)))]).
    match goal with
    | |- calls (snd (run _ _ ?l)) = _ =>
        change l with (us5 ++ [(E, Text (mk_update "ya" (from_user_id u)))])
    end.
    rewrite run_app.
    assert (H5 : exists w, run END empty_world us5 = (KONFIRM, w) /\ calls w = [] /\
                           session w = mk_user_data (Some (PyFloat.of_decimal false 20000 0))
                                                    (Some "pengeluaran"%string)
                                                    (Some "makan"%string) (Some "nasi"%string)).
    { eexists. split; [subst us5; vm_compute; reflexivity|]. split; reflexivity. }
    destruct H5 as (w & -> & Hcalls & Hs).
    cbn [run].
    destruct (catat_konfirm_confirms E (mk_update "ya" (from_user_id u)) w
                [CStr (PyTime.strftime (utcnow E)); CStr "pengeluaran"; CInt 20000;
                 CStr "makan"; CStr "nasi"; CInt (from_user_id u)])
      as (w' & Hh & Hc' & _).
    + reflexivity.
    + assumption.
    + unfold row_of. rewrite Hs. reflexivity.
    + unfold conv_handler. cbn [conv_route]. rewrite Hh. cbn [snd].
      rewrite Hc', Hcalls. reflexivity.
Qed.

Lemma C6_witness_example_dialog :
  connect Sample.fine = None /\
  (exists w',
     conv_handler Sample.fine KONFIRM (Text (mk_update "ya" 42))
       (snd (run END empty_world
                 (firstn 5 (Spec.dialog Sample.fine Sample.fine 42 "20000" "ya"))))
     = (END, w') /\
     calls w' = [AppendRow [CStr "2024-01-08 10:00:00"; CStr "pengeluaran"; CInt 20000;
                            CStr "makan"; CStr "nasi"; CInt 42]]) /\
  calls (snd (run END empty_world (Spec.dialog Sample.fine Sample.fine 42 "20000" "ya")))
  = [AppendRow [CStr "2024-01-08 10:00:00"; CStr "pengeluaran"; CInt 20000;
                CStr "makan"; CStr "nasi"; CInt 42]].
Proof.
  pose proof (C6_row_written_on_confirmation empty_world
                (firstn 5 (Spec.dialog Sample.fine Sample.fine 42 "20000" "ya"))
                Sample.fine (mk_update "ya" 42) eq_refl) as [H1 H2].
  split; [reflexivity|]. split.
  - destruct (H1 eq_refl eq_refl) as (jumlah & jenis & kategori & deskripsi & n & w' & Hs & Hn & Hh & Hc).
    exists w'. split; [exact Hh|].
    vm_compute in Hs. injection Hs as <- <- <- <-.
    vm_compute in Hn. injection Hn as <-.
    vm_compute in Hc. exact Hc.
  - exact (H2 Sample.fine).
Defined.

(** C6, counterexample.  With the amount '2.7' the row written holds 2,
    the amount cut at the decimal point, whereas the amount rounded to
    the nearest integer is 3. *)
Lemma C6_counterexample_amount_is_truncated :
  let r := run END empty_world (Spec.dialog Sample.fine Sample.fine 42 "2.7" "ya") in
  calls (snd r)
  = [AppendRow [CStr "2024-01-08 10:00:00"; CStr "pengeluaran"; CInt 2;
                CStr "makan"; CStr "nasi"; CInt 42]] /\
  option_map Spec.rounded (ud_jumlah (session (snd r))) = Some (Some 3).
Proof. vm_compute. split; reflexivity. Qed.

(** ** The type of the transaction *)




(** ** The summary, record by record *)

Section Summary.

Variable since_date : PyTime.datetime.

(** A falsy time never reads as a date. *)
Lemma falsy_time_not_in_window (r : record) :
  truthy (record_time r) = false -> in_window since_date r = false.
Proof.
  unfold in_window, truthy. destruct (record_time r) as [[s|n]|]; try reflexivity.
  destruct (String.eqb_spec s ""); [subst; intros _; reflexivity | discriminate].
Qed.


(** The whole loop body as one case analysis. *)
Lemma summary_verdict_cases (r : record) :
  summary_verdict since_date r =
  if in_window since_date r then
    match cell_float (record_jumlah r), is_pemasukan (record_jenis r) with
    | Ok jumlah, Ok true => Income jumlah
    | Ok jumlah, Ok false => Expense (record_kategori r) jumlah
    | _, _ => Skip
    end
  else Skip.
Proof.
  unfold summary_verdict, summary_body.
  destruct (truthy (record_time r)) eqn:Ht; cbn [negb].
  - unfold in_window. destruct (record_time r) as [tc|]; [|discriminate].
    destruct (parse_time tc) as [dt|e]; [|reflexivity].
    destruct (PyTime.ltb dt since_date); cbn [negb]; [reflexivity|].
    destruct (cell_float (record_jumlah r)) as [jumlah|e]; [|reflexivity].
    destruct (is_pemasukan (record_jenis r)) as [[|]|e]; reflexivity.
  - rewrite falsy_time_not_in_window by assumption. reflexivity.
Qed.




End Summary.




(** The two types named by the specification: 'Pemasukan' counts as
    income and the empty type as expense. *)
Example type_Pemasukan_is_income :
  generate_summary [<["Jenis" := CStr "Pemasukan"]> (Sample.expense "2024-01-01" "gaji" 7)]
                   Sample.since
  = (PyFloat.of_decimal false 7 0, PyFloat.zero, []).
Proof. vm_compute. reflexivity. Qed.

Example type_blank_is_expense :
  generate_summary [<["Jenis" := CStr ""]> (Sample.expense "2024-01-01" "makan" 7)]
                   Sample.since
  = (PyFloat.zero, PyFloat.of_decimal false 7 0, [(CStr "makan", PyFloat.of_decimal false 7 0)]).
Proof. vm_compute. reflexivity. Qed.

(** The example of the specification. *)
Example summary_of_one_expense :
  generate_summary [Sample.expense "2024-01-01 10:00:00" "makan" 50000] Sample.since
  = (PyFloat.zero, PyFloat.of_decimal false 50000 0,
     [(CStr "makan", PyFloat.of_decimal false 50000 0)]).
Proof. vm_compute. reflexivity. Qed.

Example summary_of_nothing (since_date : PyTime.datetime) :
  generate_summary [] since_date = (PyFloat.zero, PyFloat.zero, []).
Proof. reflexivity. Qed.

(** ** Records that are counted, and records that are only listed *)


Lemma category_lines_pure (items : catmap) (w : world) :
  snd (category_lines items w) = w.
Proof.
  induction items as [|[k v] items IH]; cbn [category_lines]; [reflexivity|].
  run_monad. destruct (PyFloat.to_Z v); [|reflexivity].
  destruct (category_lines items w) as [[rest|e] w'] eqn:Hc; cbn [snd] in *; subst; reflexivity.
Qed.




(** ** The CSV attachment *)


Section CsvLines.

Local Open Scope string_scope.

Lemma string_app_assoc (a b c : string) : (a ++ b) ++ c = a ++ b ++ c.
Proof.
  induction a as [|x a IH]; [reflexivity|].
  change (String x ((a ++ b) ++ c) = String x (a ++ b ++ c)). f_equal. exact IH.
Qed.

Lemma string_app_cons (x : ascii) (a b : string) : String x a ++ b = String x (a ++ b).
Proof. reflexivity. Qed.

Lemma contains_char_app (c : ascii) (a b : string) :
  PyStr.contains_char c (a ++ b) = PyStr.contains_char c a || PyStr.contains_char c b.
Proof.
  induction a as [|x a IH]; [reflexivity|].
  rewrite string_app_cons. cbn [PyStr.contains_char]. rewrite IH. apply orb_assoc.
Qed.









End CsvLines.





(** ** Integers held by floats *)

Section IntegerFloats.

Import FloatExact.

Lemma digits2_pos_iter (p k : positive) :
  digits2_pos (Pos.iter xO p k) = (digits2_pos p + k)%positive.
Proof.
  revert p. induction k as [k IH|k IH|]; intros p; cbn [Pos.iter digits2_pos].
  - rewrite !IH. lia.
  - rewrite !IH. lia.
  - lia.
Qed.

Lemma dig_shiftp (p : positive) (k : Z) : 0 <= k -> dig (shiftp p k) = dig p + k.
Proof.
  unfold dig. destruct k as [|k|k]; cbn [shiftp]; intros H; try lia.
  rewrite digits2_pos_iter. lia.
Qed.

Lemma Zpos_iter_xO (p k : positive) : Zpos (Pos.iter xO p k) = Zpos p * 2 ^ Zpos k.
Proof.
  revert p. induction k as [|k IH] using Pos.peano_ind; intros p.
  - cbn [Pos.iter]. lia.
  - rewrite Pos.iter_succ, Pos2Z.inj_succ, Z.pow_succ_r by lia.
    rewrite Pos2Z.inj_xO, IH. ring.
Qed.

Lemma Zpos_shiftp (p : positive) (k : Z) : 0 <= k -> Zpos (shiftp p k) = Zpos p * 2 ^ k.
Proof.
  destruct k as [|k|k]; cbn [shiftp]; intros H; try lia.
  apply Zpos_iter_xO.
Qed.

Lemma shiftp_shiftp (p : positive) (j k : Z) :
  0 <= j -> 0 <= k -> shiftp (shiftp p j) k = shiftp p (j + k).
Proof.
  intros Hj Hk. apply Pos2Z.inj.
  rewrite !Zpos_shiftp by lia. rewrite Z.pow_add_r by lia. ring.
Qed.

Lemma dig_lower (p : positive) : 2 ^ (dig p - 1) <= Zpos p.
Proof.
  unfold dig. induction p as [p IH|p IH|]; cbn [digits2_pos].
  - rewrite Pos2Z.inj_succ.
    replace (Z.succ (Zpos (digits2_pos p)) - 1) with (Z.succ (Zpos (digits2_pos p) - 1)) by lia.
    rewrite Z.pow_succ_r by lia. lia.
  - rewrite Pos2Z.inj_succ.
    replace (Z.succ (Zpos (digits2_pos p)) - 1) with (Z.succ (Zpos (digits2_pos p) - 1)) by lia.
    rewrite Z.pow_succ_r by lia. lia.
  - cbn. lia.
Qed.

Lemma dig_upper (p : positive) : Zpos p < 2 ^ dig p.
Proof.
  unfold dig. induction p as [p IH|p IH|]; cbn [digits2_pos].
  - rewrite Pos2Z.inj_succ, Z.pow_succ_r by lia. lia.
  - rewrite Pos2Z.inj_succ, Z.pow_succ_r by lia. lia.
  - cbn. lia.
Qed.

Lemma dig_le_53 (p : positive) : Zpos p < 2 ^ 53 -> dig p <= 53.
Proof.
  intros H. pose proof (dig_lower p) as L.
  destruct (Z_le_gt_dec (dig p) 53) as [|G]; [assumption|exfalso].
  assert (2 ^ 53 <= 2 ^ (dig p - 1)) by (apply Z.pow_le_mono_r; lia).
  lia.
Qed.

Lemma dig_mono (p q : positive) : (p <= q)%positive -> dig p <= dig q.
Proof.
  intros H. pose proof (dig_lower p) as L. pose proof (dig_upper q) as U.
  assert (Hd : 0 < dig q) by (unfold dig; lia).
  assert (Hlt : 2 ^ (dig p - 1) < 2 ^ dig q) by lia.
  apply Z.pow_lt_mono_r_iff in Hlt; lia.
Qed.

(** Shifting right by as many bits as were shifted in loses nothing. *)
Lemma shr_exact (n K : positive) :
  SpecFloat.iter_pos shr_1 n (Build_shr_record (Zpos (Pos.iter xO K n)) false false)
  = Build_shr_record (Zpos K) false false.
Proof.
  revert K. induction n as [n IH|n IH|]; intros K; cbn [SpecFloat.iter_pos Pos.iter shr_1 orb].
  - rewrite !IH. reflexivity.
  - rewrite !IH. reflexivity.
  - reflexivity.
Qed.

Lemma dig_mant (p : positive) : dig p <= 53 -> dig (mant p) = 53.
Proof. intros H. unfold mant, cexp. rewrite dig_shiftp by lia. lia. Qed.

Lemma shr_fexp_canonical (m : positive) (e : Z) :
  dig m = 53 -> -1074 <= e ->
  shr_fexp PyFloat.prec PyFloat.emax (Zpos m) e loc_Exact = (Build_shr_record (Zpos m) false false, e).
Proof.
  intros Hd He. unfold shr_fexp, fexp, emin, PyFloat.prec, PyFloat.emax, Zdigits2.
  fold (dig m). rewrite Hd.
  replace (Z.max (53 + e - 53) (3 - 1024 - 53) - e) with 0 by lia.
  reflexivity.
Qed.

Lemma round_aux_after_shr (s : bool) (mx ex : Z) (m : positive) (e : Z) :
  shr_fexp PyFloat.prec PyFloat.emax mx ex loc_Exact = (Build_shr_record (Zpos m) false false, e) ->
  dig m = 53 -> -1074 <= e <= 971 ->
  binary_round_aux PyFloat.prec PyFloat.emax s mx ex loc_Exact = S754_finite s m e.
Proof.
  intros Hs Hd He. unfold binary_round_aux. rewrite Hs.
  cbn [shr_m loc_of_shr_record round_nearest_even].
  rewrite shr_fexp_canonical by (assumption || lia).
  cbn [shr_m]. unfold PyFloat.emax, PyFloat.prec.
  destruct (Z.leb_spec e (1024 - 53)); [reflexivity | lia].
Qed.

Lemma round_aux_canonical (s : bool) (m : positive) (e : Z) :
  dig m = 53 -> -1074 <= e <= 971 ->
  binary_round_aux PyFloat.prec PyFloat.emax s (Zpos m) e loc_Exact = S754_finite s m e.
Proof.
  intros Hd He. apply round_aux_after_shr; try assumption.
  apply shr_fexp_canonical; [assumption | lia].
Qed.

(** A positive integer below 2^53 converts without rounding. *)
Lemma binary_round_int (s : bool) (c : positive) :
  Zpos c < 2 ^ 53 ->
  binary_round PyFloat.prec PyFloat.emax s c 0 = S754_finite s (mant c) (cexp c).
Proof.
  intros Hc. pose proof (dig_le_53 c Hc) as Hd.
  assert (H1 : 1 <= dig c) by (unfold dig; lia).
  unfold binary_round. fold (dig c).
  assert (Hf : fexp PyFloat.prec PyFloat.emax (dig c + 0) = cexp c).
  { unfold fexp, emin, PyFloat.prec, PyFloat.emax, cexp. lia. }
  rewrite Hf.
  assert (Hs : shl_align c 0 (cexp c) = (mant c, cexp c)).
  { unfold shl_align, mant, shiftp. unfold cexp in *.
    destruct (dig c - 53 - 0) as [|k|k] eqn:Ek.
    - replace (dig c - 53) with 0 by lia. reflexivity.
    - lia.
    - replace (- (dig c - 53)) with (Zpos k) by lia. reflexivity. }
  rewrite Hs. apply round_aux_canonical.
  - apply dig_mant; assumption.
  - unfold cexp; lia.
Qed.

(** So does the same integer written with trailing zero bits. *)
Lemma binary_round_shifted (s : bool) (c : positive) (ez : Z) :
  Zpos c < 2 ^ 53 -> -1074 <= ez <= cexp c ->
  binary_round PyFloat.prec PyFloat.emax s (shiftp c (- ez)) ez = S754_finite s (mant c) (cexp c).
Proof.
  intros Hc He. pose proof (dig_le_53 c Hc) as Hd.
  assert (H1 : 1 <= dig c) by (unfold dig; lia).
  assert (Hez : ez <= 0) by (unfold cexp in He; lia).
  unfold binary_round. fold (dig (shiftp c (- ez))).
  rewrite dig_shiftp by lia.
  replace (dig c + - ez + ez) with (dig c) by lia.
  assert (Hf : fexp PyFloat.prec PyFloat.emax (dig c) = cexp c).
  { unfold fexp, emin, PyFloat.prec, PyFloat.emax, cexp. lia. }
  rewrite Hf.
  assert (Hs : shl_align (shiftp c (- ez)) ez (cexp c) = (shiftp c (- ez), ez)).
  { unfold shl_align. destruct (cexp c - ez) as [|k|k] eqn:Ek; try reflexivity. lia. }
  rewrite Hs.
  assert (Hshr : shr_fexp PyFloat.prec PyFloat.emax (Zpos (shiftp c (- ez))) ez loc_Exact
                 = (Build_shr_record (Zpos (mant c)) false false, cexp c)).
  { unfold shr_fexp, Zdigits2. fold (dig (shiftp c (- ez))). rewrite dig_shiftp by lia.
    replace (dig c + - ez + ez) with (dig c) by lia. rewrite Hf.
    unfold shr, shr_record_of_loc.
    assert (Hm : shiftp c (- ez) = shiftp (mant c) (cexp c - ez)).
    { unfold mant. rewrite shiftp_shiftp by (unfold cexp in *; lia). f_equal. lia. }
    destruct (cexp c - ez) as [|k|k] eqn:Ek.
    - cbn [shiftp] in Hm. rewrite Hm. f_equal. lia.
    - rewrite Hm. cbn [shiftp]. rewrite shr_exact. f_equal. lia.
    - lia. }
  apply round_aux_after_shr with (1 := Hshr).
  - apply dig_mant; assumption.
  - unfold cexp; lia.
Qed.

Lemma nearest_pos (c : positive) :
  Zpos c < 2 ^ 53 -> PyFloat.nearest (Zpos c) = S754_finite false (mant c) (cexp c).
Proof.
  intros H. unfold PyFloat.nearest, binary_normalize. apply binary_round_int; assumption.
Qed.

Lemma shl_align_shiftp (m : positive) (e e' : Z) :
  e' <= e -> fst (shl_align m e e') = shiftp m (e - e').
Proof.
  intros H. unfold shl_align, shiftp.
  destruct (e' - e) as [|k|k] eqn:Ek.
  - replace (e - e') with 0 by lia. reflexivity.
  - lia.
  - replace (e - e') with (Zpos k) by lia. reflexivity.
Qed.

(** Two non-negative integers whose sum is below 2^53 add as floats
    without rounding. *)
Lemma add_nearest (a b : Z) :
  0 <= a -> 0 <= b -> a + b < 2 ^ 53 ->
  PyFloat.add (PyFloat.nearest a) (PyFloat.nearest b) = PyFloat.nearest (a + b).
Proof.
  intros Ha Hb Hab.
  destruct a as [|a|a]; [|clear Ha|lia].
  { change (0 + b) with b. destruct b as [|b|b]; [reflexivity| |lia].
    rewrite nearest_pos by lia. reflexivity. }
  destruct b as [|b|b]; [|clear Hb|lia].
  { rewrite Z.add_0_r. rewrite nearest_pos by lia. reflexivity. }
  rewrite (nearest_pos a), (nearest_pos b) by lia.
  change (Zpos a + Zpos b) with (Zpos (a + b)) in *.
  rewrite (nearest_pos (a + b)) by lia.
  pose proof (dig_le_53 a ltac:(lia)) as Hda.
  pose proof (dig_le_53 b ltac:(lia)) as Hdb.
  pose proof (dig_le_53 (a + b) ltac:(lia)) as Hdc.
  pose proof (dig_mono a (a + b) ltac:(lia)) as Hma.
  pose proof (dig_mono b (a + b) ltac:(lia)) as Hmb.
  assert (H1a : 1 <= dig a) by (unfold dig; lia).
  assert (H1b : 1 <= dig b) by (unfold dig; lia).
  unfold PyFloat.add, SFadd.
  set (ez := Z.min (cexp a) (cexp b)).
  assert (Hez : -1074 <= ez <= cexp (a + b)) by (unfold ez, cexp in *; lia).
  assert (Hez0 : ez <= 0) by (unfold ez, cexp in *; lia).
  rewrite !shl_align_shiftp by (unfold ez; lia).
  unfold mant. rewrite !shiftp_shiftp by (unfold ez, cexp in *; lia).
  replace (- cexp a + (cexp a - ez)) with (- ez) by lia.
  replace (- cexp b + (cexp b - ez)) with (- ez) by lia.
  cbn [cond_Zopp].
  assert (Hsum : Zpos (shiftp a (- ez)) + Zpos (shiftp b (- ez))
                 = Zpos (shiftp (a + b) (- ez))).
  { rewrite !Zpos_shiftp by lia. lia. }
  rewrite Hsum. unfold binary_normalize.
  rewrite binary_round_shifted by (assumption || lia).
  reflexivity.
Qed.

(** [float(n)] is that float, and [int] gives [n] back. *)
Lemma of_Z_nearest (n : Z) :
  0 <= n < 2 ^ 53 -> PyFloat.of_Z n = Ok (PyFloat.nearest n).
Proof.
  intros H. unfold PyFloat.of_Z. destruct n as [|c|c]; [reflexivity| |lia].
  rewrite nearest_pos by lia. reflexivity.
Qed.

End IntegerFloats.

(** ** The expense total and the category map *)

Section CategorySum.

Lemma dict_get_float_values (k : cell) (d : dict Z) :
  dict_get k (float_values d) PyFloat.zero = PyFloat.nearest (dict_get k d 0).
Proof.
  induction d as [|[k' v] d IH]; cbn [float_values map dict_get fst snd]; [reflexivity|].
  destruct (decide (k' = k)); [reflexivity | exact IH].
Qed.

Lemma dict_set_float_values (k : cell) (v : Z) (d : dict Z) :
  dict_set k (PyFloat.nearest v) (float_values d) = float_values (dict_set k v d).
Proof.
  induction d as [|[k' v'] d IH]; cbn [float_values map dict_set fst snd]; [reflexivity|].
  destruct (decide (k' = k)); cbn [map fst snd]; [reflexivity|].
  f_equal. exact IH.
Qed.

Lemma sumZ_nonneg (l : list Z) : Forall (fun n => 0 <= n) l -> 0 <= sumZ l.
Proof. induction 1; cbn [sumZ fold_right]; [lia|]. fold (sumZ l). lia. Qed.

Lemma dict_get_bounds (k : cell) (d : dict Z) :
  nonneg_values d -> 0 <= dict_get k d 0 <= sumZ (map snd d).
Proof.
  induction 1 as [|[k' v] d Hv Hd IH]; cbn [dict_get map sumZ fold_right snd] in *; [lia|].
  fold (sumZ (map snd d)).
  assert (0 <= sumZ (map snd d)) by lia.
  destruct (decide (k' = k)); lia.
Qed.

(** Adding [n] to the entry of [k] adds [n] to the sum of the values. *)
Lemma dict_add_sum (k : cell) (n : Z) (d : dict Z) :
  sumZ (map snd (dict_set k (dict_get k d 0 + n) d)) = sumZ (map snd d) + n.
Proof.
  induction d as [|[k' v] d IH]; cbn [dict_get dict_set map sumZ fold_right snd].
  - lia.
  - destruct (decide (k' = k)); cbn [map sumZ fold_right snd].
    + lia.
    + fold (sumZ (map snd (dict_set k (dict_get k d 0 + n) d))). fold (sumZ (map snd d)).
      rewrite IH. lia.
Qed.

Lemma dict_add_nonneg (k : cell) (n : Z) (d : dict Z) :
  nonneg_values d -> 0 <= n -> nonneg_values (dict_set k (dict_get k d 0 + n) d).
Proof.
  intros Hd Hn. induction Hd as [|[k' v] d Hv Hd IH]; cbn [dict_get dict_set snd] in *.
  - repeat constructor. cbn. lia.
  - destruct (decide (k' = k)).
    + constructor; [cbn; lia | assumption].
    + constructor; [assumption | exact IH].
Qed.

(** The values of a map of small integers add up without rounding. *)
Lemma sum_values_from (d : dict Z) (a : Z) :
  nonneg_values d -> 0 <= a -> a + sumZ (map snd d) < 2 ^ 53 ->
  fold_left (fun acc kv => PyFloat.add acc (snd kv)) (float_values d) (PyFloat.nearest a)
  = PyFloat.nearest (a + sumZ (map snd d)).
Proof.
  intros Hd. revert a. induction Hd as [|[k v] d Hv Hd IH]; intros a Ha Hlt.
  - cbn. f_equal. lia.
  - cbn [float_values map fold_left fst snd sumZ fold_right] in *.
    fold (sumZ (map snd d)) in *. fold (float_values d).
    pose proof (sumZ_nonneg (map snd d)) as Hs.
    assert (0 <= sumZ (map snd d)).
    { apply Hs. clear -Hd. induction Hd; cbn [map]; constructor; auto. }
    rewrite add_nearest by lia. rewrite IH by lia. f_equal. lia.
Qed.

Lemma sum_values_float_values (d : dict Z) :
  nonneg_values d -> sumZ (map snd d) < 2 ^ 53 ->
  sum_values (float_values d) = PyFloat.nearest (sumZ (map snd d)).
Proof.
  intros Hd Hlt. unfold sum_values.
  change PyFloat.zero with (PyFloat.nearest 0).
  rewrite sum_values_from by (assumption || lia). reflexivity.
Qed.

Variable since_date : PyTime.datetime.

(** The loop keeps the expense total and the category map in step: both
    hold the floats of integers, and the values of the map add up to
    the total. *)
Lemma summary_fold_exact (records : list record) :
  forall (ns : list Z) (tp : spec_float) (T : Z) (d : dict Z),
    expense_amounts since_date records = map PyFloat.nearest ns ->
    Forall (fun n => 0 <= n) ns ->
    nonneg_values d -> sumZ (map snd d) = T ->
    T + sumZ ns < 2 ^ 53 ->
    exists tp' d',
      fold_left (summary_step since_date) records (tp, PyFloat.nearest T, float_values d)
      = (tp', PyFloat.nearest (T + sumZ ns), float_values d') /\
      nonneg_values d' /\ sumZ (map snd d') = T + sumZ ns.
Proof.
  induction records as [|r records IH]; intros ns tp T d He Hns Hd HT Hlt.
  - destruct ns; [|discriminate]. exists tp, d. cbn [fold_left sumZ fold_right].
    rewrite Z.add_0_r. auto.
  - cbn [fold_left expense_amounts] in *. unfold summary_step at 2.
    destruct (summary_verdict since_date r) as [|jumlah|kategori jumlah].
    + apply IH; assumption.
    + apply IH; assumption.
    + destruct ns as [|n ns]; [discriminate|]. subst T.
      cbn [map] in He. injection He as -> He.
      inversion Hns as [|? ? Hn Hns']; subst.
      cbn [sumZ fold_right] in Hlt. fold (sumZ ns) in Hlt.
      pose proof (sumZ_nonneg ns Hns') as Hs.
      pose proof (dict_get_bounds kategori d Hd) as Hg.
      rewrite dict_get_float_values.
      rewrite (add_nearest (sumZ (map snd d)) n) by lia.
      rewrite (add_nearest (dict_get kategori d 0) n) by lia.
      rewrite dict_set_float_values.
      destruct (IH ns tp (sumZ (map snd d) + n)
                  (dict_set kategori (dict_get kategori d 0 + n) d) He Hns')
        as (tp' & d' & Hf & Hd' & Hsum).
      * apply dict_add_nonneg; assumption.
      * apply dict_add_sum.
      * lia.
      * replace (sumZ (map snd d) + sumZ (n :: ns)) with (sumZ (map snd d) + n + sumZ ns)
          by (cbn [sumZ fold_right]; fold (sumZ ns); lia).
        exists tp', d'. split; [exact Hf|]. split; assumption.
Qed.

End CategorySum.

(** C10 (as amended).  Whenever the amounts of the records counted as
    expenses are the floats of non-negative integers whose sum is below
    2^53, so that no addition rounds, the expense total returned by
    [generate_summary] equals the sum of the values of the category map
    it returns, both being the float of that integer sum. *)
Theorem C10_expense_total_is_category_sum
    (records : list record) (since_date : PyTime.datetime) (ns : list Z) :
  expense_amounts since_date records = map PyFloat.nearest ns ->
  Forall (fun n => 0 <= n) ns ->
  sumZ ns < 2 ^ 53 ->
  let '(_, total_pengeluaran, by_category) := generate_summary records since_date in
  total_pengeluaran = sum_values by_category /\
  total_pengeluaran = PyFloat.nearest (sumZ ns).
Proof.
  intros He Hns Hlt. unfold generate_summary, empty_summary.
  destruct (summary_fold_exact since_date records ns PyFloat.zero 0 [] He Hns)
    as (tp' & d' & Hf & Hd' & Hsum).
  - constructor.
  - reflexivity.
  - lia.
  - change PyFloat.zero with (PyFloat.nearest 0) at 2.
    change (@nil (cell * spec_float)) with (float_values []).
    rewrite Hf. cbn [Z.add] in *.
    rewrite sum_values_float_values by (assumption || lia).
    rewrite Hsum. split; reflexivity.
Qed.

Lemma C10_witness_three_expenses :
  let '(_, total_pengeluaran, by_category) :=
    generate_summary [Sample.expense "2024-01-01 10:00:00" "makan" 50000;
                      Sample.expense "2024-01-02" "transport" 20000;
                      Sample.expense "2024-01-03 08:30:00" "makan" 5000]
                     Sample.since in
  total_pengeluaran = sum_values by_category /\
  total_pengeluaran = PyFloat.nearest 75000.
Proof.
  apply (C10_expense_total_is_category_sum
           [Sample.expense "2024-01-01 10:00:00" "makan" 50000;
            Sample.expense "2024-01-02" "transport" 20000;
            Sample.expense "2024-01-03 08:30:00" "makan" 5000]
           Sample.since [50000; 20000; 5000]).
  - vm_compute. reflexivity.
  - repeat constructor; lia.
  - vm_compute. reflexivity.
Defined.

(** When every amount cell is a small non-negative integer the condition
    of C10 holds. *)
Lemma expense_amounts_of_integer_cells (since_date : PyTime.datetime) (records : list record) :
  Forall (fun r => exists n, record_jumlah r = CInt n /\ 0 <= n < 2 ^ 53) records ->
  exists ns, expense_amounts since_date records = map PyFloat.nearest ns /\
             Forall (fun n => 0 <= n < 2 ^ 53) ns /\
             (length ns <= length records)%nat.
Proof.
  induction 1 as [|r records (n & Hn & Hb) _ (ns & He & Hf & Hl)].
  - exists []. repeat split; [constructor | reflexivity].
  - cbn [expense_amounts length]. rewrite summary_verdict_cases.
    destruct (in_window since_date r); [|exists ns; repeat split; [assumption..|lia]].
    rewrite Hn. cbn [cell_float]. rewrite of_Z_nearest by assumption.
    destruct (is_pemasukan (record_jenis r)) as [[|]|e];
      try (exists ns; repeat split; [assumption..|lia]).
    exists (n :: ns). cbn [map length]. rewrite He.
    repeat split; [constructor; assumption | lia].
Qed.

(** C10, counterexample.  Three expenses in the window: 10^16 in
    category 'a', then 1 and 1 in category 'b'.  The running total stays
    at 10^16, each addition of 1 being rounded away, while category 'b'
    holds 2: the values of the map add up, as floats and as integers, to
    10^16 + 2, which is not the total. *)
Lemma C10_counterexample_rounded_total :
  let '(_, total_pengeluaran, by_category) :=
    generate_summary [Sample.expense "2024-01-01" "a" (10 ^ 16);
                      Sample.expense "2024-01-01" "b" 1;
                      Sample.expense "2024-01-01" "b" 1]
                     Sample.since in
  total_pengeluaran <> sum_values by_category /\
  PyFloat.eqb total_pengeluaran (sum_values by_category) = false /\
  PyFloat.to_Z total_pengeluaran = Ok (10 ^ 16) /\
  map (fun kv => PyFloat.to_Z (snd kv)) by_category = [Ok (10 ^ 16); Ok 2] /\
  PyFloat.to_Z (sum_values by_category) = Ok (10 ^ 16 + 2).
Proof. vm_compute. repeat split; try reflexivity. discriminate. Qed.

(* ===================================================================== *)
(** * Part III: further properties of the code                            *)
(* ===================================================================== *)

(** ** Amount texts *)

Section AmountTexts.

Local Open Scope string_scope.

Lemma isdigit_all_chars (s : string) :
  PyStr.isdigit s = true -> PyStr.all_chars PyStr.is_digit s = true /\ s <> "".
Proof. destruct s; [discriminate|]. intros H. split; [exact H | discriminate]. Qed.

(** A text whose dots removed leaves digits is made of digits and dots. *)
Lemma remove_dots_digits (t : string) :
  PyStr.all_chars PyStr.is_digit (PyStr.remove_char "." t) = true ->
  PyStr.all_chars digit_or_dot t = true.
Proof.
  induction t as [|c t IH]; [reflexivity|].
  cbn [PyStr.remove_char PyStr.all_chars]. unfold digit_or_dot at 1.
  rewrite (Ascii.eqb_sym c "."). destruct (Ascii.eqb "." c).
  - intros H. rewrite orb_true_r. apply IH; assumption.
  - cbn [PyStr.all_chars]. intros H. apply andb_true_iff in H as [Hc Ht].
    rewrite Hc. apply IH; assumption.
Qed.

Lemma remove_dots_no_dot (t : string) :
  count_char "." t = 0%nat -> PyStr.remove_char "." t = t.
Proof.
  induction t as [|c t IH]; [reflexivity|].
  cbn [count_char PyStr.remove_char]. destruct (Ascii.eqb "." c); [discriminate|].
  intros H. rewrite IH by exact H. reflexivity.
Qed.

Lemma digit_or_dot_not_space (c : ascii) :
  digit_or_dot c = true -> PyStr.is_c_space c = false.
Proof. intros H. by_bits c H. Qed.

Lemma digit_or_dot_not_underscore (c : ascii) :
  digit_or_dot c = true -> Ascii.eqb c "_" = false.
Proof. intros H. by_bits c H. Qed.

Lemma digit_or_dot_lower (c : ascii) :
  digit_or_dot c = true -> PyStr.lower_char c = c.
Proof. intros H. by_bits c H. Qed.

Lemma digit_or_dot_not_e (c : ascii) :
  Ascii.eqb c "." = true -> Ascii.eqb (PyStr.lower_char c) "e" = false.
Proof. intros H. by_bits c H. Qed.

Lemma digit_or_dot_cases (c : ascii) :
  digit_or_dot c = true ->
  (PyStr.is_digit c = true /\ Ascii.eqb c "." = false) \/
  (PyStr.is_digit c = false /\ c = "."%char).
Proof.
  intros H. destruct c as [[] [] [] [] [] [] [] []]; vm_compute in H; try discriminate H;
    vm_compute; auto.
Qed.

Lemma lstrip_by_plain (p : ascii -> bool) (s : string) :
  PyStr.all_chars (fun c => negb (p c)) s = true -> PyStr.lstrip_by p s = s.
Proof.
  destruct s as [|c s]; [reflexivity|]. cbn [PyStr.all_chars PyStr.lstrip_by].
  destruct (p c); [discriminate | reflexivity].
Qed.

Lemma rstrip_by_plain (p : ascii -> bool) (s : string) :
  PyStr.all_chars (fun c => negb (p c)) s = true -> PyStr.rstrip_by p s = s.
Proof.
  induction s as [|c s IH]; [reflexivity|]. cbn [PyStr.all_chars PyStr.rstrip_by].
  intros H. apply andb_true_iff in H as [Hc Hs]. rewrite IH by exact Hs.
  destruct s; [|reflexivity]. destruct (p c); [discriminate | reflexivity].
Qed.

Lemma all_chars_impl (p q : ascii -> bool) (s : string) :
  (forall c, p c = true -> q c = true) ->
  PyStr.all_chars p s = true -> PyStr.all_chars q s = true.
Proof.
  intros Hpq. induction s as [|c s IH]; [reflexivity|]. cbn [PyStr.all_chars].
  intros H. apply andb_true_iff in H as [Hc Hs]. rewrite (Hpq c Hc). apply IH; exact Hs.
Qed.

Lemma strip_c_space_plain (t : string) :
  PyStr.all_chars digit_or_dot t = true -> PyStr.strip_by PyStr.is_c_space t = t.
Proof.
  intros H.
  assert (Hn : PyStr.all_chars (fun c => negb (PyStr.is_c_space c)) t = true).
  { apply all_chars_impl with (2 := H). intros c Hc.
    rewrite digit_or_dot_not_space by exact Hc. reflexivity. }
  unfold PyStr.strip_by. rewrite lstrip_by_plain by exact Hn. apply rstrip_by_plain; exact Hn.
Qed.

Lemma drop_underscores_plain (t : string) (prev : option ascii) :
  PyStr.all_chars digit_or_dot t = true ->
  match prev with Some p => digit_or_dot p = true | None => True end ->
  PyFloat.drop_underscores prev t = Some t.
Proof.
  revert prev. induction t as [|c t IH]; intros prev Ht Hp.
  - destruct prev as [p|]; [|reflexivity].
    destruct p as [[] [] [] [] [] [] [] []]; vm_compute in Hp; try discriminate Hp; reflexivity.
  - cbn [PyStr.all_chars] in Ht. apply andb_true_iff in Ht as [Hc Ht].
    cbn [PyFloat.drop_underscores]. rewrite (digit_or_dot_not_underscore c Hc).
    assert (Hrec : PyFloat.drop_underscores (Some c) t = Some t) by (apply IH; assumption).
    destruct prev as [p|].
    + destruct p as [[] [] [] [] [] [] [] []]; vm_compute in Hp; try discriminate Hp;
        rewrite Hrec; reflexivity.
    + rewrite Hrec. reflexivity.
Qed.

Lemma sign_plain (t : string) :
  PyStr.all_chars digit_or_dot t = true -> PyFloat.sign t = (false, t).
Proof.
  destruct t as [|c t]; [reflexivity|]. cbn [PyStr.all_chars]. intros H.
  apply andb_true_iff in H as [Hc _].
  destruct c as [[] [] [] [] [] [] [] []]; vm_compute in Hc; try discriminate Hc; reflexivity.
Qed.

Lemma not_a_word (t : string) :
  PyStr.all_chars digit_or_dot t = true ->
  String.eqb (PyStr.lower t) "inf" = false /\
  String.eqb (PyStr.lower t) "infinity" = false /\
  String.eqb (PyStr.lower t) "nan" = false.
Proof.
  destruct t as [|c t]; [repeat split; reflexivity|]. cbn [PyStr.all_chars]. intros H.
  apply andb_true_iff in H as [Hc _]. cbn [PyStr.lower].
  rewrite (digit_or_dot_lower c Hc).
  destruct c as [[] [] [] [] [] [] [] []]; vm_compute in Hc; try discriminate Hc;
    repeat split; reflexivity.
Qed.

End AmountTexts.

Section AmountNumerals.

Local Open Scope string_scope.

Lemma digit_val_nonneg (c : ascii) : PyStr.is_digit c = true -> 0 <= PyStr.digit_val c.
Proof.
  unfold PyStr.is_digit, PyStr.digit_val. intros H.
  apply andb_true_iff in H as [H _]. apply Z.leb_le in H. lia.
Qed.

(** Reading the leading digits of a text of digits and dots stops at the
    end or at the first dot. *)
Lemma digits_spec (s : string) :
  forall acc n : Z,
    PyStr.all_chars digit_or_dot s = true -> 0 <= acc ->
    exists v k r,
      PyFloat.digits acc n s = (v, k, r) /\
      0 <= v /\
      PyStr.all_chars digit_or_dot r = true /\
      count_char "." r = count_char "." s /\
      (r = "" \/ exists r', r = String "." r') /\
      n <= k /\ (k = n -> r = s).
Proof.
  induction s as [|c s IH]; intros acc n Hs Hacc.
  - exists acc, n, "". cbn. repeat split; auto; lia.
  - cbn [PyStr.all_chars] in Hs. apply andb_true_iff in Hs as [Hc Hs].
    cbn [PyFloat.digits].
    destruct (digit_or_dot_cases c Hc) as [[Hd Hdot] | [Hd ->]]; rewrite Hd.
    + pose proof (digit_val_nonneg c Hd) as Hv.
      destruct (IH (10 * acc + PyStr.digit_val c) (n + 1) Hs ltac:(lia))
        as (v & k & r & He & Hv' & Hr & Hcount & Hshape & Hk & _).
      exists v, k, r. rewrite He. repeat split; auto; try lia.
      cbn [count_char]. rewrite (Ascii.eqb_sym "." c), Hdot. exact Hcount.
    + exists acc, n, (String "." s). repeat split; auto; try lia.
      all: try (cbn [PyStr.all_chars]; rewrite Hs; reflexivity).
      all: try (right; exists s; reflexivity).
Qed.

(** A text of digits and dots with a digit in it is a numeral exactly
    when it holds at most one dot. *)
Lemma numeral_decides (t : string) :
  PyStr.all_chars digit_or_dot t = true ->
  PyStr.remove_char "." t <> "" ->
  if (count_char "." t <=? 1)%nat
  then exists m e, PyFloat.numeral t = Some (m, e) /\ 0 <= m
  else PyFloat.numeral t = None.
Proof.
  intros Ht Hne. unfold PyFloat.numeral.
  destruct (digits_spec t 0 0 Ht ltac:(lia))
    as (ip & ni & r1 & He1 & Hip & Hr1 & Hc1 & Hshape1 & Hk1 & Hsame1).
  rewrite He1. destruct Hshape1 as [-> | [r ->]].
  - (* no dot at all *)
    cbn [count_char] in Hc1. rewrite <- Hc1. cbn [Nat.leb].
    destruct (Z.eqb_spec (ni + 0) 0) as [Hz|Hz].
    + exfalso. apply Hne. rewrite <- (Hsame1 ltac:(lia)). reflexivity.
    + cbn [PyFloat.exponent]. eauto.
  - (* a first dot, then the rest *)
    cbn [PyStr.all_chars] in Hr1. apply andb_true_iff in Hr1 as [_ Hr].
    destruct (digits_spec r ip 0 Hr Hip)
      as (m & nf & r2 & He2 & Hm & Hr2 & Hc2 & Hshape2 & Hk2 & Hsame2).
    rewrite He2. cbn [count_char Ascii.eqb Bool.eqb] in Hc1.
    destruct Hshape2 as [-> | [r3 ->]].
    + cbn [count_char] in Hc2. rewrite <- Hc1, <- Hc2. cbn [Nat.add Nat.leb].
      destruct (Z.eqb_spec (ni + nf) 0) as [Hz|Hz].
      * exfalso. apply Hne. rewrite <- (Hsame1 ltac:(lia)), <- (Hsame2 ltac:(lia)).
        reflexivity.
      * cbn [PyFloat.exponent]. eauto.
    + cbn [count_char Ascii.eqb Bool.eqb] in Hc2. rewrite <- Hc1, <- Hc2.
      cbn [Nat.add Nat.leb].
      destruct (ni + nf =? 0)%Z; reflexivity.
Qed.

(** On such a text [float] is the numeral, or a [ValueError]. *)
Lemma of_string_plain (t : string) :
  PyStr.all_chars digit_or_dot t = true ->
  PyFloat.of_string t =
  match PyFloat.numeral t with
  | Some (m, e) => Ok (PyFloat.of_decimal false m e)
  | None => Raise ValueError
  end.
Proof.
  intros Ht. unfold PyFloat.of_string.
  rewrite strip_c_space_plain by exact Ht.
  rewrite drop_underscores_plain by (exact Ht || exact I).
  rewrite sign_plain by exact Ht.
  destruct (not_a_word t Ht) as (H1 & H2 & H3). rewrite H1, H2, H3. reflexivity.
Qed.

End AmountNumerals.

(** ** Floats read from numerals are never negative and never NaN *)

Section PlainAmounts.

Lemma shr_1_nonneg (mrs : shr_record) : 0 <= shr_m mrs -> 0 <= shr_m (shr_1 mrs).
Proof.
  destruct mrs as [m r s]. cbn [shr_m shr_1].
  destruct m as [|p|p]; [cbn; lia | | lia].
  intros _. destruct p; cbn; lia.
Qed.

Lemma iter_pos_preserves {A} (P : A -> Prop) (f : A -> A) :
  (forall x, P x -> P (f x)) -> forall n x, P x -> P (SpecFloat.iter_pos f n x).
Proof.
  intros Hf. induction n as [n IH|n IH|]; intros x Hx; cbn [SpecFloat.iter_pos]; auto.
Qed.

Lemma shr_fexp_nonneg (m e : Z) (l : location) :
  0 <= m -> 0 <= shr_m (fst (shr_fexp PyFloat.prec PyFloat.emax m e l)).
Proof.
  intros Hm. unfold shr_fexp, shr.
  assert (H0 : 0 <= shr_m (shr_record_of_loc m l)) by (destruct l as [|[]]; exact Hm).
  destruct (fexp _ _ _ - e) as [|p|p]; cbn [fst]; try exact H0.
  apply (iter_pos_preserves (fun x => 0 <= shr_m x)); [apply shr_1_nonneg | exact H0].
Qed.

Lemma round_nearest_even_nonneg (m : Z) (l : location) :
  0 <= m -> 0 <= round_nearest_even m l.
Proof.
  intros Hm. destruct l as [|[]]; cbn [round_nearest_even]; try lia.
  destruct (Z.even m); lia.
Qed.

Lemma binary_round_aux_plain (mx ex : Z) (lx : location) :
  0 <= mx ->
  plain_amount (binary_round_aux PyFloat.prec PyFloat.emax false mx ex lx) = true.
Proof.
  intros Hm. unfold binary_round_aux.
  pose proof (shr_fexp_nonneg mx ex lx Hm) as H1.
  destruct (shr_fexp PyFloat.prec PyFloat.emax mx ex lx) as [mrs' e']. cbn [fst] in H1.
  pose proof (shr_fexp_nonneg _ e' loc_Exact
                (round_nearest_even_nonneg (shr_m mrs') (loc_of_shr_record mrs') H1)) as H2.
  destruct (shr_fexp PyFloat.prec PyFloat.emax _ e' loc_Exact) as [mrs'' e'']. cbn [fst] in H2.
  destruct (shr_m mrs'') as [|p|p]; [reflexivity | | lia].
  destruct (e'' <=? _); reflexivity.
Qed.

Lemma of_decimal_plain (N E : Z) : plain_amount (PyFloat.of_decimal false N E) = true.
Proof.
  unfold PyFloat.of_decimal. destruct N as [|n|n]; try reflexivity.
  destruct (Z.leb_spec 0 E) as [HE|HE].
  - unfold binary_round. destruct (shl_align _ _ _) as [mz ez].
    apply binary_round_aux_plain. lia.
  - unfold SFdiv_core_binary.
    set (s := _ - _ - _). set (m2 := 10 ^ (- E)).
    set (m' := match s with Zpos _ => Z.shiftl (Zpos n) s | 0 => Zpos n | Zneg _ => 0 end).
    assert (Hm2 : 0 < m2) by (apply Z.pow_pos_nonneg; lia).
    assert (Hm' : 0 <= m').
    { subst m'. destruct s; try lia. apply Z.shiftl_nonneg. lia. }
    pose proof (Z.div_eucl_eq m' m2) as Hdiv. unfold Z.div.
    assert (Hq : 0 <= m' / m2).
    { apply Z.div_pos; lia. }
    unfold Z.div in Hq. destruct (Z.div_eucl m' m2) as [q r].
    apply binary_round_aux_plain. exact Hq.
Qed.

(** A float of that kind converts to a non-negative integer, unless it
    is infinite. *)
Lemma plain_amount_to_Z (x : spec_float) :
  plain_amount x = true ->
  match PyFloat.to_Z x with
  | Ok n => 0 <= n
  | Raise e => e = OverflowError /\ x = S754_infinity false
  end.
Proof.
  unfold plain_amount, PyFloat.to_Z.
  destruct x as [[]|[]| |[] m e]; try discriminate; intros _; try lia; auto.
  destruct (Z.leb_spec 0 e).
  - apply Z.mul_nonneg_nonneg; [lia | apply Z.pow_nonneg; lia].
  - apply Z.div_pos; [lia|]. apply Z.pow_pos_nonneg; lia.
Qed.

End PlainAmounts.

(** ** [catat_jumlah], decided *)

(** The three outcomes of [catat_jumlah], told apart by the text alone. *)
Lemma catat_jumlah_decided (E : env) (u : update) (w : world) :
  let t := cleaned_amount (message_text u) in
  if PyStr.isdigit (PyStr.remove_char "." t) then
    if (count_char "." t <=? 1)%nat then
      exists x,
        PyFloat.of_string t = Ok x /\ plain_amount x = true /\
        catat_jumlah E u w
        = (Ok JENIS,
           mk_world (replies w ++ [("Jenis transaksi? (pemasukan / pengeluaran)"%string,
                                    ReplyKeyboardMarkup [["pemasukan"; "pengeluaran"]%string] true)])
                    (documents w) (log w) (calls w) (sheet_rows w)
                    (mk_user_data (Some x) (ud_jenis (session w)) (ud_kategori (session w))
                                  (ud_deskripsi (session w)))
                    (escaped w))
    else catat_jumlah E u w = (Raise ValueError, w)
  else
    catat_jumlah E u w
    = (Ok JUMLAH,
       mk_world (replies w ++ [("Jumlah tidak valid. Masukin angka saja, contoh: 20000"%string,
                                NoMarkup)])
                (documents w) (log w) (calls w) (sheet_rows w) (session w) (escaped w)).
Proof.
  intros t. subst t.
  destruct (PyStr.isdigit _) eqn:Hd; [|apply catat_jumlah_rejects; exact Hd].
  destruct (isdigit_all_chars _ Hd) as [Hall Hne].
  pose proof (remove_dots_digits _ Hall) as Ht.
  pose proof (numeral_decides _ Ht Hne) as Hnum.
  pose proof (of_string_plain _ Ht) as Hof.
  destruct (count_char "." _ <=? 1)%nat.
  - destruct Hnum as (m & e & Hn & Hm). rewrite Hn in Hof.
    exists (PyFloat.of_decimal false m e). split; [exact Hof|].
    split; [apply of_decimal_plain|].
    apply catat_jumlah_accepts; assumption.
  - rewrite Hnum in Hof. apply catat_jumlah_raises; assumption.
Qed.


(** ** The dialog as a whole *)

Section DialogSteps.

Variables (E : env) (u : update) (w : world).

Lemma catat_deskripsi_advances (x : spec_float) (n : Z) :
  ud_jumlah (session w) = Some x -> PyFloat.to_Z x = Ok n ->
  exists w',
    catat_deskripsi E u w = (Ok KONFIRM, w') /\
    session w' = mk_user_data (Some x) (ud_jenis (session w)) (ud_kategori (session w))
                              (Some (PyStr.strip (message_text u))) /\
    length (replies w') = S (length (replies w)) /\
    calls w' = calls w /\ sheet_rows w' = sheet_rows w /\ escaped w' = escaped w.
Proof.
  intros Hx Hn. unfold catat_deskripsi. run_monad. rewrite Hx, Hn.
  eexists. split; [reflexivity|]. world_fields. rewrite length_app. cbn [length].
  repeat split; try reflexivity. lia.
Qed.

(** When the stored amount does not convert, the description is stored
    all the same and the exception of [int] leaves the handler. *)
Lemma catat_deskripsi_raises (x : spec_float) (e : exn) :
  ud_jumlah (session w) = Some x -> PyFloat.to_Z x = Raise e ->
  catat_deskripsi E u w
  = (Raise e,
     mk_world (replies w) (documents w) (log w) (calls w) (sheet_rows w)
              (mk_user_data (Some x) (ud_jenis (session w)) (ud_kategori (session w))
                            (Some (PyStr.strip (message_text u))))
              (escaped w)).
Proof.
  intros Hx Hn. unfold catat_deskripsi. run_monad. rewrite Hx, Hn. reflexivity.
Qed.

End DialogSteps.

Lemma session_ok_row (E : env) (u : update) (d : user_data) (row : list cell) :
  session_ok KONFIRM d = true -> row_of E u d = Some row -> row_ok row.
Proof.
  unfold session_ok, row_of, row_ok.
  destruct (ud_jenis d) as [jenis|]; [|rewrite andb_false_r; discriminate].
  destruct (ud_jumlah d) as [x|]; [|discriminate].
  destruct (ud_kategori d) as [kategori|]; [|discriminate].
  destruct (ud_deskripsi d) as [deskripsi|]; [|discriminate].
  intros Hok Hrow. apply andb_true_iff in Hok as [Hx Hj].
  pose proof (plain_amount_to_Z x Hx) as Hz.
  destruct (PyFloat.to_Z x) as [n|]; [|discriminate]. injection Hrow as <-.
  exists (PyTime.strftime (utcnow E)), jenis, n, kategori, deskripsi, (from_user_id u).
  split; [reflexivity|]. split; [|exact Hz].
  unfold PyStr.in_tuple in Hj. cbn [existsb] in Hj.
  destruct (String.eqb_spec jenis "pemasukan"); [left; assumption|].
  destruct (String.eqb_spec jenis "pengeluaran"); [right; assumption|]. discriminate.
Qed.

(** One update, seen from the stored data: the data stay as the dialog
    means them, a row is appended only in that form, and an exception
    leaves only as [may_escape] tells. *)
Lemma conv_handler_keeps (E : env) (st : state) (i : incoming) (w : world) :
  ready st (session w) = true ->
  session_ok st (session w) = true ->
  exists st' w',
    conv_handler E st i w = (st', w') /\
    ready st' (session w') = true /\
    session_ok st' (session w') = true /\
    (calls w' = calls w \/ exists row, calls w' = calls w ++ [AppendRow row] /\ row_ok row) /\
    (escaped w' = escaped w \/
     exists e, escaped w' = escaped w ++ [e] /\ st' = st /\ may_escape E st e).
Proof.
  intros Hr Hok.
  destruct (conv_handler_step E st i w Hr) as (st' & w' & Hh & Hr' & Hm).
  exists st', w'. split; [exact Hh|]. split; [exact Hr'|].
  revert Hh Hm. unfold conv_handler.
  destruct st, i as [u|name u]; cbn [conv_route confirming];
    try (destruct (String.eqb name "cancel"); cbv beta iota; [rewrite cancel_returns|];
         intros [= <- <-] _; world_fields;
         (split; [first [reflexivity | exact Hok]|split; left; reflexivity])).
  - (* JUMLAH, text *)
    pose proof (catat_jumlah_decided E u w) as Hd. cbv zeta in Hd.
    destruct (PyStr.isdigit _); [destruct (count_char "." _ <=? 1)%nat|].
    + destruct Hd as (x & _ & Hx & ->). intros [= <- <-] _. world_fields.
      split; [exact Hx|]. split; left; reflexivity.
    + rewrite Hd. intros [= <- <-] _. run_monad.
      split; [reflexivity|]. split; [left; reflexivity|].
      right. exists ValueError. split; [reflexivity|]. split; [reflexivity|].
      left. split; reflexivity.
    + rewrite Hd. intros [= <- <-] _. world_fields.
      split; [reflexivity|]. split; left; reflexivity.
  - (* JENIS, text *)
    destruct (known_jenis (message_text u)) eqn:Hk.
    + rewrite (catat_jenis_accepts E u w Hk). intros [= <- <-] _. world_fields.
      split; [|split; left; reflexivity].
      unfold session_ok in *. cbn [ud_jumlah ud_jenis]. rewrite Hok. exact Hk.
    + rewrite (catat_jenis_rejects E u w Hk). intros [= <- <-] _. world_fields.
      split; [exact Hok|]. split; left; reflexivity.
  - (* KATEGORI, text *)
    rewrite catat_kategori_returns. intros [= <- <-] _. world_fields.
    split; [exact Hok|]. split; left; reflexivity.
  - (* DESKRIPSI, text *)
    assert (Hx : exists x, ud_jumlah (session w) = Some x /\ plain_amount x = true).
    { unfold session_ok in Hok. destruct (ud_jumlah (session w)) as [x|]; [|discriminate].
      apply andb_true_iff in Hok as [Hp _]. eauto. }
    destruct Hx as (x & Hx & Hp).
    pose proof (plain_amount_to_Z x Hp) as Hz.
    destruct (PyFloat.to_Z x) as [n|e] eqn:Hn.
    + destruct (catat_deskripsi_advances E u w x n Hx Hn)
        as (w1 & -> & Hs & _ & Hc & _ & He).
      intros [= <- <-] _. rewrite Hs, Hc, He.
      split; [|split; left; reflexivity].
      unfold session_ok in *. cbn [ud_jumlah ud_jenis]. rewrite Hx in Hok. exact Hok.
    + rewrite (catat_deskripsi_raises E u w x e Hx Hn). intros [= <- <-] _. run_monad.
      split.
      * unfold session_ok in *. cbn [ud_jumlah ud_jenis]. rewrite Hx in Hok. exact Hok.
      * split; [left; reflexivity|]. right. exists e. split; [reflexivity|].
        split; [reflexivity|]. right. left. split; [reflexivity | apply Hz].
  - (* KONFIRM, text *)
    destruct (affirmative (message_text u)) eqn:Ha.
    + destruct (connect E) as [e|] eqn:Hc.
      * rewrite (catat_konfirm_no_connection E u w e Ha Hc). intros [= <- <-] _. run_monad.
        split; [exact Hok|]. split; [left; reflexivity|].
        right. exists e. split; [reflexivity|]. split; [reflexivity|].
        right. right. split; [reflexivity | exact Hc].
      * destruct (ready_row_of E u (session w) Hr) as [row Hrow].
        destruct (catat_konfirm_confirms E u w row Ha Hc Hrow)
          as (w1 & -> & Hcalls & _ & _ & _ & _ & He).
        intros [= <- <-] _. split; [reflexivity|]. split.
        -- right. exists row. split; [exact Hcalls|].
           apply (session_ok_row E u (session w)); assumption.
        -- left. exact He.
    + rewrite (catat_konfirm_declines E u w Ha). intros [= <- <-] _. world_fields.
      split; [reflexivity|]. split; left; reflexivity.
  - (* END, text *)
    intros [= <- <-] _. split; [reflexivity|]. split; left; reflexivity.
  - (* END, command *)
    destruct (String.eqb name "catat"); cbv beta iota; [rewrite catat_start_returns|];
      intros [= <- <-] _; world_fields; (split; [reflexivity|split; left; reflexivity]).
Qed.

Lemma run_keeps (us : list (env * incoming)) :
  forall (st : state) (w : world),
    ready st (session w) = true ->
    session_ok st (session w) = true ->
    (forall row, In (AppendRow row) (calls (snd (run st w us))) ->
                 In (AppendRow row) (calls w) \/ row_ok row) /\
    (forall e, In e (escaped (snd (run st w us))) ->
               In e (escaped w) \/ e = ValueError \/ e = OverflowError \/
               exists E i, In (E, i) us /\ connect E = Some e).
Proof.
  induction us as [|[E i] us IH]; intros st w Hr Hok; cbn [run snd].
  - split; intros; left; assumption.
  - destruct (conv_handler_keeps E st i w Hr Hok)
      as (st' & w' & Hh & Hr' & Hok' & Hcalls & Hesc).
    rewrite Hh. destruct (IH st' w' Hr' Hok') as [IHc IHe]. split.
    + intros row Hin. destruct (IHc row Hin) as [Hin'|Hrow]; [|right; exact Hrow].
      destruct Hcalls as [Hc|(row' & Hc & Hrow')]; rewrite Hc in Hin'; [left; exact Hin'|].
      apply in_app_or in Hin' as [Hin'|[[= <-]|[]]]; [left; exact Hin' | right; exact Hrow'].
    + intros e Hin. destruct (IHe e Hin) as [Hin'|[->|[->|(E' & i' & HE & Hc)]]].
      * destruct Hesc as [He|(e' & He & _ & Hmay)]; rewrite He in Hin'; [left; exact Hin'|].
        apply in_app_or in Hin' as [Hin'|[<-|[]]]; [left; exact Hin'|].
        right. destruct Hmay as [[_ ->]|[[_ ->]|[_ Hc]]]; auto.
        right. right. exists E, i. split; [left; reflexivity | exact Hc].
      * auto.
      * auto.
      * right. right. right. exists E', i'. split; [right; exact HE | exact Hc].
Qed.

(** X2.  Every row that a run of the dialog appends, or tries to
    append, has the form the sheet expects: a time text, the type
    'pemasukan' or 'pengeluaran', a non-negative integer amount, the
    category, the description and the user id, in this order. *)
Theorem X2_rows_are_well_formed
    (w0 : world) (us : list (env * incoming)) (row : list cell) :
  In (AppendRow row) (calls (snd (run END w0 us))) ->
  In (AppendRow row) (calls w0) \/ row_ok row.
Proof. apply (run_keeps us END w0); reflexivity. Qed.

Lemma X2_witness_example_row :
  row_ok [CStr "2024-01-08 10:00:00"; CStr "pengeluaran"; CInt 20000;
          CStr "makan"; CStr "nasi"; CInt 42].
Proof.
  destruct (X2_rows_are_well_formed empty_world
              (Spec.dialog Sample.fine Sample.fine 42 "20000" "ya")
              [CStr "2024-01-08 10:00:00"; CStr "pengeluaran"; CInt 20000;
               CStr "makan"; CStr "nasi"; CInt 42]) as [[]|H].
  - vm_compute. left. reflexivity.
  - exact H.
Defined.



(** ** The order of the states *)

Lemma catat_konfirm_state (E : env) (u : update) (w : world) :
  match fst (catat_konfirm E u w) with
  | Ok st => st = END
  | Raise _ => True
  end.
Proof.
  unfold catat_konfirm. destruct (negb _); [reflexivity|]. run_monad.
  destruct (connect E); [exact I|].
  destruct (ud_jenis (session w)); [|exact I].
  destruct (ud_jumlah (session w)) as [x|]; [|exact I].
  destruct (PyFloat.to_Z x); [|exact I].
  destruct (ud_kategori (session w)); [|exact I].
  destruct (ud_deskripsi (session w)); [|exact I].
  destruct (append_row E); reflexivity.
Qed.

(** X3.  The dialog never skips a step and never goes back: a text
    leaves the state as it is or moves it to the next one, in the order
    [JUMLAH], [JENIS], [KATEGORI], [DESKRIPSI], [KONFIRM], [END]; a
    command leaves the state as it is, except [/cancel], which ends a
    dialog, and [/catat], which starts one when none is open. *)
Theorem X3_states_in_order (E : env) (st : state) (i : incoming) (w : world) :
  match i with
  | Text _ =>
      fst (conv_handler E st i w) = st \/ fst (conv_handler E st i w) = next_state st
  | Command name _ =>
      fst (conv_handler E st i w) = st \/
      (name = "cancel"%string /\ st <> END /\ fst (conv_handler E st i w) = END) \/
      (name = "catat"%string /\ st = END /\ fst (conv_handler E st i w) = JUMLAH)
  end.
Proof.
  unfold conv_handler.
  destruct st, i as [u|name u]; cbn [conv_route next_state];
    try (destruct (String.eqb_spec name "cancel") as [->|_]; cbv beta iota;
         [right; left; repeat split; discriminate || reflexivity | left; reflexivity]).
  - pose proof (catat_jumlah_cases E u w) as H. cbv zeta in H.
    destruct (PyStr.isdigit _); [destruct (PyFloat.of_string _)|].
    + destruct H as [H _]. destruct (catat_jumlah E u w) as [[s|e] w']; cbn [fst] in *;
        [injection H as ->; right; reflexivity | discriminate].
    + rewrite H. left. reflexivity.
    + destruct H as [H _]. destruct (catat_jumlah E u w) as [[s|e] w']; cbn [fst] in *;
        [injection H as ->; left; reflexivity | discriminate].
  - destruct (known_jenis (message_text u)) eqn:Hk.
    + rewrite (catat_jenis_accepts E u w Hk). right. reflexivity.
    + rewrite (catat_jenis_rejects E u w Hk). left. reflexivity.
  - rewrite catat_kategori_returns. right. reflexivity.
  - destruct (catat_deskripsi_cases E u w) as (r & w' & -> & _ & _ & _ & Hc).
    destruct r as [s|e]; [destruct Hc as [-> _]; right | left]; reflexivity.
  - pose proof (catat_konfirm_state E u w) as H.
    destruct (catat_konfirm E u w) as [[s|e] w']; cbn [fst] in *;
      [subst s; right | left]; reflexivity.
  - left. reflexivity.
  - destruct (String.eqb_spec name "catat") as [->|_]; cbv beta iota;
      [right; right; repeat split | left; reflexivity].
Qed.

(** ** [/cancel], and the amount that blocks the dialog *)

Lemma run_without_catat (us : list (env * incoming)) (w : world) :
  forallb (fun ei => negb (is_catat (snd ei))) us = true -> run END w us = (END, w).
Proof.
  induction us as [|[E i] us IH]; [reflexivity|]. cbn [forallb snd run].
  intros H. apply andb_true_iff in H as [Hi Hus].
  unfold conv_handler. destruct i as [u|name u]; cbn [conv_route is_catat] in *.
  - apply IH; exact Hus.
  - destruct (String.eqb name "catat"); [discriminate|]. apply IH; exact Hus.
Qed.

(** X4.  [/cancel] closes an open dialog for good: it answers 'Oke,
    dibatalkan.' once, makes no call on the worksheet and leaves the
    session data as they are (they are not cleared); and whatever comes
    next, short of a new [/catat], is ignored: nothing more is sent,
    stored or written. *)
Theorem X4_cancel_is_final
    (E : env) (st : state) (u : update) (w : world) (us : list (env * incoming)) :
  st <> END ->
  forallb (fun ei => negb (is_catat (snd ei))) us = true ->
  run st w ((E, Command "cancel" u) :: us)
  = (END,
     mk_world (replies w ++ [("Oke, dibatalkan."%string, ReplyKeyboardRemove)])
              (documents w) (log w) (calls w) (sheet_rows w) (session w) (escaped w)).
Proof.
  intros Hst Hus. cbn [run].
  assert (Hc : conv_handler E st (Command "cancel" u) w
               = (END, mk_world (replies w ++ [("Oke, dibatalkan."%string, ReplyKeyboardRemove)])
                                (documents w) (log w) (calls w) (sheet_rows w) (session w)
                                (escaped w)))
    by (destruct st; try reflexivity; contradiction).
  rewrite Hc. apply run_without_catat; exact Hus.
Qed.

Lemma X4_witness_cancel_then_chatter :
  run KATEGORI empty_world
      [(Sample.fine, Command "cancel" (mk_update "/cancel" 42));
       (Sample.fine, Text (mk_update "ya" 42));
       (Sample.fine, Command "cancel" (mk_update "/cancel" 42))]
  = (END,
     mk_world [("Oke, dibatalkan."%string, ReplyKeyboardRemove)] [] [] [] []
              empty_user_data []).
Proof.
  apply (X4_cancel_is_final Sample.fine KATEGORI (mk_update "/cancel" 42) empty_world
           [(Sample.fine, Text (mk_update "ya" 42));
            (Sample.fine, Command "cancel" (mk_update "/cancel" 42))]).
  - discriminate.
  - reflexivity.
Defined.

(** X6.  Once the stored amount does not convert to an integer, as an
    amount text of 310 digits that [float] reads as infinity, the dialog
    cannot pass the description step: on every text [catat_deskripsi]
    raises the exception of [int] without a reply, and the dialog stays
    in [DESKRIPSI] with the same amount, whatever texts follow. *)
Theorem X6_blocked_at_description
    (us : list (env * incoming)) (w : world) (x : spec_float) (e : exn) :
  ud_jumlah (session w) = Some x ->
  PyFloat.to_Z x = Raise e ->
  forallb (fun ei => is_text (snd ei)) us = true ->
  fst (run DESKRIPSI w us) = DESKRIPSI /\
  ud_jumlah (session (snd (run DESKRIPSI w us))) = Some x /\
  replies (snd (run DESKRIPSI w us)) = replies w /\
  escaped (snd (run DESKRIPSI w us)) = escaped w ++ repeat e (length us).
Proof.
  intros Hx Hn. revert w Hx. induction us as [|[E i] us IH]; intros w Hx Hus.
  - cbn. rewrite app_nil_r. auto.
  - cbn [forallb snd] in Hus. apply andb_true_iff in Hus as [Hi Hus].
    destruct i as [u|]; [|discriminate]. cbn [run].
    unfold conv_handler. cbn [conv_route].
    rewrite (catat_deskripsi_raises E u w x e Hx Hn). run_monad.
    match goal with |- context [run DESKRIPSI ?w1 us] => specialize (IH w1 eq_refl Hus) end.
    destruct IH as (H1 & H2 & H3 & H4). world_fields. cbn [replies escaped] in *.
    rewrite H1, H2, H3, H4. cbn [length repeat]. rewrite <- app_assoc. auto.
Qed.

Lemma X6_witness_huge_amount :
  let w := snd (run END empty_world
                    (firstn 4 (Spec.dialog Sample.fine Sample.fine 42 huge_amount "ya"))) in
  ud_jumlah (session w) = Some (S754_infinity false) /\
  fst (run DESKRIPSI w [(Sample.fine, Text (mk_update "nasi" 42));
                        (Sample.fine, Text (mk_update "nasi goreng" 42))]) = DESKRIPSI.
Proof.
  assert (Hx : ud_jumlah (session (snd (run END empty_world
                 (firstn 4 (Spec.dialog Sample.fine Sample.fine 42 huge_amount "ya")))))
               = Some (S754_infinity false)) by (vm_compute; reflexivity).
  split; [exact Hx|].
  exact (proj1 (X6_blocked_at_description
                  [(Sample.fine, Text (mk_update "nasi" 42));
                   (Sample.fine, Text (mk_update "nasi goreng" 42))]
                  _ (S754_infinity false) OverflowError Hx eq_refl eq_refl)).
Defined.

(** ** What is typed is what is written *)



(** ** The reports *)

(** What a report does to the world: it reads, and writes nothing. *)
Lemma laporan_effects (days : Z) (title : string) (top : nat) (filename : string)
    (E : env) (u : update) (w : world) :
  exists r w',
    laporan days title top filename E u w = (r, w') /\
    sheet_rows w' = sheet_rows w /\ session w' = session w /\ escaped w' = escaped w /\
    (calls w' = calls w \/ calls w' = calls w ++ [GetAllRecords]) /\
    match r with
    | Ok _ =>
        exists text,
          replies w' = replies w ++ [(text, NoMarkup)] /\
          documents w' = documents w ++ [(filename, render_csv (records_read E))] /\
          calls w' = calls w ++ [GetAllRecords]
    | Raise _ => replies w' = replies w /\ documents w' = documents w
    end.
Proof.
  unfold laporan, records_read. run_monad.
  destruct (connect E); [eexists _, _; split; [reflexivity|]; repeat split; auto|].
  destruct (get_all_records E) as [rs|e];
    (destruct (PyTime.minus_days (utcnow E) days) as [since|]; [|laporan_leaf]);
    (destruct (generate_summary _ since) as [[a b] c]);
    (destruct (PyFloat.to_Z a); [|laporan_leaf]);
    (destruct (PyFloat.to_Z b); [|laporan_leaf]);
    (destruct (PyFloat.to_Z _); [|laporan_leaf]);
    (destruct (firstn top (sorted_desc c)) as [|it its]; [laporan_leaf|]);
    match goal with
    | |- context [category_lines ?l ?w0] =>
        pose proof (category_lines_pure l w0) as Hp;
        destruct (category_lines l w0) as [[ls|e'] w1]
    end; cbn [snd] in Hp; subst w1; laporan_leaf.
Qed.

(** X8.  A report reads and never writes: [/laporan_minggu] and
    [/laporan_bulan] leave the rows of the worksheet, the session data
    of the dialog and the exceptions kept by the dispatcher as they were,
    and call the worksheet at most once, to read it; a report that
    completes has sent exactly one text and one attachment, the CSV of
    all the records read, and one that raises has sent nothing. *)
Theorem X8_reports_only_read (E : env) (u : update) (w : world) :
  (exists r w',
     laporan_minggu E u w = (r, w') /\
     sheet_rows w' = sheet_rows w /\ session w' = session w /\ escaped w' = escaped w /\
     (calls w' = calls w \/ calls w' = calls w ++ [GetAllRecords]) /\
     match r with
     | Ok _ =>
         exists text,
           replies w' = replies w ++ [(text, NoMarkup)] /\
           documents w' = documents w
                          ++ [("laporan_mingguan.csv"%string, render_csv (records_read E))] /\
           calls w' = calls w ++ [GetAllRecords]
     | Raise _ => replies w' = replies w /\ documents w' = documents w
     end) /\
  (exists r w',
     laporan_bulan E u w = (r, w') /\
     sheet_rows w' = sheet_rows w /\ session w' = session w /\ escaped w' = escaped w /\
     (calls w' = calls w \/ calls w' = calls w ++ [GetAllRecords]) /\
     match r with
     | Ok _ =>
         exists text,
           replies w' = replies w ++ [(text, NoMarkup)] /\
           documents w' = documents w
                          ++ [("laporan_bulanan.csv"%string, render_csv (records_read E))] /\
           calls w' = calls w ++ [GetAllRecords]
     | Raise _ => replies w' = replies w /\ documents w' = documents w
     end).
Proof. split; apply laporan_effects. Qed.

(** X9.  A read that fails is reported as an empty sheet, not as an
    error: when the worksheet opens but [get_all_records] raises, the
    failure is logged once, and the user gets the report of a sheet with
    no record, all totals zero and 'Tidak ada pengeluaran tercatat.',
    with an attachment made of the CSV header alone. *)
Theorem X9_failed_read_is_an_empty_report
    (days : Z) (title : string) (top : nat) (filename : string)
    (E : env) (u : update) (w : world) (e : exn) (since : PyTime.datetime) :
  connect E = None ->
  get_all_records E = Raise e ->
  PyTime.minus_days (utcnow E) days = Ok since ->
  laporan days title top filename E u w
  = (Ok tt,
     mk_world (replies w ++ [(empty_report title, NoMarkup)])
              (documents w ++ [(filename, Csv.writerow csv_header)])
              (log w ++ [("Gagal membaca sheet: %s"%string, e)])
              (calls w ++ [GetAllRecords])
              (sheet_rows w) (session w) (escaped w)).
Proof.
  intros Hc Hg Hs.
  assert (Ht : (PyStr.concat_all
                  [title; nl; "Pemasukan: Rp"; PyStr.of_Z 0; nl; "Pengeluaran: Rp";
                   PyStr.of_Z 0; nl; "Saldo bersih: Rp"; PyStr.of_Z 0; nl; nl;
                   "Top kategori pengeluaran:"; nl]
                ++ ("Tidak ada pengeluaran tercatat." ++ nl))%string
               = empty_report title).
  { change (((title ++ PyStr.concat_all
                  [nl; "Pemasukan: Rp"; PyStr.of_Z 0; nl; "Pengeluaran: Rp";
                   PyStr.of_Z 0; nl; "Saldo bersih: Rp"; PyStr.of_Z 0; nl; nl;
                   "Top kategori pengeluaran:"; nl])
              ++ ("Tidak ada pengeluaran tercatat." ++ nl))%string
            = empty_report title).
    rewrite string_app_assoc. reflexivity. }
  rewrite <- Ht. unfold laporan. run_monad. rewrite Hc, Hg, Hs.
  change (generate_summary [] since) with empty_summary. cbv [empty_summary]. cbv beta iota.
  change (sorted_desc []) with (@nil (cell * spec_float)). rewrite firstn_nil.
  vm_compute. reflexivity.
Qed.

Lemma X9_witness_weekly :
  laporan_minggu read_fails (mk_update "/laporan_minggu" 42) empty_world
  = (Ok tt,
     mk_world [(empty_report "Ringkasan 7 hari terakhir:", NoMarkup)]
              [("laporan_mingguan.csv"%string, Csv.writerow csv_header)]
              [("Gagal membaca sheet: %s"%string, APIError)]
              [GetAllRecords] [] empty_user_data []).
Proof.
  exact (X9_failed_read_is_an_empty_report 7 "Ringkasan 7 hari terakhir:" 5
           "laporan_mingguan.csv" read_fails (mk_update "/laporan_minggu" 42) empty_world
           APIError (PyTime.mk_datetime 2024 1 1 10 0 0 123) eq_refl eq_refl eq_refl).
Defined.

(** ** The categories listed by a report *)

Section TopCategories.

Lemma SFcompare_Lt_Gt (x y : spec_float) :
  SFcompare x y = Some Lt -> SFcompare y x = Some Gt.
Proof.
  destruct x as [sx|sx| |sx mx ex], y as [sy|sy| |sy my ey]; cbn [SFcompare];
    try discriminate;
    try (destruct sx; try destruct sy; cbn; congruence).
  change (Pos.compare_cont Eq mx my) with (Pos.compare mx my).
  change (Pos.compare_cont Eq my mx) with (Pos.compare my mx).
  rewrite (Z.compare_antisym ex ey), (Pos.compare_antisym mx my).
  destruct sx, sy, (ex ?= ey)%Z, (mx ?= my)%positive; cbn [CompOpp]; congruence.
Qed.

(** [>] on floats is asymmetric. *)
Lemma gtb_asym (x y : spec_float) : PyFloat.gtb x y = true -> PyFloat.gtb y x = false.
Proof.
  unfold PyFloat.gtb, SFltb. destruct (SFcompare y x) as [[]|] eqn:H; try discriminate.
  intros _. rewrite (SFcompare_Lt_Gt y x H). reflexivity.
Qed.

Lemma insert_desc_perm (x : cell * spec_float) (l : catmap) :
  Permutation (insert_desc x l) (x :: l).
Proof.
  induction l as [|y l IH]; cbn [insert_desc]; [reflexivity|].
  destruct (PyFloat.gtb (snd x) (snd y)); [reflexivity|].
  rewrite IH. apply perm_swap.
Qed.

Lemma sorted_from_perm (l acc : catmap) :
  Permutation (fold_left (fun acc x => insert_desc x acc) l acc) (acc ++ l).
Proof.
  revert acc. induction l as [|x l IH]; intros acc; cbn [fold_left].
  - rewrite app_nil_r. reflexivity.
  - rewrite IH, insert_desc_perm. apply Permutation_middle.
Qed.

Lemma insert_desc_no_inversion (x : cell * spec_float) (l : catmap) :
  no_inversion l = true -> no_inversion (insert_desc x l) = true.
Proof.
  induction l as [|y l IH]; [reflexivity|]. intros Hl.
  cbn [insert_desc]. destruct (PyFloat.gtb (snd x) (snd y)) eqn:Hxy.
  - change (negb (PyFloat.gtb (snd y) (snd x)) && no_inversion (y :: l) = true).
    rewrite (gtb_asym _ _ Hxy), Hl. reflexivity.
  - specialize (IH ltac:(destruct l; [reflexivity|];
                         cbn [no_inversion] in Hl; apply andb_true_iff in Hl as [_ Hl];
                         exact Hl)).
    destruct l as [|z l].
    + cbn [insert_desc no_inversion]. rewrite Hxy. reflexivity.
    + cbn [no_inversion] in Hl. apply andb_true_iff in Hl as [Hyz Hl].
      cbn [insert_desc] in *. destruct (PyFloat.gtb (snd x) (snd z)) eqn:Hxz.
      * change (negb (PyFloat.gtb (snd x) (snd y)) && no_inversion (x :: z :: l) = true).
        rewrite Hxy, IH. reflexivity.
      * change (negb (PyFloat.gtb (snd z) (snd y)) && no_inversion (z :: insert_desc x l) = true).
        rewrite Hyz, IH. reflexivity.
Qed.

Lemma sorted_from_no_inversion (l acc : catmap) :
  no_inversion acc = true ->
  no_inversion (fold_left (fun acc x => insert_desc x acc) l acc) = true.
Proof.
  revert acc. induction l as [|x l IH]; intros acc Hacc; cbn [fold_left]; [exact Hacc|].
  apply IH. apply insert_desc_no_inversion. exact Hacc.
Qed.

Lemma firstn_no_inversion (n : nat) (l : catmap) :
  no_inversion l = true -> no_inversion (firstn n l) = true.
Proof.
  revert l. induction n as [|n IH]; intros l Hl; [reflexivity|].
  destruct l as [|x l]; [reflexivity|]. cbn [firstn].
  destruct l as [|y l]; [destruct n; reflexivity|].
  cbn [no_inversion] in Hl. apply andb_true_iff in Hl as [Hxy Hl].
  specialize (IH (y :: l) Hl). destruct n as [|n]; [reflexivity|].
  cbn [firstn] in *. cbn [no_inversion]. rewrite Hxy. exact IH.
Qed.

Lemma top_items_incl (top : nat) (by_cat : catmap) :
  incl (firstn top (sorted_desc by_cat)) by_cat.
Proof.
  intros kv Hin. apply (Permutation_in kv (sorted_from_perm by_cat [])).
  change (In kv (sorted_desc by_cat)).
  rewrite <- (firstn_skipn top (sorted_desc by_cat)). apply in_or_app. left. exact Hin.
Qed.

End TopCategories.

(** X10.  The categories a report lists, [sorted(by_cat.items(),
    key=value, reverse=True)[:top]]: at most [top] of them, each an entry
    of the category map, none followed by one of a greater total; and
    when the map holds at most [top] categories, all of them are listed. *)
Theorem X10_top_categories (top : nat) (by_cat : catmap) :
  let items := firstn top (sorted_desc by_cat) in
  (length items <= top)%nat /\
  incl items by_cat /\
  no_inversion items = true /\
  ((length by_cat <= top)%nat -> Permutation items by_cat).
Proof.
  intros items. subst items.
  assert (Hp : Permutation (sorted_desc by_cat) by_cat) by apply (sorted_from_perm by_cat []).
  split; [apply firstn_le_length|]. split; [|split].
  - apply top_items_incl.
  - apply firstn_no_inversion. apply sorted_from_no_inversion. reflexivity.
  - intros Hle. rewrite firstn_all2; [exact Hp|].
    rewrite (Permutation_length Hp). exact Hle.
Qed.

Lemma X10_witness_two_categories :
  Permutation (firstn 5 (sorted_desc [(CStr "a", PyFloat.nearest 1); (CStr "b", PyFloat.nearest 2)]))
              [(CStr "a", PyFloat.nearest 1); (CStr "b", PyFloat.nearest 2)].
Proof.
  apply (X10_top_categories 5 [(CStr "a", PyFloat.nearest 1); (CStr "b", PyFloat.nearest 2)]).
  cbn. lia.
Defined.

(** ** The dispatcher of [main] *)

Section Dispatcher.

Lemma same_dialog_refl (w : world) : same_dialog w w.
Proof. split; reflexivity. Qed.

(** The conversation reads the session and nothing else of the world. *)
Lemma conv_handler_frame (E : env) (st : state) (i : incoming) (w w2 : world) :
  same_dialog w w2 ->
  fst (conv_handler E st i w) = fst (conv_handler E st i w2) /\
  same_dialog (snd (conv_handler E st i w)) (snd (conv_handler E st i w2)).
Proof.
  intros [Hs Hr]. destruct w, w2. cbn in Hs, Hr. subst.
  unfold conv_handler, conv_route, same_dialog.
  destruct st, i; try (destruct (String.eqb name _));
    cbv [catat_start catat_jumlah catat_jenis catat_kategori catat_deskripsi catat_konfirm
         cancel];
    run_monad; repeat (branch; run_monad); cbn; auto.
Qed.

(** A handler registered outside the conversation leaves the session and
    the worksheet as they were. *)
Lemma dispatch_laporan (days : Z) (title : string) (top : nat) (filename : string)
    (E : env) (u : update) (w : world) :
  same_dialog (dispatch (laporan days title top filename) E u w) w.
Proof.
  unfold dispatch.
  destruct (laporan_effects days title top filename E u w)
    as (r & w' & -> & Hr & Hs & _).
  destruct r; split; cbn; congruence.
Qed.

Lemma dispatch_sheet_link (E : env) (u : update) (w : world) :
  same_dialog (dispatch sheet_link E u w) w.
Proof.
  unfold dispatch, sheet_link. run_monad. destruct (spreadsheet_url E); split; reflexivity.
Qed.

(** One update: the whole bot and the conversation alone agree on the
    dialog. *)
Lemma handle_update_frame (E : env) (pick : nat) (st : state) (i : incoming) (w w2 : world) :
  same_dialog w w2 ->
  fst (handle_update E pick st i w) = fst (conv_handler E st i w2) /\
  same_dialog (snd (handle_update E pick st i w)) (snd (conv_handler E st i w2)).
Proof.
  intros Hw. unfold handle_update. destruct i as [u|name u].
  - apply conv_handler_frame. exact Hw.
  - assert (Hother : forall w1, same_dialog w1 w -> conv_route st (Command name u) = (None, u) ->
              st = fst (conv_handler E st (Command name u) w2) /\
              same_dialog w1 (snd (conv_handler E st (Command name u) w2))).
    { intros w1 [H1 H2] Hroute. unfold conv_handler. rewrite Hroute. cbn [fst snd].
      destruct Hw as [H3 H4]. split; [reflexivity|]. split; congruence. }
    destruct (String.eqb name "start") eqn:Hstart.
    { apply String.eqb_eq in Hstart. subst name. cbn [fst snd].
      apply Hother; [split; reflexivity|destruct st; reflexivity]. }
    destruct (String.eqb name "help") eqn:Hhelp.
    { apply String.eqb_eq in Hhelp. subst name. cbn [fst snd].
      apply Hother; [split; reflexivity|destruct st; reflexivity]. }
    destruct (conv_route st (Command name u)) as [[h|] u'] eqn:Hroute.
    + apply conv_handler_frame. exact Hw.
    + assert (u' = u) by (destruct st; cbn in Hroute; congruence). subst u'.
      repeat (match goal with |- context [String.eqb name ?s] => destruct (String.eqb name s) end);
        cbn [fst snd]; apply Hother; auto using same_dialog_refl.
      * apply dispatch_laporan.
      * apply dispatch_laporan.
      * split; reflexivity.
      * apply dispatch_sheet_link.
Qed.

End Dispatcher.

(** X11.  The other commands do not disturb the dialog.  Served by the
    whole bot (the handlers of [main] in their order: [/start], [/help],
    the conversation, the two reports, [/tips], [/sheet]), a session ends
    in the same dialog state, with the same session data and the same
    rows in the worksheet, as the conversation alone would on the same
    updates: reports, tips and links asked for in the middle of a dialog
    neither advance it nor change what it will write. *)
Theorem X11_commands_do_not_disturb_the_dialog
    (us : list (env * nat * incoming)) (st : state) (w : world) :
  fst (serve st w us) = fst (run st w (for_dialog us)) /\
  session (snd (serve st w us)) = session (snd (run st w (for_dialog us))) /\
  sheet_rows (snd (serve st w us)) = sheet_rows (snd (run st w (for_dialog us))).
Proof.
  assert (H : forall us st w w2, same_dialog w w2 ->
            fst (serve st w us) = fst (run st w2 (for_dialog us)) /\
            same_dialog (snd (serve st w us)) (snd (run st w2 (for_dialog us)))).
  { clear. induction us as [|[[E pick] i] us IH]; intros st w w2 Hw.
    - split; [reflexivity|exact Hw].
    - cbn [serve for_dialog map run].
      destruct (handle_update_frame E pick st i w w2 Hw) as [Hst Hw'].
      destruct (handle_update E pick st i w) as [st1 w1].
      destruct (conv_handler E st i w2) as [st2 w2'].
      cbn [fst snd] in Hst, Hw'. subst st2. apply IH. exact Hw'. }
  destruct (H us st w w (conj eq_refl eq_refl)) as [H1 [H2 H3]]. auto.
Qed.

(** ** The summary of a whole sheet *)

Section WholeSummary.

Context {V : Type}.

Lemma dict_get_set_same (k : cell) (v default : V) (d : dict V) :
  dict_get k (dict_set k v d) default = v.
Proof.
  induction d as [|[k' v'] d IH]; cbn [dict_set dict_get].
  - destruct (decide (k = k)); congruence.
  - destruct (decide (k' = k)) as [->|Hne]; cbn [dict_get].
    + destruct (decide (k = k)); congruence.
    + destruct (decide (k' = k)); [contradiction|exact IH].
Qed.

Lemma dict_get_set_other (k k0 : cell) (v default : V) (d : dict V) :
  k0 <> k -> dict_get k (dict_set k0 v d) default = dict_get k d default.
Proof.
  intros Hne. induction d as [|[k' v'] d IH]; cbn [dict_set dict_get].
  - destruct (decide (k0 = k)); [contradiction|reflexivity].
  - destruct (decide (k' = k0)) as [->|Hne']; cbn [dict_get].
    + destruct (decide (k0 = k)); [contradiction|reflexivity].
    + destruct (decide (k' = k)); [reflexivity|exact IH].
Qed.

Lemma dict_set_keys_old (k : cell) (v : V) (d : dict V) :
  In k (map fst d) -> map fst (dict_set k v d) = map fst d.
Proof.
  induction d as [|[k' v'] d IH]; cbn [dict_set map fst]; [intros []|].
  intros Hin. destruct (decide (k' = k)) as [->|Hne]; cbn [map fst]; [reflexivity|].
  destruct Hin as [Heq|Hin]; [contradiction|]. rewrite (IH Hin). reflexivity.
Qed.

Lemma dict_set_keys_new (k : cell) (v : V) (d : dict V) :
  ~ In k (map fst d) -> map fst (dict_set k v d) = map fst d ++ [k].
Proof.
  induction d as [|[k' v'] d IH]; cbn [dict_set map fst app]; [reflexivity|].
  intros Hn. destruct (decide (k' = k)) as [->|Hne]; cbn [map fst].
  - exfalso. apply Hn. left. reflexivity.
  - rewrite IH; [reflexivity|]. intros Hin. apply Hn. right. exact Hin.
Qed.

End WholeSummary.

Section SummaryFold.

Variable since_date : PyTime.datetime.

(** What the loop of [generate_summary] has in its three accumulators
    after any number of records. *)
Lemma summary_fold (records : list record) :
  forall (tp te : spec_float) (cat : catmap),
    NoDup (map fst cat) ->
    exists tp' te' cat',
      fold_left (summary_step since_date) records (tp, te, cat) = (tp', te', cat') /\
      tp' = fold_left PyFloat.add (income_amounts since_date records) tp /\
      te' = fold_left PyFloat.add (expense_amounts since_date records) te /\
      NoDup (map fst cat') /\
      (forall k, In k (map fst cat')
                 <-> In k (map fst cat) \/ In k (expense_categories since_date records)) /\
      (forall k, dict_get k cat' PyFloat.zero
                 = fold_left PyFloat.add (category_amounts since_date k records)
                             (dict_get k cat PyFloat.zero)).
Proof.
  induction records as [|r records IH]; intros tp te cat Hnd.
  - exists tp, te, cat. cbn. repeat split; auto. tauto.
  - cbn [fold_left income_amounts expense_amounts expense_categories category_amounts].
    unfold summary_step at 2.
    destruct (summary_verdict since_date r) as [|jumlah|kategori jumlah].
    + apply IH. exact Hnd.
    + destruct (IH (PyFloat.add tp jumlah) te cat Hnd)
        as (tp' & te' & cat' & Hf & Htp & Hte & Hnd' & Hk & Hv).
      exists tp', te', cat'. repeat split; auto; apply Hk.
    + set (cat1 := dict_set kategori
                     (PyFloat.add (dict_get kategori cat PyFloat.zero) jumlah) cat).
      assert (Hkeys : (In kategori (map fst cat) /\ map fst cat1 = map fst cat) \/
                      (~ In kategori (map fst cat) /\ map fst cat1 = map fst cat ++ [kategori])).
      { destruct (in_dec cell_eq_dec kategori (map fst cat)) as [Hin|Hn].
        - left. split; [exact Hin|]. apply dict_set_keys_old. exact Hin.
        - right. split; [exact Hn|]. apply dict_set_keys_new. exact Hn. }
      assert (Hnd1 : NoDup (map fst cat1)).
      { destruct Hkeys as [[Hin Heq]|[Hn Heq]]; rewrite Heq; [exact Hnd|].
        apply NoDup_app. split; [exact Hnd|]. split; [|apply NoDup_singleton].
        intros x Hx Hx'. apply list_elem_of_In in Hx. apply list_elem_of_singleton in Hx'.
        subst x. contradiction. }
      destruct (IH tp (PyFloat.add te jumlah) cat1 Hnd1)
        as (tp' & te' & cat' & Hf & Htp & Hte & Hnd' & Hk & Hv).
      exists tp', te', cat'. split; [exact Hf|]. split; [exact Htp|]. split; [exact Hte|].
      split; [exact Hnd'|]. split.
      * intros k. rewrite Hk.
        destruct Hkeys as [[Hin Heq]|[Hn Heq]]; rewrite Heq; cbn [In].
        -- split; [tauto|]. intros [H|[<-|H]]; auto.
        -- rewrite in_app_iff. cbn [In]. tauto.
      * intros k. rewrite Hv. unfold cat1.
        destruct (decide (kategori = k)) as [->|Hne].
        -- rewrite dict_get_set_same. reflexivity.
        -- rewrite dict_get_set_other by exact Hne. reflexivity.
Qed.

End SummaryFold.

(** X12.  What [generate_summary] returns for a whole sheet: the income
    total is the float sum, in record order, of the amounts of the
    records counted as income, the expense total that of the records
    counted as expenses; the category map has one entry for each
    category met among the expenses and no other, none twice, and the
    value of a category is the float sum, in record order, of the
    expenses of that category. *)
Theorem X12_summary_of_a_sheet (records : list record) (since_date : PyTime.datetime) :
  let '(total_pemasukan, total_pengeluaran, by_category) :=
    generate_summary records since_date in
  total_pemasukan = float_sum (income_amounts since_date records) /\
  total_pengeluaran = float_sum (expense_amounts since_date records) /\
  NoDup (map fst by_category) /\
  (forall k, In k (map fst by_category) <-> In k (expense_categories since_date records)) /\
  (forall k, dict_get k by_category PyFloat.zero
             = float_sum (category_amounts since_date k records)).
Proof.
  unfold generate_summary, empty_summary.
  destruct (summary_fold since_date records PyFloat.zero PyFloat.zero [])
    as (tp' & te' & cat' & -> & Htp & Hte & Hnd & Hk & Hv); [constructor|].
  repeat split; auto.
  - intros H. apply Hk in H. destruct H as [[]|H]. exact H.
  - intros H. apply Hk. right. exact H.
Qed.

(** ** The timestamp of a row, read back by a report *)

Section Timestamps.

Import PyTime.

Lemma range_cases (P : Z -> Prop) (lo : Z) (n : nat) :
  (forall k, (k < n)%nat -> P (lo + Z.of_nat k)) ->
  forall v, lo <= v < lo + Z.of_nat n -> P v.
Proof.
  intros H v Hv. replace v with (lo + Z.of_nat (Z.to_nat (v - lo))) by lia. apply H. lia.
Qed.

Lemma re_m_reads (v : Z) : 1 <= v <= 12 -> reads_field re_m v.
Proof.
  intros Hv. apply (range_cases (reads_field re_m) 1 12); [|lia]. clear.
  intros k Hk. do 12 (destruct k as [|k]; [field_case re_m|]). lia.
Qed.

Lemma re_d_reads (v : Z) : 1 <= v <= 31 -> reads_field re_d v.
Proof.
  intros Hv. apply (range_cases (reads_field re_d) 1 31); [|lia]. clear.
  intros k Hk. do 31 (destruct k as [|k]; [field_case re_d|]). lia.
Qed.

Lemma re_H_reads (v : Z) : 0 <= v <= 23 -> reads_field re_H v.
Proof.
  intros Hv. apply (range_cases (reads_field re_H) 0 24); [|lia]. clear.
  intros k Hk. do 24 (destruct k as [|k]; [field_case re_H|]). lia.
Qed.

Lemma re_M_reads (v : Z) : 0 <= v <= 59 -> reads_field re_M v.
Proof.
  intros Hv. apply (range_cases (reads_field re_M) 0 60); [|lia]. clear.
  intros k Hk. do 60 (destruct k as [|k]; [field_case re_M|]). lia.
Qed.

Lemma re_S_reads (v : Z) : 0 <= v <= 59 -> reads_field re_S v.
Proof.
  intros Hv. apply (range_cases (reads_field re_S) 0 60); [|lia]. clear.
  intros k Hk. do 60 (destruct k as [|k]; [field_case re_S|]). lia.
Qed.

(** Two digits, as the halves of a year are read. *)
Lemma two_digits_read (v : Z) (rest : string) :
  0 <= v <= 99 ->
  two any_digit any_digit (PyStr.pad 2 v ++ rest)%string = [(v, rest)].
Proof.
  intros Hv. revert rest.
  apply (range_cases
           (fun v => forall rest,
              two any_digit any_digit (PyStr.pad 2 v ++ rest)%string = [(v, rest)]) 0 100);
    [|lia]. clear.
  intros k Hk.
  do 100 (destruct k as [|k];
          [intros rest; set (l := two _ _ _); vm_compute in l; subst l; reflexivity|]).
  lia.
Qed.

Lemma years_in_halves : forallb year_in_halves four_digit_years = true.
Proof. vm_compute. reflexivity. Qed.

Lemma re_Y_reads (y : Z) (rest : string) :
  1000 <= y <= 9999 -> re_Y (PyStr.pad 4 y ++ rest)%string = [(y, rest)].
Proof.
  intros Hy.
  assert (Hh : year_in_halves y = true).
  { pose proof years_in_halves as H. rewrite forallb_forall in H. apply H.
    unfold four_digit_years. apply in_map_iff. exists (Z.to_nat (y - 1000)).
    split; [lia|]. apply in_seq. lia. }
  unfold year_in_halves in Hh. apply String.eqb_eq in Hh. rewrite Hh, string_app_assoc.
  unfold re_Y, m_bind at 1.
  assert (Hhi : 0 <= y / 100 <= 99).
  { split; [apply Z.div_pos; lia|].
    assert (y / 100 < 100) by (apply Z.div_lt_upper_bound; lia). lia. }
  rewrite two_digits_read by exact Hhi.
  cbn [flat_map]. unfold m_bind at 1.
  rewrite two_digits_read by (pose proof (Z.mod_pos_bound y 100); lia).
  cbn [flat_map m_ret app]. do 2 f_equal. pose proof (Z.div_mod y 100). lia.
Qed.

Context {A B : Type}.

Lemma flat_map_digit_led (k : A -> matcher B) (others : list (A * string)) :
  digit_led_all others = true -> stops_at_digit k ->
  flat_map (fun '(a, r) => k a r) others = [].
Proof.
  intros Ho Hk. induction others as [|[a r] others IH]; [reflexivity|].
  cbn [digit_led_all forallb snd] in Ho. apply andb_true_iff in Ho as [Hr Ho].
  cbn [flat_map]. rewrite (Hk a r Hr). exact (IH Ho).
Qed.

(** The first match goes through, the further ones die at the
    separator. *)
Lemma m_bind_first (p : matcher A) (k : A -> matcher B) (s : string)
    (v : A) (rest : string) (others : list (A * string)) :
  p s = (v, rest) :: others -> digit_led_all others = true -> stops_at_digit k ->
  m_bind p k s = k v rest.
Proof.
  intros Hp Ho Hk. unfold m_bind. rewrite Hp. cbn [flat_map].
  rewrite (flat_map_digit_led k others Ho Hk). apply app_nil_r.
Qed.

Lemma m_bind_one (p : matcher A) (k : A -> matcher B) (s : string) (v : A) (rest : string) :
  p s = [(v, rest)] -> m_bind p k s = k v rest.
Proof. intros Hp. unfold m_bind. rewrite Hp. cbn [flat_map]. apply app_nil_r. Qed.

(** The last field of an expression: every match is kept. *)
Lemma m_bind_last (p : matcher A) (f : A -> B) (s : string)
    (v : A) (rest : string) (others : list (A * string)) :
  p s = (v, rest) :: others -> digit_led_all others = true ->
  exists others',
    m_bind p (fun a => m_ret (f a)) s = (f v, rest) :: others' /\
    digit_led_all others' = true.
Proof.
  intros Hp Ho. unfold m_bind. rewrite Hp. cbn [flat_map m_ret app].
  exists (flat_map (fun '(a, r) => [(f a, r)]) others). split; [reflexivity|].
  clear Hp. induction others as [|[a r] others IH]; [reflexivity|].
  cbn [digit_led_all forallb snd] in Ho. apply andb_true_iff in Ho as [Hr Ho].
  cbn [flat_map app digit_led_all forallb snd]. rewrite Hr. exact (IH Ho).
Qed.

End Timestamps.

Section RoundTrip.

Import PyTime.

Lemma digit_not_space (c : ascii) : PyStr.is_digit c = true -> PyStr.is_space c = false.
Proof. intros H. by_bits c H. Qed.

Lemma lit_reads {B} (c : ascii) (k : unit -> matcher B) (r : string) :
  m_bind (lit c) k (String c r) = k tt r.
Proof.
  unfold m_bind at 1, lit, m_bind, m_char, only. rewrite Ascii.eqb_refl.
  cbn [flat_map m_ret app]. apply app_nil_r.
Qed.

Lemma lit_stops {A B} (c : ascii) (k : A -> unit -> matcher B) :
  PyStr.is_digit c = false -> stops_at_digit (fun a => m_bind (lit c) (k a)).
Proof.
  intros Hc a r Hr. destruct r as [|c0 r]; [discriminate|]. cbn [digit_led] in Hr.
  unfold m_bind at 1, lit, m_bind, m_char, only.
  destruct (Ascii.eqb c c0) eqn:He; [|reflexivity].
  apply Ascii.eqb_eq in He. subst c0. congruence.
Qed.

Lemma spaces_stops {A B} (k : A -> unit -> matcher B) :
  stops_at_digit (fun a => m_bind spaces (k a)).
Proof.
  intros a r Hr. destruct r as [|c0 r]; [discriminate|]. cbn [digit_led] in Hr.
  unfold m_bind, spaces. cbn [spaces_tail]. rewrite (digit_not_space c0 Hr). reflexivity.
Qed.

Lemma spaces_reads {B} (k : unit -> matcher B) (r : string) :
  digit_led r = true -> m_bind spaces k (String " " r) = k tt r.
Proof.
  intros Hr. unfold m_bind, spaces. cbn [spaces_tail].
  change (PyStr.is_space " ") with true. cbv beta iota.
  destruct r as [|c0 r]; [discriminate|]. cbn [digit_led] in Hr.
  cbn [spaces_tail]. rewrite (digit_not_space c0 Hr).
  cbn [app flat_map]. apply app_nil_r.
Qed.

Lemma pad2_digit_led (v : Z) (rest : string) :
  0 <= v <= 99 -> digit_led (PyStr.pad 2 v ++ rest)%string = true.
Proof.
  intros Hv. pose proof (two_digits_read v rest Hv) as H.
  destruct (PyStr.pad 2 v ++ rest)%string as [|c r]; [discriminate H|].
  unfold two, m_bind at 1, m_char in H. cbn [digit_led].
  destruct (any_digit c) eqn:Hc; [|discriminate H].
  unfold any_digit, range in Hc. apply andb_true_iff in Hc as [Hc _].
  apply andb_true_iff in Hc as [Hc _]. exact Hc.
Qed.

Lemma strftime_shape (d : datetime) :
  strftime d
  = (PyStr.pad 4 (year d) ++ String "-" (PyStr.pad 2 (month d) ++ String "-"
      (PyStr.pad 2 (day d) ++ String " " (PyStr.pad 2 (hour d) ++ String ":"
        (PyStr.pad 2 (minute d) ++ String ":" (PyStr.pad 2 (second d) ++ ""))))))%string.
Proof. reflexivity. Qed.

Lemma days_in_month_le (y m : Z) : days_in_month y m <= 31.
Proof.
  unfold days_in_month.
  destruct (m =? 2); [destruct (is_leap y); lia|].
  destruct ((m =? 4) || (m =? 6) || (m =? 9) || (m =? 11)); lia.
Qed.

Lemma valid_whole_seconds (d : datetime) : valid d = true -> valid (whole_seconds d) = true.
Proof.
  unfold valid, whole_seconds. cbn [year month day hour minute second microsecond].
  intros H. apply andb_true_iff in H as [H _]. apply andb_true_iff in H as [H _].
  rewrite H. reflexivity.
Qed.

(** The text [strftime] writes for a date is read by [strptime], with
    the same format, as that date. *)
Lemma strptime_strftime (d : datetime) :
  valid d = true -> 1000 <= year d ->
  strptime_datetime (strftime d) = Ok (whole_seconds d).
Proof.
  intros Hv Hy. pose proof (valid_whole_seconds d Hv) as Hw.
  pose proof (days_in_month_le (year d) (month d)) as Hdim.
  unfold valid in Hv. repeat (apply andb_true_iff in Hv as [Hv ?]).
  repeat match goal with H : (_ <=? _) = true |- _ => apply Z.leb_le in H end.
  rewrite strftime_shape. unfold strptime_datetime, re_datetime.
  set (r3 := (PyStr.pad 2 (hour d) ++ _)%string).
  assert (Hdate : exists others,
            re_date (PyStr.pad 4 (year d) ++ String "-" (PyStr.pad 2 (month d) ++ String "-"
                       (PyStr.pad 2 (day d) ++ String " " r3)))%string
            = ((year d, month d, day d), String " " r3) :: others /\
            digit_led_all others = true).
  { unfold re_date.
    rewrite (m_bind_one re_Y _ _ _ _ (re_Y_reads (year d) _ ltac:(lia))).
    rewrite lit_reads.
    destruct (re_m_reads (month d) ltac:(lia)
                (String "-" (PyStr.pad 2 (day d) ++ String " " r3)))
      as (o & Hp & Ho).
    rewrite (m_bind_first re_m _ _ _ _ _ Hp Ho) by (apply lit_stops; reflexivity).
    rewrite lit_reads.
    destruct (re_d_reads (day d) ltac:(lia) (String " " r3)) as (o2 & Hp2 & Ho2).
    exact (m_bind_last re_d (fun x => (year d, month d, x)) _ _ _ _ Hp2 Ho2). }
  destruct Hdate as (o & Hd & Ho).
  rewrite (m_bind_first re_date _ _ _ _ _ Hd Ho)
    by (intros [[? ?] ?] r Hr; apply (spaces_stops (fun _ : unit => _) tt r Hr)).
  cbv beta iota.
  rewrite spaces_reads by (apply pad2_digit_led; lia). subst r3.
  destruct (re_H_reads (hour d) ltac:(lia)
              (String ":" (PyStr.pad 2 (minute d) ++ String ":" (PyStr.pad 2 (second d) ++ ""))))
    as (oh & Hph & Hoh).
  rewrite (m_bind_first re_H _ _ _ _ _ Hph Hoh) by (apply lit_stops; reflexivity).
  rewrite lit_reads.
  destruct (re_M_reads (minute d) ltac:(lia) (String ":" (PyStr.pad 2 (second d) ++ "")))
    as (om & Hpm & Hom).
  rewrite (m_bind_first re_M _ _ _ _ _ Hpm Hom) by (apply lit_stops; reflexivity).
  rewrite lit_reads.
  destruct (re_S_reads (second d) ltac:(lia) "") as (os & Hps & Hos).
  destruct (m_bind_last re_S
              (fun x => mk_datetime (year d) (month d) (day d) (hour d) (minute d) x 0)
              _ _ _ _ Hps Hos) as (os' & Hlast & _).
  rewrite Hlast. unfold finish. fold (whole_seconds d). rewrite Hw. reflexivity.
Qed.

Lemma contains_char_app_cons (c : ascii) (a : string) (x : ascii) (b : string) :
  PyStr.contains_char c (a ++ String x b)
  = PyStr.contains_char c a || (Ascii.eqb c x || PyStr.contains_char c b).
Proof. rewrite contains_char_app. reflexivity. Qed.

Lemma strftime_has_blank (d : datetime) : PyStr.contains_char " " (strftime d) = true.
Proof.
  rewrite strftime_shape. rewrite !contains_char_app_cons.
  change (Ascii.eqb " " " ") with true. cbn [orb].
  repeat (rewrite orb_true_r; cbn [orb]). reflexivity.
Qed.

Lemma parse_time_strftime (d : datetime) :
  valid d = true -> 1000 <= year d ->
  parse_time (CStr (strftime d)) = Ok (whole_seconds d).
Proof.
  intros Hv Hy. unfold parse_time. rewrite strftime_has_blank.
  apply strptime_strftime; assumption.
Qed.

Lemma strftime_truthy (d : datetime) : truthy (Some (CStr (strftime d))) = true.
Proof.
  pose proof (strftime_has_blank d) as H. unfold truthy.
  destruct (strftime d); [discriminate H|reflexivity].
Qed.

End RoundTrip.

(** X13.  The timestamp of a row is read back by the reports: the text
    that [catat_konfirm] writes for a clock reading, with the format
    ['%Y-%m-%d %H:%M:%S'], is parsed by [generate_summary], which takes
    the branch of the same format because the text holds a blank, as that
    reading cut to whole seconds.  This holds for every valid date of a
    four-digit year. *)
Theorem X13_timestamp_round_trip (d : PyTime.datetime) :
  PyTime.valid d = true -> 1000 <= PyTime.year d ->
  PyStr.contains_char " " (PyTime.strftime d) = true /\
  PyTime.strptime_datetime (PyTime.strftime d) = Ok (whole_seconds d) /\
  parse_time (CStr (PyTime.strftime d)) = Ok (whole_seconds d).
Proof.
  intros Hv Hy. split; [apply strftime_has_blank|].
  split; [apply strptime_strftime|apply parse_time_strftime]; assumption.
Qed.

Lemma X13_witness_clock :
  parse_time (CStr (PyTime.strftime Sample.clock)) = Ok (whole_seconds Sample.clock).
Proof.
  apply (X13_timestamp_round_trip Sample.clock); [reflexivity|vm_compute; discriminate].
Defined.

(** X14.  What the dialog writes, the reports count.  A record in which
    the report finds the timestamp written by [catat_konfirm], one of
    the two types the dialog accepts and an integer amount below 2^53 is
    never skipped for its content: it is left out only when its time,
    cut to whole seconds, is before the start of the window; otherwise
    it is counted, as income when the type is 'pemasukan' and as an
    expense of its category when it is 'pengeluaran', with exactly the
    amount written. *)
Theorem X14_written_rows_are_counted
    (since_date now : PyTime.datetime) (r : record) (jenis : string) (n : Z) :
  PyTime.valid now = true -> 1000 <= PyTime.year now ->
  record_time r = Some (CStr (PyTime.strftime now)) ->
  record_jenis r = Some (CStr jenis) ->
  jenis = "pemasukan"%string \/ jenis = "pengeluaran"%string ->
  record_jumlah r = CInt n -> 0 <= n < 2 ^ 53 ->
  summary_verdict since_date r
  = if PyTime.ltb (whole_seconds now) since_date then Skip
    else if String.eqb jenis "pemasukan" then Income (PyFloat.nearest n)
         else Expense (record_kategori r) (PyFloat.nearest n).
Proof.
  intros Hv Hy Ht Hj Hjenis Hn Hrange. unfold summary_verdict, summary_body.
  rewrite Ht, strftime_truthy. cbn [negb]. rewrite (parse_time_strftime now Hv Hy).
  destruct (PyTime.ltb (whole_seconds now) since_date); [reflexivity|].
  rewrite Hn. cbn [cell_float]. rewrite (of_Z_nearest n Hrange). rewrite Hj.
  destruct Hjenis as [-> | ->]; reflexivity.
Qed.

Lemma X14_witness_makan :
  summary_verdict Sample.since (Sample.expense "2024-01-08 10:00:00" "makan" 20000)
  = Expense (CStr "makan") (PyFloat.nearest 20000).
Proof.
  apply (X14_written_rows_are_counted Sample.since Sample.clock
           (Sample.expense "2024-01-08 10:00:00" "makan" 20000) "pengeluaran" 20000);
    try reflexivity; [vm_compute; discriminate|right; reflexivity|lia].
Defined.

(** ** A report over whole amounts *)

Section WholeAmounts.

Import FloatExact.










End WholeAmounts.



(** ** The commands that always answer *)

